(** * The Auphonic job orchestrator of [optimize_audio.py], embedded in Rocq

    The script uploads an audio file, polls the production until it reaches a
    terminal state, downloads the results, merges them into
    [file_index.json] and prints a summary.  This file embeds the functions
    [upload_and_start], [poll_status], [download_results], [update_index],
    [extract_stats] and the part of [main] that calls them, and proves the
    properties the specification states about them.

    Modelling choices.
    - JSON documents are values of [json], with Python's truthiness, [==],
      [.get], subscripting and iteration written out, including the
      exceptions they raise on values of the wrong shape.
    - A Python [dict] keeps insertion order, so it is an association list
      updated in place ([dict_set]).
    - Effects go through a state-and-error monad [M] over a [world]: the
      trace of observable events (diagnostics, sleeps, HTTP requests, file
      operations), the files on disk and the number of write calls the disk
      still accepts.
    - The remote service is a script [net]: the reply to the n-th request.
      The [requests] library is modelled at the level of the responses it
      returns and of the exceptions it raises instead ([conditions]).  A
      statement about an [environment] [E] is a statement about the
      conditions [reliable E], under which every call is answered and every
      transfer ends normally; the statements about failures of the
      transport quantify over all [conditions]. *)

From Stdlib Require Import ZArith QArith Ascii String List Bool Lia.
From stdpp Require Import gmap strings list.

Open Scope Z_scope.
Set Warnings "-register-all".

(** ** JSON values as [json.load] builds them *)

Inductive pyfloat :=
| FNan
| FInf (negative : bool)
| FFin (q : Q).

Inductive json :=
| JNull
| JBool (b : bool)
| JInt (n : Z)
| JFloat (x : pyfloat)
| JStr (s : string)
| JList (l : list json)
| JDict (d : list (string * json)).

(** ** Python dictionaries: insertion-ordered association lists *)

Section Dict.
Context {V : Type}.

Fixpoint dict_get (k : string) (d : list (string * V)) : option V :=
  match d with
  | [] => None
  | (k', v) :: r => if String.eqb k' k then Some v else dict_get k r
  end.

(** [d[k] = v]: an existing key keeps its position, a new key goes last. *)
Fixpoint dict_set (k : string) (v : V) (d : list (string * V)) : list (string * V) :=
  match d with
  | [] => [(k, v)]
  | (k', v') :: r =>
      if String.eqb k' k then (k', v) :: r else (k', v') :: dict_set k v r
  end.

Definition dict_keys (d : list (string * V)) : list string := map fst d.
End Dict.

(** ** Outcomes of a call *)

Inductive exn :=
| AttributeError
| TypeError
| KeyError
| IndexError
| ValueError
| OSError
| RequestException.

(** [Exit c] is [sys.exit(c)]; [OutOfFuel] only marks a loop model that ran
    out of unfoldings (see [poll_status_fuel]). *)
Inductive outcome (A : Type) :=
| Ret (a : A)
| Raise (e : exn)
| Exit (code : Z)
| OutOfFuel.

Arguments Ret {A} a.
Arguments Raise {A} e.
Arguments Exit {A} code.
Arguments OutOfFuel {A}.

Definition obind {A B} (m : outcome A) (k : A -> outcome B) : outcome B :=
  match m with
  | Ret a => k a
  | Raise e => Raise e
  | Exit c => Exit c
  | OutOfFuel => OutOfFuel
  end.

Notation "x <~ m ;; k" := (obind m (fun x => k))
  (at level 100, m at next level, right associativity).

(** ** Python operations on JSON values *)

Definition float_is_zero (x : pyfloat) : bool :=
  match x with
  | FFin q => Qeq_bool q 0
  | _ => false
  end.

(** [bool(v)] *)
Definition truthy (v : json) : bool :=
  match v with
  | JNull => false
  | JBool b => b
  | JInt n => negb (n =? 0)
  | JFloat x => negb (float_is_zero x)
  | JStr s => negb (String.eqb s "")
  | JList l => match l with [] => false | _ => true end
  | JDict d => match d with [] => false | _ => true end
  end.

(** [v == n] for an integer constant [n]: numbers compare by value
    ([3.0 == 3], [True == 1]); every other value differs from a number. *)
Definition py_eq_int (v : json) (n : Z) : bool :=
  match v with
  | JInt m => m =? n
  | JBool b => Z.b2z b =? n
  | JFloat (FFin q) => Qeq_bool q (inject_Z n)
  | _ => false
  end.

(** [v == s] for a string constant [s]. *)
Definition py_eq_str (v : json) (s : string) : bool :=
  match v with
  | JStr t => String.eqb t s
  | _ => false
  end.

(** [v in (s1, s2, ...)] for a tuple of string constants. *)
Definition py_in_strs (v : json) (l : list string) : bool :=
  existsb (py_eq_str v) l.

(** [o.get(k, default)]: only dictionaries have [get]. *)
Definition py_get (o : json) (k : string) (default : json) : outcome json :=
  match o with
  | JDict d => Ret (match dict_get k d with Some v => v | None => default end)
  | _ => Raise AttributeError
  end.

(** [o[k]] for a string key. *)
Definition py_getitem (o : json) (k : string) : outcome json :=
  match o with
  | JDict d => match dict_get k d with Some v => Ret v | None => Raise KeyError end
  | _ => Raise TypeError
  end.

(** [o[i]] for an index [i >= 0]: lists and strings are indexed, a dictionary
    loaded from JSON has no integer key, nothing else is subscriptable. *)
Definition py_index (o : json) (i : nat) : outcome json :=
  match o with
  | JList l => match nth_error l i with Some v => Ret v | None => Raise IndexError end
  | JStr s => match String.get i s with
              | Some c => Ret (JStr (String c EmptyString))
              | None => Raise IndexError
              end
  | JDict _ => Raise KeyError
  | _ => Raise TypeError
  end.

Definition chars (s : string) : list json :=
  map (fun c => JStr (String c EmptyString)) (list_ascii_of_string s).

(** [for x in o]: a list yields its items, a string its characters, a
    dictionary its keys; nothing else is iterable. *)
Definition py_iter (o : json) : outcome (list json) :=
  match o with
  | JList l => Ret l
  | JStr s => Ret (chars s)
  | JDict d => Ret (map (fun kv => JStr (fst kv)) d)
  | _ => Raise TypeError
  end.

(** [o[k] = v] on a value obtained from [.get]: a dictionary. *)
Definition py_setitem (o : json) (k : string) (v : json) : outcome json :=
  match o with
  | JDict d => Ret (JDict (dict_set k v d))
  | _ => Raise TypeError
  end.

(** [o.setdefault(k, v)] *)
Definition py_setdefault (o : json) (k : string) (v : json) : outcome json :=
  match o with
  | JDict d => Ret (match dict_get k d with Some _ => o | None => JDict (dict_set k v d) end)
  | _ => Raise AttributeError
  end.

(** ** The world: events, files, the remote service *)

Inductive request :=
| Post (url : string) (api_key : string) (input_file : string) (preset title action : string)
| Get (url : json) (api_key : string).

Record response := Response {
  status_code : Z;
  text : string;
  json_body : option json;   (* [resp.json()], [None] when the body is not JSON *)
  content : list string      (* the chunks of [resp.iter_content] *)
}.

(** The entries [download_results] returns. *)
Record dl_entry := DlEntry {
  dl_filename : json;
  dl_format : json;
  dl_size : json;
  dl_path : string
}.

(** The summary [main] prints. *)
Record summary := Summary {
  s_status : string;
  s_production_uuid : json;
  s_preset : string;
  s_input_file : string;
  s_output_files : list dl_entry;
  s_duration : json;
  s_warnings : json;
  s_audio_stats : option (list (string * string))
}.

(** The diagnostics written to [sys.stderr], one constructor per [print]. *)
Inductive message :=
| MsgUploading (name : string)
| ErrApiStatus (code : Z) (body : string)
| ErrApplication (error_message : json)
| MsgProcessing (production_uuid : json)
| WarnStatusCheck (code : Z)
| MsgStatus (status_string : json) (waited : Z)
| ErrProductionFailed (error_message : json)
| ErrTimedOut (after : Z)
| MsgDownloading (filename : json)
| WarnDownloadFailed (filename : json) (code : Z)
| WarnNoOutputs.

Inductive event :=
| Stderr (m : message)
| Stdout (s : summary)
| Sleep (seconds : Z)
| Http (r : request)
| Mkdir (path : string)
| OpenWrite (path : string)
| Write (path : string) (chunk : string).

Record world := World {
  w_trace : list event;
  w_files : gmap string string;
  w_budget : option nat   (* write calls the disk still accepts; [None]: no limit *)
}.

Definition M (A : Type) : Type := world -> outcome A * world.

Definition ret {A} (a : A) : M A := fun w => (Ret a, w).

Definition bind {A B} (m : M A) (k : A -> M B) : M B :=
  fun w =>
    match m w with
    | (Ret a, w') => k a w'
    | (Raise e, w') => (Raise e, w')
    | (Exit c, w') => (Exit c, w')
    | (OutOfFuel, w') => (OutOfFuel, w')
    end.

Notation "x <- m ;; k" := (bind m (fun x => k))
  (at level 100, m at next level, right associativity).
Notation "m ;; k" := (bind m (fun _ => k))
  (at level 100, right associativity).

Definition lift {A} (o : outcome A) : M A := fun w => (o, w).

Definition emit (e : event) : M unit :=
  fun w => (Ret tt, World (w_trace w ++ [e]) (w_files w) (w_budget w)).

Definition stderr (m : message) : M unit := emit (Stderr m).

Definition sys_exit {A} (code : Z) : M A := fun w => (Exit code, w).

Definition sleep (seconds : Z) : M unit := emit (Sleep seconds).

Fixpoint requests_made (tr : list event) : nat :=
  match tr with
  | [] => O
  | Http _ :: r => S (requests_made r)
  | _ :: r => requests_made r
  end.

Fixpoint slept (tr : list event) : Z :=
  match tr with
  | [] => 0
  | Sleep s :: r => s + slept r
  | _ :: r => slept r
  end.

(** [resp.json()] *)
Definition resp_json (r : response) : outcome json :=
  match json_body r with
  | Some v => Ret v
  | None => Raise ValueError
  end.

(** [for x in l: s = body(x, s)] *)
Fixpoint for_each {A S : Type} (l : list A) (body : A -> S -> M S) (s : S) : M S :=
  match l with
  | [] => ret s
  | x :: r => s' <- body x s ;; for_each r body s'
  end.

(** ** Constants of the script *)

Definition API_BASE : string := "https://auphonic.com/api".
Definition STATUS_DONE : Z := 3.
Definition STATUS_ERROR : Z := 9.
Definition STATUS_INCOMPLETE : Z := 13.
Definition POLL_INTERVAL : Z := 10.
Definition MAX_POLL_TIME : Z := 600.

(** ["\n"] *)
Definition newline : string := String (ascii_of_nat 10) EmptyString.

(** The format tags [download_results] skips (the tuple of line 189). *)
Definition skipped_formats : list string :=
  ["descr"; "stats"; "chaps"; "psc"; "cut-list"; "waveform"; "image"]%string.

(** ** What the script takes from its libraries and surroundings

    - [net n r]: the response of the remote service to request [r] when it
      is the [n]-th request of the run (counted from 0);
    - [format_value v]: [str(v)] for a value that is not a string;
    - [path_join], [path_name], [relative_to_root]: [pathlib]'s [/], [.name]
      and [.relative_to(REPO_ROOT)] ([None]: [ValueError]);
    - [json_dump v]: the chunks [json.dump(v, f, indent=2)] writes, one per
      call of [f.write]; [json_load s]: [json.load] on a file holding [s]
      ([None]: the content is not JSON);
    - [today i]: [datetime.now().strftime("%Y-%m-%d")] at the [i]-th
      iteration of the loop of [update_index]. *)
Record environment := Environment {
  net : nat -> request -> response;
  format_value : json -> string;
  path_join : string -> string -> string;
  path_name : string -> string;
  relative_to_root : string -> option string;
  json_dump : json -> list string;
  json_load : string -> option json;
  today : nat -> string
}.

(** ** Failures of the surroundings

    [requests.get], [requests.post] and [resp.iter_content] raise a
    [requests.exceptions.RequestException] (a timeout, a refused connection,
    a broken transfer) instead of answering, [open(path, "rb")] raises an
    [OSError] on a file that cannot be read, and no function of the script
    catches either:
    - [open_fault path]: what opening [path] for reading raises ([None]:
      the file opens);
    - [net_fault n r]: what the [n]-th call raises, when it is made with
      request [r] ([None]: the call returns the response [net n r]);
    - [stream_fault n r]: what [iter_content] raises after the chunks of that
      response have arrived ([None]: the transfer ends normally). *)
Record conditions := Conditions {
  env : environment;
  open_fault : string -> option exn;
  net_fault : nat -> request -> option exn;
  stream_fault : nat -> request -> option exn
}.

(** The conditions under which the input file opens, every call is answered
    and every transfer ends normally. *)
Definition reliable (E : environment) : conditions :=
  Conditions E (fun _ => None) (fun _ _ => None) (fun _ _ => None).

Coercion reliable : environment >-> conditions.

(** ** Primitive actions *)

(** [str(v)], as an f-string applies it. *)
Definition py_str (E : environment) (v : json) : string :=
  match v with
  | JStr s => s
  | _ => format_value E v
  end.

(** [requests.get] / [requests.post]: the call is recorded; it raises, or
    the service answers according to its script. *)
Definition http (C : conditions) (r : request) : M response :=
  fun w =>
    (match net_fault C (requests_made (w_trace w)) r with
     | Some e => Raise e
     | None => Ret (net (env C) (requests_made (w_trace w)) r)
     end,
     World (w_trace w ++ [Http r]) (w_files w) (w_budget w)).

(** [open(path, "rb")] on the input file: it opens, or the call raises. *)
Definition open_rb (C : conditions) (path : string) : M unit :=
  fun w =>
    (match open_fault C path with
     | Some e => Raise e
     | None => Ret tt
     end, w).

(** [open(path, "w")]: the file is created or truncated. *)
Definition open_w (path : string) : M unit :=
  fun w => (Ret tt, World (w_trace w ++ [OpenWrite path])
                          (<[path := ""%string]> (w_files w)) (w_budget w)).

(** [f.write(chunk)]: appends to the file, or raises when the disk takes no
    more writes. *)
Definition write (path chunk : string) : M unit :=
  fun w =>
    match w_budget w with
    | Some O => (Raise OSError, w)
    | b =>
        (Ret tt,
         World (w_trace w ++ [Write path chunk])
               (<[path := (default ""%string (w_files w !! path) +:+ chunk)]> (w_files w))
               (Nat.pred <$> b))
    end.

Definition write_all (path : string) (chunks : list string) : M unit :=
  for_each chunks (fun c _ => write path c) tt.

(** The end of [for chunk in resp.iter_content(...)], for the response to
    the call made last: the transfer ends, or breaks. *)
Definition end_of_stream (C : conditions) (r : request) : M unit :=
  fun w =>
    (match stream_fault C (Nat.pred (requests_made (w_trace w))) r with
     | Some e => Raise e
     | None => Ret tt
     end, w).

(** [path.exists()] *)
Definition path_exists (path : string) : M bool :=
  fun w => (Ret (match w_files w !! path with Some _ => true | None => false end), w).

(** [with open(path) as f: json.load(f)] *)
Definition load_json (E : environment) (path : string) : M json :=
  fun w =>
    match w_files w !! path with
    | Some s =>
        match json_load E s with
        | Some v => (Ret v, w)
        | None => (Raise ValueError, w)
        end
    | None => (Raise OSError, w)
    end.

(** ** [upload_and_start] (lines 112-138) *)

Definition upload_and_start (C : conditions) (api_key file_path preset_uuid title : string)
  : M json :=
  stderr (MsgUploading (path_name (env C) file_path)) ;;
  open_rb C file_path ;;
  resp <- http C (Post (API_BASE +:+ "/simple/productions.json") api_key
                       (path_name (env C) file_path) preset_uuid title "start") ;;
  if negb (status_code resp =? 200) then
    stderr (ErrApiStatus (status_code resp) (text resp)) ;;
    sys_exit 1
  else
    body <- lift (resp_json resp) ;;
    error_code <- lift (py_get body "error_code" JNull) ;;
    if truthy error_code then
      error_message <- lift (py_get body "error_message" (JStr "Unknown error")) ;;
      stderr (ErrApplication error_message) ;;
      sys_exit 1
    else
      lift (py_getitem body "data").

(** ** [poll_status] (lines 141-173) *)

Definition status_url (E : environment) (production_uuid : json) : string :=
  API_BASE +:+ "/production/" +:+ py_str E production_uuid +:+ ".json".

(** The [while] loop; [fuel] bounds the number of unfoldings. *)
Fixpoint poll_loop (C : conditions) (fuel : nat) (api_key : string)
    (production_uuid : json) (waited : Z) : M json :=
  match fuel with
  | O => fun w => (OutOfFuel, w)
  | S fuel =>
      if waited <? MAX_POLL_TIME then
        sleep POLL_INTERVAL ;;
        let waited := waited + POLL_INTERVAL in
        resp <- http C (Get (JStr (status_url (env C) production_uuid)) api_key) ;;
        if negb (status_code resp =? 200) then
          stderr (WarnStatusCheck (status_code resp)) ;;
          poll_loop C fuel api_key production_uuid waited
        else
          body <- lift (resp_json resp) ;;
          data <- lift (py_get body "data" (JDict [])) ;;
          status <- lift (py_get data "status" JNull) ;;
          status_str <- lift (py_get data "status_string" (JStr "Unknown")) ;;
          stderr (MsgStatus status_str waited) ;;
          if py_eq_int status STATUS_DONE then
            ret data
          else if py_eq_int status STATUS_ERROR || py_eq_int status STATUS_INCOMPLETE then
            error_msg <- lift (py_get data "error_message" (JStr "Unknown error")) ;;
            stderr (ErrProductionFailed error_msg) ;;
            sys_exit 1
          else
            poll_loop C fuel api_key production_uuid waited
      else
        stderr (ErrTimedOut MAX_POLL_TIME) ;;
        sys_exit 1
  end.

(** Every iteration adds [POLL_INTERVAL >= 1] to [waited], so
    [MAX_POLL_TIME + 1] unfoldings are more than the loop can use. *)
Definition poll_fuel : nat := S (Z.to_nat MAX_POLL_TIME).

Definition poll_status (C : conditions) (api_key : string) (production_uuid : json)
  : M json :=
  stderr (MsgProcessing production_uuid) ;;
  poll_loop C poll_fuel api_key production_uuid 0.

(** ** [download_results] (lines 176-215) *)

(** [output_path / filename]: [pathlib] accepts a string only. *)
Definition path_div (E : environment) (dir : string) (name : json) : outcome string :=
  match name with
  | JStr s => Ret (path_join E dir s)
  | _ => Raise TypeError
  end.

(** [str(dest.relative_to(REPO_ROOT))] *)
Definition relative_to (E : environment) (dest : string) : outcome string :=
  match relative_to_root E dest with
  | Some p => Ret p
  | None => Raise ValueError
  end.

(** The body of the [for] loop, for one output file ([of] in the source). *)
Definition download_one (C : conditions) (api_key output_path : string)
    (of_ : json) (downloaded : list dl_entry) : M (list dl_entry) :=
  url <- lift (py_get of_ "download_url" JNull) ;;
  filename <- lift (py_get of_ "filename" JNull) ;;
  if negb (truthy url) || negb (truthy filename) then
    ret downloaded
  else
    fmt <- lift (py_get of_ "format" (JStr "")) ;;
    if py_in_strs fmt skipped_formats then
      ret downloaded
    else
      stderr (MsgDownloading filename) ;;
      resp <- http C (Get url api_key) ;;
      if negb (status_code resp =? 200) then
        stderr (WarnDownloadFailed filename (status_code resp)) ;;
        ret downloaded
      else
        dest <- lift (path_div (env C) output_path filename) ;;
        open_w dest ;;
        write_all dest (content resp) ;;
        end_of_stream C (Get url api_key) ;;
        size <- lift (py_get of_ "size_string" (JStr "")) ;;
        path <- lift (relative_to (env C) dest) ;;
        ret (downloaded ++ [DlEntry filename fmt size path]).

Definition download_results (C : conditions) (api_key : string)
    (production_data : json) (output_path : string) : M (list dl_entry) :=
  emit (Mkdir output_path) ;;
  output_files <- lift (py_get production_data "output_files" (JList [])) ;;
  items <- lift (py_iter output_files) ;;
  for_each items (download_one C api_key output_path) [].

(** ** [update_index] (lines 218-243) *)

(** The body of the [for] loop: the entry of one downloaded file. *)
Definition reconcile_entry (E : environment) (output_dir : string)
    (production_uuid : json) (date : string) (dl : dl_entry) (index : json)
  : outcome json :=
  let key := (output_dir +:+ "/" +:+ py_str E (dl_filename dl)) in
  entry <~ py_get index key (JDict []) ;;
  added <~ py_get entry "added" (JStr date) ;;
  entry <~ py_setitem entry "added" added ;;
  entry <~ py_setitem entry "type" (JStr "audio") ;;
  entry <~ py_setdefault entry "description" (JStr "") ;;
  entry <~ py_setdefault entry "notes" (JStr "") ;;
  entry <~ py_setitem entry "origin"
             (JDict [("skill", JStr "auphonic-optimize");
                     ("auphonic_production", production_uuid);
                     ("format", dl_format dl)]%string) ;;
  py_setitem index key entry.

(** The [for] loop; [i] counts the iterations for the clock. *)
Fixpoint reconcile (E : environment) (output_dir : string) (production_uuid : json)
    (i : nat) (downloaded : list dl_entry) (index : json) : outcome json :=
  match downloaded with
  | [] => Ret index
  | dl :: rest =>
      index' <~ reconcile_entry E output_dir production_uuid (today E i) dl index ;;
      reconcile E output_dir production_uuid (S i) rest index'
  end.

Definition index_file (E : environment) (project_path : string) : string :=
  path_join E project_path "file_index.json".

Definition update_index (E : environment) (project_path output_dir : string)
    (downloaded : list dl_entry) (production_uuid : json) : M unit :=
  let index_path := index_file E project_path in
  found <- path_exists index_path ;;
  index <- (if found then load_json E index_path else ret (JDict [])) ;;
  index <- lift (reconcile E output_dir production_uuid 0 downloaded index) ;;
  open_w index_path ;;
  write_all index_path (json_dump E index) ;;
  write index_path newline.

(** ** [extract_stats] (lines 246-271) *)

Fixpoint ofold {A S : Type} (l : list A) (body : A -> S -> outcome S) (s : S) : outcome S :=
  match l with
  | [] => Ret s
  | x :: r => s' <~ body x s ;; ofold r body s'
  end.

(** [f"{src[field][0]} {src[field][1]}"] *)
Definition value_unit (E : environment) (src : json) (field : string) : outcome string :=
  x <~ py_getitem src field ;;
  v <~ py_index x 0 ;;
  y <~ py_getitem src field ;;
  u <~ py_index y 1 ;;
  Ret (py_str E v +:+ " " +:+ py_str E u).

(** [if src.get(field): result[key] = f"..."] *)
Definition add_metric (E : environment) (src : json) (field key : string)
    (result : list (string * string)) : outcome (list (string * string)) :=
  present <~ py_get src field JNull ;;
  if truthy present then
    s <~ value_unit E src field ;;
    Ret (dict_set key s result)
  else Ret result.

(** [result[f"cuts_{c['name']}"] = f"{c['count']} cuts ({c['percent']}%)"]:
    the right-hand side is evaluated first. *)
Definition add_cut (E : environment) (c : json) (result : list (string * string))
  : outcome (list (string * string)) :=
  count <~ py_getitem c "count" ;;
  percent <~ py_getitem c "percent" ;;
  name <~ py_getitem c "name" ;;
  Ret (dict_set ("cuts_" +:+ py_str E name)
                (py_str E count +:+ " cuts (" +:+ py_str E percent +:+ "%)") result).

Definition extract_stats (E : environment) (production_data : json)
  : outcome (option (list (string * string))) :=
  stats <~ py_get production_data "statistics" (JDict []) ;;
  levels <~ py_get stats "levels" JNull ;;
  if negb (truthy levels) then Ret None
  else
    let result := [] in
    inp <~ py_get levels "input" (JDict []) ;;
    out <~ py_get levels "output" (JDict []) ;;
    result <~ add_metric E inp "loudness" "input_loudness" result ;;
    result <~ add_metric E inp "snr" "input_snr" result ;;
    result <~ add_metric E out "loudness" "output_loudness" result ;;
    result <~ add_metric E out "peak" "output_peak" result ;;
    cuts <~ py_get stats "cuts" JNull ;;
    result <~ (if truthy cuts then
                 cs <~ py_iter cuts ;;
                 ofold cs (add_cut E) result
               else Ret result) ;;
    Ret (match result with [] => None | _ => Some result end).

(** ** [main], from the submission on (lines 295-322) *)

(** Lines 300-322: download, index, statistics, summary. *)
Definition complete_run (C : conditions) (api_key preset_uuid project_path : string)
    (file output_dir : string) (production_uuid production_data : json) : M unit :=
  let output_path := path_join (env C) project_path output_dir in
  downloaded <- download_results C api_key production_data output_path ;;
  (match downloaded with
   | [] => stderr WarnNoOutputs
   | _ => ret tt
   end) ;;
  update_index (env C) project_path output_dir downloaded production_uuid ;;
  audio_stats <- lift (extract_stats (env C) production_data) ;;
  duration <- lift (py_get production_data "length_timestring" (JStr "")) ;;
  warning <- lift (py_get production_data "warning_message" (JStr "")) ;;
  emit (Stdout (Summary "ok" production_uuid preset_uuid file downloaded duration
                        (if truthy warning then warning else JNull)
                        audio_stats)).

Definition run (C : conditions) (api_key preset_uuid project_path : string)
    (file output_dir title : string) : M unit :=
  production_data <- upload_and_start C api_key (path_join (env C) project_path file)
                                      preset_uuid title ;;
  production_uuid <- lift (py_getitem production_data "uuid") ;;
  production_data <- poll_status C api_key production_uuid ;;
  complete_run C api_key preset_uuid project_path file output_dir
               production_uuid production_data.

(** ** The terminal classification of [poll_status]

    The codes on which the loop stops: [STATUS_DONE] returns the snapshot,
    [STATUS_ERROR] and [STATUS_INCOMPLETE] abort the run. *)
Definition terminal_status (status : json) : bool :=
  py_eq_int status STATUS_DONE
  || py_eq_int status STATUS_ERROR
  || py_eq_int status STATUS_INCOMPLETE.

(** The status query of [poll_status]. *)
Definition status_query (E : environment) (api_key : string) (production_uuid : json)
  : request :=
  Get (JStr (status_url E production_uuid)) api_key.

(** What a status query reports (lines 155-159): the object under ["data"]
    of the JSON body of a response with code 200. *)
Definition status_report (resp : response) : option (list (string * json)) :=
  if status_code resp =? 200 then
    match json_body resp with
    | Some body =>
        match py_get body "data" (JDict []) with
        | Ret (JDict d) => Some d
        | _ => None
        end
    | None => None
    end
  else None.

(** [data.get("status")] and [data.get("status_string", "Unknown")]. *)
Definition report_status (d : list (string * json)) : json :=
  default JNull (dict_get "status" d).
Definition report_string (d : list (string * json)) : json :=
  default (JStr "Unknown") (dict_get "status_string" d).

(** The events of consecutive iterations of [poll_status] that start with
    [waited] seconds elapsed and read the reports [reports] with query [q]:
    each one sleeps, queries and prints the status with the elapsed time. *)
Fixpoint running_trace (q : request) (waited : Z)
    (reports : list (list (string * json))) : list event :=
  match reports with
  | [] => []
  | d :: reports =>
      Sleep POLL_INTERVAL :: Http q
        :: Stderr (MsgStatus (report_string d) (waited + POLL_INTERVAL))
        :: running_trace q (waited + POLL_INTERVAL) reports
  end.

(** The world after [events] happened in [w]. *)
Definition after (w : world) (events : list event) : world :=
  World (w_trace w ++ events) (w_files w) (w_budget w).

(** ** Sample inputs *)

Definition empty_world : world := World [] ∅ None.

(** An environment around a service script: POSIX-like paths, no file
    outside the repository, and stand-ins for the formatting, JSON and clock
    functions. *)
Definition sample_env (script : nat -> request -> response) : environment :=
  Environment script
    (fun _ => "?"%string)
    (fun dir name => (dir +:+ "/" +:+ name)%string)
    (fun p => p)
    (fun p => Some p)
    (fun _ => ["{}"%string])
    (fun _ => Some (JDict []))
    (fun _ => "2026-03-01"%string).

Definition status_body (code : Z) (status_string : string) : json :=
  JDict [("data", JDict [("status", JInt code);
                         ("status_string", JStr status_string)])]%string.

Definition ok_response (body : json) : response :=
  Response 200 "" (Some body) [].

Definition error_response (code : Z) : response :=
  Response code "error" None [].

(** The service reports "processing" once, then "done". *)
Definition script_done_on_second (n : nat) (r : request) : response :=
  match n with
  | O => ok_response (status_body 2 "Audio Processing")
  | _ => ok_response (status_body 3 "Done")
  end.

(** Every request is answered with HTTP 503. *)
Definition script_unavailable (n : nat) (r : request) : response :=
  error_response 503.

(** ** Vocabulary for the Downloader *)

(** The fields [download_one] reads from the descriptor [d] of an output
    file, with the defaults of its [.get] calls. *)
Definition artifact_url (d : list (string * json)) : json :=
  default JNull (dict_get "download_url" d).
Definition artifact_filename (d : list (string * json)) : json :=
  default JNull (dict_get "filename" d).
Definition artifact_format (d : list (string * json)) : json :=
  default (JStr "") (dict_get "format" d).

(** The file an event opens or writes, if any. *)
Definition touched_path (e : event) : option string :=
  match e with
  | OpenWrite p => Some p
  | Write p _ => Some p
  | _ => None
  end.

(** An event of [download_results] is accounted for by the output files
    [items]: when it touches a file, some descriptor in [items] names that
    file and carries a format tag outside [skipped_formats]. *)
Definition accounted (E : environment) (output_path : string) (items : list json)
    (e : event) : Prop :=
  forall p, touched_path e = Some p ->
    exists d f,
      In (JDict d) items
      /\ artifact_filename d = JStr f
      /\ p = path_join E output_path f
      /\ py_in_strs (artifact_format d) skipped_formats = false.

(** The output files [download_results] iterates over:
    [production_data.get("output_files", [])], as the [for] loop sees it. *)
Definition output_items (production_data : json) : outcome (list json) :=
  output_files <~ py_get production_data "output_files" (JList []) ;;
  py_iter output_files.

(** [run_adds E output_path items w w' new]: going from [w] to [w'] added the
    events [new], all accounted for by [items], and changed no file that no
    event of [new] touches. *)
Definition run_adds (E : environment) (output_path : string) (items : list json)
    (w w' : world) (new : list event) : Prop :=
  w_trace w' = w_trace w ++ new
  /\ Forall (accounted E output_path items) new
  /\ (forall q, (forall e, In e new -> touched_path e <> Some q) ->
                w_files w' !! q = w_files w !! q).

(** The three events of a download that the service refuses. *)
Definition failed_download (api_key : string) (d : list (string * json)) (code : Z)
  : list event :=
  [Stderr (MsgDownloading (artifact_filename d));
   Http (Get (artifact_url d) api_key);
   Stderr (WarnDownloadFailed (artifact_filename d) code)].

Definition artifact (name url format : string) : list (string * json) :=
  [("download_url", JStr url); ("filename", JStr name);
   ("format", JStr format); ("size_string", JStr "1.2 MB")]%string.

Definition snapshot (items : list json) : json :=
  JDict [("status", JInt 3); ("status_string", JStr "Done");
         ("output_files", JList items)]%string.

(** Every request is answered with HTTP 200 and a two-chunk body. *)
Definition script_serves (n : nat) (r : request) : response :=
  Response 200 "" None ["abc"; "def"]%string.

(** The second request of the run is refused, the others are served. *)
Definition script_refuses_second (n : nat) (r : request) : response :=
  match n with
  | 1%nat => error_response 500
  | _ => Response 200 "" None ["abc"; "def"]%string
  end.

(** The second call of the run raises, every other call is answered. *)
Definition fault_on_second (n : nat) (r : request) : option exn :=
  match n with
  | 1%nat => Some RequestException
  | _ => None
  end.

(** No call raises, no transfer breaks. *)
Definition no_fault (n : nat) (r : request) : option exn := None.

(** The input file opens. *)
Definition no_open_fault (path : string) : option exn := None.

(** The world of a download that is answered with 200, once the destination
    [dest] is opened. *)
Definition opened_for (w : world) (api_key : string) (d : list (string * json))
    (dest : string) : world :=
  World (w_trace w ++ [Stderr (MsgDownloading (artifact_filename d));
                       Http (Get (artifact_url d) api_key);
                       OpenWrite dest])
        (<[dest := ""%string]> (w_files w)) (w_budget w).

(** ** Vocabulary for the IndexReconciler *)

(** The [origin] record of lines 234-238. *)
Definition origin_of (production_uuid fmt : json) : json :=
  JDict [("skill", JStr "auphonic-optimize");
         ("auphonic_production", production_uuid);
         ("format", fmt)]%string.

(** What lines 230-233 make of an entry [e] that is a dictionary. *)
Definition entry_base (date : string) (e : list (string * json)) : list (string * json) :=
  let e := dict_set "added" (default (JStr date) (dict_get "added" e)) e in
  let e := dict_set "type" (JStr "audio") e in
  let e := match dict_get "description" e with
           | Some _ => e
           | None => dict_set "description" (JStr "") e
           end in
  match dict_get "notes" e with
  | Some _ => e
  | None => dict_set "notes" (JStr "") e
  end.

(** What lines 230-238 make of it. *)
Definition merge_entry (production_uuid : json) (date : string) (fmt : json)
    (e : list (string * json)) : list (string * json) :=
  dict_set "origin" (origin_of production_uuid fmt) (entry_base date e).

(** How the loop of [update_index] may have changed the value [v] stored
    under a key: not at all, or by rewriting the entry. *)
Definition evolved (production_uuid : json) (v v' : json) : Prop :=
  v' = v
  \/ exists e date fmt, v = JDict e /\ v' = JDict (merge_entry production_uuid date fmt e).

(** During a second run over the same downloads: the index [b] of the second
    run against the index [a] of the first run at the same iteration and the
    index [final] the first run ended with. *)
Definition second_run_inv (production_uuid : json)
    (a b final : list (string * json)) : Prop :=
  dict_keys b = dict_keys final
  /\ forall k,
       dict_get k b = dict_get k final
       \/ (dict_get k b = dict_get k a
           /\ exists e date fmt,
                dict_get k a = Some (JDict (merge_entry production_uuid date fmt e))).

(** The index key of a downloaded file (line 228). *)
Definition index_key (E : environment) (output_dir : string) (dl : dl_entry) : string :=
  (output_dir +:+ "/" +:+ py_str E (dl_filename dl))%string.

(** The same environment on another day. *)
Definition set_today (E : environment) (clock : nat -> string) : environment :=
  Environment (net E) (format_value E) (path_join E) (path_name E)
              (relative_to_root E) (json_dump E) (json_load E) clock.

(** The index [update_index] starts from (lines 221-225). *)
Definition loaded_index (E : environment) (project_path : string) (w : world)
  : outcome json :=
  match w_files w !! index_file E project_path with
  | Some s =>
      match json_load E s with
      | Some v => Ret v
      | None => Raise ValueError
      end
  | None => Ret (JDict [])
  end.

(** The index [update_index] persists (lines 221-239). *)
Definition merged_index (E : environment) (project_path output_dir : string)
    (downloaded : list dl_entry) (production_uuid : json) (w : world) : outcome json :=
  index <~ loaded_index E project_path w ;;
  reconcile E output_dir production_uuid 0 downloaded index.

Definition concat_chunks (chunks : list string) : string :=
  fold_right String.append EmptyString chunks.

(** The bytes of a completely written index file (lines 241-243). *)
Definition render (E : environment) (index : json) : string :=
  (concat_chunks (json_dump E index) +:+ newline)%string.

(** The fields of an index entry that belong to the user, and [added]. *)
Definition kept_fields : list string := ["description"; "notes"; "added"]%string.

(** The chunks [update_index] writes to the index file, in order: those of
    [json.dump], then the newline. *)
Definition index_chunks (E : environment) (index : json) : list string :=
  json_dump E index ++ [newline].


(** A project whose index file holds an empty JSON object. *)
Definition world_with_index (content : string) : world :=
  World [] {[ "proj/file_index.json"%string := content ]} None.

(** Like [sample_env], with a [json.load] that reads the document [doc] and
    a [json.dump] that writes one chunk. *)
Definition env_loading (doc : json) : environment :=
  Environment script_serves
    (fun _ => "?"%string)
    (fun dir name => (dir +:+ "/" +:+ name)%string)
    (fun p => p)
    (fun p => Some p)
    (fun _ => ["{...}"%string])
    (fun _ => Some doc)
    (fun _ => "2026-03-01"%string).

Definition sample_download : dl_entry :=
  DlEntry (JStr "talk.mp3") (JStr "mp3") (JStr "1.2 MB") "proj/out/talk.mp3".

(** The index after [sample_download] was merged into an empty one. *)
Definition sample_index : json :=
  JDict [("out/talk.mp3",
          JDict [("added", JStr "2026-03-01"); ("type", JStr "audio");
                 ("description", JStr ""); ("notes", JStr "");
                 ("origin", origin_of (JStr "p1") (JStr "mp3"))])]%string.

(** An index with a description written by hand and an older date. *)
Definition annotated_index : list (string * json) :=
  [("out/talk.mp3",
    JDict [("added", JStr "2025-12-24"); ("description", JStr "keynote, final cut")])]%string.

(** ** Vocabulary for the Submitter *)

(** The request [upload_and_start] sends. *)
Definition upload_request (E : environment) (api_key file_path preset_uuid title : string)
  : request :=
  Post (API_BASE +:+ "/simple/productions.json") api_key
       (path_name E file_path) preset_uuid title "start".

(** The body of a response carries an application-level error: it is a JSON
    object with a truthy [error_code] (line 134). *)
Definition app_error (resp : response) : bool :=
  match json_body resp with
  | Some (JDict body) => truthy (default JNull (dict_get "error_code" body))
  | _ => false
  end.





(** The service accepts the submission. *)
Definition script_accepts (n : nat) (r : request) : response :=
  ok_response (JDict [("status_code", JInt 200);
                      ("data", JDict [("uuid", JStr "p1"); ("status", JInt 0)])]%string).

(** ** Vocabulary for the StatsExtractor *)

(** [src.get(field)] on a dictionary. *)
Definition field_value (src : list (string * json)) (field : string) : json :=
  default JNull (dict_get field src).

(** A metric field is usable: absent or falsy, or a list that starts with a
    value and a unit. *)
Definition metric_ok (src : list (string * json)) (field : string) : Prop :=
  truthy (field_value src field) = false
  \/ exists a b t, field_value src field = JList (a :: b :: t).

(** [f"{v[0]} {v[1]}"] for a list [v] of at least two items. *)
Definition metric_text (E : environment) (v : json) : string :=
  match v with
  | JList (a :: b :: _) => (py_str E a +:+ " " +:+ py_str E b)%string
  | _ => ""%string
  end.

(** One of the four [if] statements of lines 257-264 on usable data. *)
Definition with_metric (E : environment) (src : list (string * json))
    (field key : string) (result : list (string * string)) : list (string * string) :=
  if truthy (field_value src field)
  then dict_set key (metric_text E (field_value src field)) result
  else result.

(** A cut record carries [name], [count] and [percent]. *)
Definition cut_ok (c : json) : Prop :=
  exists cd name count percent,
    c = JDict cd
    /\ dict_get "name" cd = Some name
    /\ dict_get "count" cd = Some count
    /\ dict_get "percent" cd = Some percent.

Definition cut_field (c : json) (field : string) : json :=
  match c with
  | JDict cd => default JNull (dict_get field cd)
  | _ => JNull
  end.

Definition cut_key (E : environment) (c : json) : string :=
  ("cuts_" +:+ py_str E (cut_field c "name"))%string.

Definition cut_text (E : environment) (c : json) : string :=
  (py_str E (cut_field c "count") +:+ " cuts ("
   +:+ py_str E (cut_field c "percent") +:+ "%)")%string.

Definition with_cut (E : environment) (result : list (string * string)) (c : json)
  : list (string * string) :=
  dict_set (cut_key E c) (cut_text E c) result.

(** The cuts [extract_stats] iterates over: none when [cuts] is absent or
    falsy, the items of the list otherwise. *)
Definition cuts_listed (stats : list (string * json)) (cs : list json) : Prop :=
  truthy (field_value stats "cuts") = false /\ cs = []
  \/ field_value stats "cuts" = JList cs /\ cs <> [].

(** The mapping lines 253-269 build from usable data. *)
Definition flat_stats (E : environment) (inp out : list (string * json))
    (cs : list json) : list (string * string) :=
  fold_left (with_cut E) cs
    (with_metric E out "peak" "output_peak"
       (with_metric E out "loudness" "output_loudness"
          (with_metric E inp "snr" "input_snr"
             (with_metric E inp "loudness" "input_loudness" [])))).

Definition pair (value : Z) (unit : string) : json :=
  JList [JInt value; JStr unit].

(** A production with all four level fields and two kinds of cuts. *)
Definition full_input : list (string * json) :=
  [("loudness", pair (-28) "LUFS"); ("snr", pair 35 "dB")]%string.

Definition full_output : list (string * json) :=
  [("loudness", pair (-16) "LUFS"); ("peak", pair (-1) "dBTP")]%string.

Definition full_cuts : list json :=
  [JDict [("name", JStr "filler"); ("count", JInt 12); ("percent", JInt 3)];
   JDict [("name", JStr "silence"); ("count", JInt 4); ("percent", JInt 1)]]%string.

Definition full_statistics : list (string * json) :=
  [("levels", JDict [("input", JDict full_input); ("output", JDict full_output)]);
   ("cuts", JList full_cuts)]%string.

Definition full_stats : list (string * json) :=
  [("statistics", JDict full_statistics)]%string.

(** ** Vocabulary for effect discipline *)

(** [confined P m]: whatever the world, running [m] only adds events that
    satisfy [P], changes no file that none of the added events touches, and
    uses up no write call unless an added event touches a file. *)
Definition confined {A : Type} (P : event -> Prop) (m : M A) : Prop :=
  forall (w : world) (o : outcome A) (w' : world),
    m w = (o, w') ->
    exists new,
      w_trace w' = w_trace w ++ new
      /\ Forall P new
      /\ (forall q, (forall e, In e new -> touched_path e <> Some q) ->
                    w_files w' !! q = w_files w !! q)
      /\ ((forall e, In e new -> touched_path e = None) -> w_budget w' = w_budget w).

(** The events of the Poller: sleeps of one interval, status queries,
    diagnostics. *)
Definition poll_event (E : environment) (api_key : string) (production_uuid : json)
    (e : event) : Prop :=
  e = Sleep POLL_INTERVAL
  \/ e = Http (status_query E api_key production_uuid)
  \/ exists m, e = Stderr m.

(** The events of the IndexReconciler: operations on the index file. *)
Definition index_event (E : environment) (project_path : string) (e : event) : Prop :=
  e = OpenWrite (index_file E project_path)
  \/ exists chunk, e = Write (index_file E project_path) chunk.

(** The events of the Downloader: diagnostics, GET requests, the creation
    of the output directory and operations on files under it. *)
Definition download_event (E : environment) (output_path : string) (e : event) : Prop :=
  (exists m, e = Stderr m)
  \/ (exists url api_key, e = Http (Get url api_key))
  \/ e = Mkdir output_path
  \/ (exists name, e = OpenWrite (path_join E output_path name))
  \/ (exists name chunk, e = Write (path_join E output_path name) chunk).

Definition is_stdout (e : event) : bool :=
  match e with Stdout _ => true | _ => false end.

(** ** Vocabulary for the Poller's iterations *)

(** What one iteration of [poll_status] makes of the response to its status
    query (lines 155-170), [waited] being the elapsed time after the sleep:
    the diagnostics it prints and, when the loop stops here, how the call
    ends. *)
Definition poll_verdict (resp : response) (waited : Z)
  : list message * option (outcome json) :=
  if negb (status_code resp =? 200) then
    ([WarnStatusCheck (status_code resp)], None)
  else
    match json_body resp with
    | None => ([], Some (Raise ValueError))
    | Some body =>
        match py_get body "data" (JDict []) with
        | Ret (JDict d) =>
            let status := default JNull (dict_get "status" d) in
            let status_str := default (JStr "Unknown") (dict_get "status_string" d) in
            if py_eq_int status STATUS_DONE then
              ([MsgStatus status_str waited], Some (Ret (JDict d)))
            else if py_eq_int status STATUS_ERROR || py_eq_int status STATUS_INCOMPLETE then
              ([MsgStatus status_str waited;
                ErrProductionFailed
                  (default (JStr "Unknown error") (dict_get "error_message" d))],
               Some (Exit 1))
            else
              ([MsgStatus status_str waited], None)
        | _ => ([], Some (Raise AttributeError))
        end
    end.

(** The events of one iteration. *)
Definition poll_events (E : environment) (api_key : string) (production_uuid : json)
    (msgs : list message) : list event :=
  Sleep POLL_INTERVAL :: Http (status_query E api_key production_uuid)
    :: map Stderr msgs.

(** Whether the verdict on a response stops the loop, and how; the elapsed
    time only shows in the diagnostics. *)
Definition poll_decision (resp : response) : option (outcome json) :=
  snd (poll_verdict resp 0).

(** The service reports "processing" twice, then an error. *)
Definition script_fails_on_third (n : nat) (r : request) : response :=
  match n with
  | 0%nat | 1%nat => ok_response (status_body 2 "Audio Processing")
  | _ => ok_response (JDict [("data", JDict [("status", JInt 9);
                                             ("status_string", JStr "Error");
                                             ("error_message", JStr "bad input")])]%string)
  end.

(** The service always reports "processing". *)
Definition script_processing (n : nat) (r : request) : response :=
  ok_response (status_body 2 "Audio Processing").

(** ** Vocabulary for the index *)

(** The index keys of a list of downloads, in order. *)
Definition index_keys (E : environment) (output_dir : string)
    (downloaded : list dl_entry) : list string :=
  map (index_key E output_dir) downloaded.

(** The entry [update_index] creates for a file that was not in the index. *)
Definition fresh_entry (production_uuid : json) (date : string) (fmt : json) : json :=
  JDict [("added", JStr date); ("type", JStr "audio");
         ("description", JStr ""); ("notes", JStr "");
         ("origin", origin_of production_uuid fmt)]%string.

Definition second_download : dl_entry :=
  DlEntry (JStr "talk.flac") (JStr "flac") (JStr "9.9 MB") "proj/out/talk.flac".

(** ** Vocabulary for the run *)

(** [ends_with_summary P o new]: the events [new] of a call that ended as
    [o] contain a summary on standard output only when the call returned,
    and then exactly one, last, with status "ok"; all other events satisfy
    [P]. *)
Definition ends_with_summary {A : Type} (P : event -> Prop) (o : outcome A)
    (new : list event) : Prop :=
  match o with
  | Ret _ => exists before s, new = before ++ [Stdout s]
                              /\ Forall P before
                              /\ s_status s = "ok"%string
  | _ => Forall P new
  end.

Definition not_stdout (e : event) : Prop := is_stdout e = false.

(** The service accepts the submission, then reports "processing" forever. *)
Definition script_never_done (n : nat) (r : request) : response :=
  match r with
  | Post _ _ _ _ _ _ => script_accepts n r
  | Get _ _ => script_processing n r
  end.

(** * Properties *)

(** ** Traces *)

Lemma slept_app (a b : list event) : slept (a ++ b) = slept a + slept b.
Proof.
  induction a as [|e a IH]; simpl; [reflexivity|].
  destruct e; rewrite ?IH; lia.
Qed.

Lemma requests_made_app (a b : list event) :
  requests_made (a ++ b) = (requests_made a + requests_made b)%nat.
Proof.
  induction a as [|e a IH]; simpl; [reflexivity|].
  destruct e; rewrite ?IH; reflexivity.
Qed.

Lemma slept_nonneg_step (a : list event) (s : Z) :
  slept (a ++ [Sleep s]) = slept a + s.
Proof. rewrite slept_app. simpl. lia. Qed.

(** ** The Poller *)

Ltac run_step :=
  unfold bind, sleep, stderr, emit, open_rb, http, lift, ret, sys_exit, resp_json; simpl.

Ltac poll_consts := unfold MAX_POLL_TIME, POLL_INTERVAL in *.

(** Closes the branches of [poll_loop] that stop without a snapshot. *)
Ltac poll_stops :=
  let H := fresh "Hrun" in
  intros H; inversion H; subst; simpl;
  rewrite ?slept_app; simpl; poll_consts;
  split; [lia|]; split; discriminate.

Lemma py_get_cases (o : json) (k : string) (d : json) :
  py_get o k d = Raise AttributeError \/ exists v, py_get o k d = Ret v.
Proof. destruct o; simpl; eauto. Qed.

(** What one call of [poll_loop] guarantees, whatever the service answers. *)
Lemma poll_loop_inv (E : environment) (api_key : string) (uuid : json) :
  forall (fuel : nat) (waited : Z) (w : world) (out : outcome json) (w' : world),
    poll_loop E fuel api_key uuid waited w = (out, w') ->
    (0 <= slept (w_trace w') - slept (w_trace w)
       <= Z.max 0 (MAX_POLL_TIME + POLL_INTERVAL - waited))
    /\ (forall data, out = Ret data ->
          exists (n : nat) (body status : json),
            let resp := net E n (Get (JStr (status_url E uuid)) api_key) in
            status_code resp = 200
            /\ json_body resp = Some body
            /\ py_get body "data" (JDict []) = Ret data
            /\ py_get data "status" JNull = Ret status
            /\ py_eq_int status STATUS_DONE = true)
    /\ (Z.max 0 (MAX_POLL_TIME - waited) < Z.of_nat fuel -> out <> OutOfFuel).
Proof.
  induction fuel as [|fuel IH]; intros waited w out w' Hrun.
  - simpl in Hrun. inversion Hrun; subst. poll_consts.
    split; [lia|]. split; [discriminate|]. lia.
  - simpl in Hrun.
    destruct (waited <? MAX_POLL_TIME) eqn:Hlt.
    + apply Z.ltb_lt in Hlt.
      assert (Hnext : forall o wn,
                 poll_loop E fuel api_key uuid (waited + POLL_INTERVAL) wn = (o, w') ->
                 slept (w_trace wn) = slept (w_trace w) + POLL_INTERVAL ->
                 o = out ->
                 (0 <= slept (w_trace w') - slept (w_trace w)
                    <= Z.max 0 (MAX_POLL_TIME + POLL_INTERVAL - waited))
                 /\ (forall data, out = Ret data ->
                       exists (n : nat) (body status : json),
                         let resp := net E n (Get (JStr (status_url E uuid)) api_key) in
                         status_code resp = 200
                         /\ json_body resp = Some body
                         /\ py_get body "data" (JDict []) = Ret data
                         /\ py_get data "status" JNull = Ret status
                         /\ py_eq_int status STATUS_DONE = true)
                 /\ (Z.max 0 (MAX_POLL_TIME - waited) < Z.of_nat (S fuel)
                     -> out <> OutOfFuel)).
      { intros o wn Hn Hs <-. apply IH in Hn. destruct Hn as (Hs' & Hret & Hfuel).
        rewrite Hs in Hs'. poll_consts.
        split; [lia|]. split; [exact Hret|]. intros; apply Hfuel; lia. }
      revert Hrun. run_step.
      set (resp := net E _ _).
      destruct (status_code resp =? 200) eqn:Hcode; simpl.
      * apply Z.eqb_eq in Hcode.
        destruct (json_body resp) as [body|] eqn:Hbody; simpl; [|poll_stops].
        destruct (py_get_cases body "data" (JDict [])) as [Hdata|[data Hdata]];
          rewrite Hdata; simpl; [poll_stops|].
        destruct (py_get_cases data "status" JNull) as [Hstatus|[status Hstatus]];
          rewrite Hstatus; simpl; [poll_stops|].
        destruct (py_get_cases data "status_string" (JStr "Unknown"))
          as [Hstr|[status_str Hstr]]; rewrite Hstr; simpl; [poll_stops|].
        destruct (py_eq_int status STATUS_DONE) eqn:Hdone.
        { intros Hrun; inversion Hrun; subst; simpl.
          rewrite ?slept_app; simpl. poll_consts.
          split; [lia|]. split; [|discriminate].
          intros d Hd. inversion Hd; subst d.
          eexists _, body, status.
          split; [exact Hcode|]. split; [exact Hbody|]. auto. }
        destruct (py_eq_int status STATUS_ERROR || py_eq_int status STATUS_INCOMPLETE).
        { destruct (py_get_cases data "error_message" (JStr "Unknown error"))
            as [Hmsg|[msg Hmsg]]; rewrite Hmsg; simpl; poll_stops. }
        intros Hrun. eapply Hnext; [exact Hrun| |reflexivity].
        simpl. rewrite ?slept_app. simpl. lia.
      * intros Hrun. eapply Hnext; [exact Hrun| |reflexivity].
        simpl. rewrite ?slept_app. simpl. lia.
    + apply Z.ltb_ge in Hlt. revert Hrun. run_step. poll_stops.
Qed.

Lemma poll_loop_inv_fuel (E : environment) (api_key : string) (uuid : json)
    (w : world) (out : outcome json) (w' : world) :
  poll_loop E poll_fuel api_key uuid 0 w = (out, w') -> out <> OutOfFuel.
Proof.
  intros Hrun. apply poll_loop_inv in Hrun. destruct Hrun as (_ & _ & Hfuel).
  apply Hfuel. unfold poll_fuel, MAX_POLL_TIME. lia.
Qed.

(** C1. [poll_status] returns a snapshot only when the status code read from
    a successful status query equals [STATUS_DONE] (3), and the sleeps of one
    call add up to at most [MAX_POLL_TIME + POLL_INTERVAL] seconds, whatever
    the service answers; the loop model never runs out of fuel. *)
Theorem poll_status_done_only_and_bounded_wait
    (E : environment) (api_key : string) (uuid : json)
    (w : world) (out : outcome json) (w' : world) :
  poll_status E api_key uuid w = (out, w') ->
  (forall data, out = Ret data ->
     exists (n : nat) (body status : json),
       let resp := net E n (status_query E api_key uuid) in
       status_code resp = 200
       /\ json_body resp = Some body
       /\ py_get body "data" (JDict []) = Ret data
       /\ py_get data "status" JNull = Ret status
       /\ py_eq_int status STATUS_DONE = true)
  /\ 0 <= slept (w_trace w') - slept (w_trace w) <= MAX_POLL_TIME + POLL_INTERVAL
  /\ out <> OutOfFuel.
Proof.
  unfold poll_status, bind, stderr, emit. cbv beta iota. intros Hrun.
  pose proof (poll_loop_inv_fuel _ _ _ _ _ _ Hrun) as Hfuel.
  apply poll_loop_inv in Hrun. destruct Hrun as (Hs & Hret & _).
  simpl in Hs. rewrite slept_app in Hs. simpl in Hs. poll_consts.
  split; [exact Hret|]. split; [lia|exact Hfuel].
Qed.

Lemma poll_status_done_only_and_bounded_wait_witness :
  let E := sample_env script_done_on_second in
  let data := JDict [("status", JInt 3); ("status_string", JStr "Done")]%string in
  let w' := after empty_world
              [Stderr (MsgProcessing (JStr "p1"));
               Sleep 10; Http (status_query E "key" (JStr "p1"));
               Stderr (MsgStatus (JStr "Audio Processing") 10);
               Sleep 10; Http (status_query E "key" (JStr "p1"));
               Stderr (MsgStatus (JStr "Done") 20)] in
  poll_status E "key" (JStr "p1") empty_world = (Ret data, w')
  /\ slept (w_trace w') - slept (w_trace empty_world) <= MAX_POLL_TIME + POLL_INTERVAL.
Proof.
  intros E data w'.
  assert (Hrun : poll_status E "key" (JStr "p1") empty_world = (Ret data, w'))
    by (vm_compute; reflexivity).
  split; [exact Hrun|].
  apply (poll_status_done_only_and_bounded_wait E "key" (JStr "p1") _ _ _ Hrun).
Defined.

Lemma requests_made_sleep (tr : list event) (s : Z) :
  requests_made (tr ++ [Sleep s]) = requests_made tr.
Proof. rewrite requests_made_app. simpl. lia. Qed.

Lemma terminal_status_int (n : Z) :
  terminal_status (JInt n) = false <->
  n <> STATUS_DONE /\ n <> STATUS_ERROR /\ n <> STATUS_INCOMPLETE.
Proof.
  unfold terminal_status. simpl. rewrite !orb_false_iff, !Z.eqb_neq. tauto.
Qed.

Lemma terminal_status_absent : terminal_status JNull = false.
Proof. reflexivity. Qed.

(** One iteration whose status query is answered with a non-200 code. *)
Lemma poll_loop_retry (E : environment) (fuel : nat) (api_key : string) (uuid : json)
    (waited : Z) (w : world) :
  let resp := net E (requests_made (w_trace w)) (status_query E api_key uuid) in
  waited < MAX_POLL_TIME ->
  status_code resp <> 200 ->
  poll_loop E (S fuel) api_key uuid waited w =
  poll_loop E fuel api_key uuid (waited + POLL_INTERVAL)
    (after w [Sleep POLL_INTERVAL;
              Http (status_query E api_key uuid);
              Stderr (WarnStatusCheck (status_code resp))]).
Proof.
  intros resp Hlt Hcode.
  simpl. apply Z.ltb_lt in Hlt. rewrite Hlt. run_step.
  rewrite requests_made_sleep. fold (status_query E api_key uuid). fold resp.
  apply Z.eqb_neq in Hcode. rewrite Hcode. simpl.
  unfold after. rewrite <- !app_assoc. reflexivity.
Qed.

(** With only failing status queries the loop runs to the deadline. *)
Lemma poll_loop_all_failing (E : environment) (api_key : string) (uuid : json) :
  (forall n, status_code (net E n (status_query E api_key uuid)) <> 200) ->
  forall (j fuel : nat) (w : world),
    (j <= 60)%nat -> (j < fuel)%nat ->
    exists w',
      poll_loop E fuel api_key uuid (MAX_POLL_TIME - POLL_INTERVAL * Z.of_nat j) w
        = (Exit 1, w')
      /\ last (w_trace w') = Some (Stderr (ErrTimedOut MAX_POLL_TIME))
      /\ requests_made (w_trace w') = (requests_made (w_trace w) + j)%nat
      /\ slept (w_trace w') = slept (w_trace w) + POLL_INTERVAL * Z.of_nat j
      /\ w_files w' = w_files w.
Proof.
  intros Hfail. induction j as [|j IH]; intros fuel w Hj Hfuel.
  - destruct fuel as [|fuel]; [lia|].
    eexists. simpl. run_step. split; [reflexivity|]. simpl.
    rewrite last_snoc, requests_made_app, slept_app. simpl.
    repeat split; lia.
  - destruct fuel as [|fuel]; [lia|].
    rewrite poll_loop_retry; [| poll_consts; lia | apply Hfail].
    replace (MAX_POLL_TIME - POLL_INTERVAL * Z.of_nat (S j) + POLL_INTERVAL)
      with (MAX_POLL_TIME - POLL_INTERVAL * Z.of_nat j) by lia.
    destruct (IH fuel (after w [Sleep POLL_INTERVAL;
              Http (status_query E api_key uuid);
              Stderr (WarnStatusCheck (status_code
                (net E (requests_made (w_trace w)) (status_query E api_key uuid))))]))
      as (w' & Hrun & Hlast & Hreq & Hslept & Hfiles); [lia|lia|].
    exists w'. split; [exact Hrun|]. split; [exact Hlast|].
    rewrite Hreq, Hslept, Hfiles. unfold after. simpl.
    rewrite requests_made_app, slept_app. simpl.
    repeat split; lia.
Qed.

(** C6. A status query answered with a non-200 code is transient: the
    iteration only logs a warning and the loop goes on, with the elapsed time
    advanced by one interval.  When every status query fails, [poll_status]
    still ends: after [MAX_POLL_TIME / POLL_INTERVAL = 60] queries and
    [MAX_POLL_TIME] seconds of sleep it reports the timeout and exits with
    status 1. *)
Theorem poll_status_transport_failure_is_transient
    (E : environment) (api_key : string) (uuid : json) :
  (forall (fuel : nat) (waited : Z) (w : world),
     let resp := net E (requests_made (w_trace w)) (status_query E api_key uuid) in
     waited < MAX_POLL_TIME ->
     status_code resp <> 200 ->
     poll_loop E (S fuel) api_key uuid waited w =
     poll_loop E fuel api_key uuid (waited + POLL_INTERVAL)
       (after w [Sleep POLL_INTERVAL;
                 Http (status_query E api_key uuid);
                 Stderr (WarnStatusCheck (status_code resp))]))
  /\ ((forall n, status_code (net E n (status_query E api_key uuid)) <> 200) ->
      forall w : world,
      exists w',
        poll_status E api_key uuid w = (Exit 1, w')
        /\ last (w_trace w') = Some (Stderr (ErrTimedOut MAX_POLL_TIME))
        /\ requests_made (w_trace w') = (requests_made (w_trace w) + 60)%nat
        /\ slept (w_trace w') = slept (w_trace w) + MAX_POLL_TIME
        /\ w_files w' = w_files w).
Proof.
  split; [intros; apply poll_loop_retry; assumption|].
  intros Hfail w. unfold poll_status, bind, stderr, emit. cbv beta iota.
  destruct (poll_loop_all_failing E api_key uuid Hfail 60 poll_fuel
              (World (w_trace w ++ [Stderr (MsgProcessing uuid)]) (w_files w) (w_budget w)))
    as (w' & Hrun & Hlast & Hreq & Hslept & Hfiles);
    [lia | unfold poll_fuel, MAX_POLL_TIME; lia |].
  exists w'. split; [exact Hrun|]. split; [exact Hlast|].
  rewrite Hreq, Hslept, Hfiles. simpl. rewrite requests_made_app, slept_app. simpl.
  poll_consts. repeat split; lia.
Qed.

Lemma poll_status_transport_failure_is_transient_witness :
  let E := sample_env script_unavailable in
  (forall n, status_code (net E n (status_query E "key" (JStr "p1"))) <> 200)
  /\ exists w',
       poll_status E "key" (JStr "p1") empty_world = (Exit 1, w')
       /\ last (w_trace w') = Some (Stderr (ErrTimedOut MAX_POLL_TIME))
       /\ requests_made (w_trace w') = 60%nat
       /\ slept (w_trace w') = MAX_POLL_TIME.
Proof.
  intros E.
  assert (Hfail : forall n, status_code (net E n (status_query E "key" (JStr "p1"))) <> 200)
    by (intros n; simpl; lia).
  split; [exact Hfail|].
  destruct (proj2 (poll_status_transport_failure_is_transient E "key" (JStr "p1"))
              Hfail empty_world) as (w' & Hrun & Hlast & Hreq & Hslept & _).
  exists w'. auto.
Defined.

(** ** The Poller: iterations on a production that is still running *)

(** One iteration of the loop, before the deadline: the call raises, or the
    verdict on the response decides. *)
Lemma poll_loop_iteration (C : conditions) (fuel : nat) (api_key : string) (uuid : json)
    (waited : Z) (w : world) :
  waited < MAX_POLL_TIME ->
  let q := status_query (env C) api_key uuid in
  let n := requests_made (w_trace w) in
  let verdict := poll_verdict (net (env C) n q) (waited + POLL_INTERVAL) in
  let w1 := after w (poll_events (env C) api_key uuid (fst verdict)) in
  poll_loop C (S fuel) api_key uuid waited w =
  match net_fault C n q with
  | Some e => (Raise e, after w [Sleep POLL_INTERVAL; Http q])
  | None =>
      match snd verdict with
      | None => poll_loop C fuel api_key uuid (waited + POLL_INTERVAL) w1
      | Some o => (o, w1)
      end
  end.
Proof.
  intros Hlt q n verdict w1. subst verdict w1.
  simpl. apply Z.ltb_lt in Hlt. rewrite Hlt. run_step.
  rewrite requests_made_sleep. fold (status_query (env C) api_key uuid). fold q n.
  destruct (net_fault C n q); simpl.
  { unfold after. rewrite <- !app_assoc. reflexivity. }
  set (resp := net (env C) n q).
  unfold poll_verdict, poll_events, after. fold q.
  destruct (status_code resp =? 200); simpl;
    [|rewrite <- !app_assoc; reflexivity].
  destruct (json_body resp) as [body|]; simpl;
    [|rewrite <- !app_assoc; reflexivity].
  destruct body as [| | | | | |b]; simpl; try (rewrite <- !app_assoc; reflexivity).
  destruct (dict_get "data" b) as [data|]; simpl.
  - destruct data as [| | | | | |d]; simpl; try (rewrite <- !app_assoc; reflexivity).
    destruct (py_eq_int _ STATUS_DONE); simpl;
      [rewrite <- !app_assoc; reflexivity|].
    destruct (py_eq_int _ STATUS_ERROR || py_eq_int _ STATUS_INCOMPLETE); simpl;
      rewrite <- !app_assoc; reflexivity.
  - rewrite <- !app_assoc. reflexivity.
Qed.

(** Past the deadline the loop reports the timeout and exits. *)
Lemma poll_loop_deadline (C : conditions) (fuel : nat) (api_key : string) (uuid : json)
    (waited : Z) (w : world) :
  MAX_POLL_TIME <= waited ->
  poll_loop C (S fuel) api_key uuid waited w
  = (Exit 1, after w [Stderr (ErrTimedOut MAX_POLL_TIME)]).
Proof.
  intros Hge. simpl. apply Z.ltb_ge in Hge. rewrite Hge. reflexivity.
Qed.

(** The loop only adds events. *)
Lemma poll_loop_extends (C : conditions) (api_key : string) (uuid : json) :
  forall (fuel : nat) (waited : Z) (w : world) (o : outcome json) (w' : world),
    poll_loop C fuel api_key uuid waited w = (o, w') ->
    exists new, w_trace w' = w_trace w ++ new.
Proof.
  induction fuel as [|fuel IH]; intros waited w o w' Hrun.
  - simpl in Hrun. injection Hrun as _ <-. exists []. rewrite app_nil_r. reflexivity.
  - destruct (Z.lt_ge_cases waited MAX_POLL_TIME) as [Hlt|Hge].
    + rewrite poll_loop_iteration in Hrun by exact Hlt.
      destruct (net_fault C _ _).
      { injection Hrun as _ <-. eexists. reflexivity. }
      destruct (snd (poll_verdict _ _)).
      { injection Hrun as _ <-. eexists. reflexivity. }
      apply IH in Hrun. destruct Hrun as (new & ->).
      unfold after. simpl. rewrite <- app_assoc. eexists. reflexivity.
    + rewrite poll_loop_deadline in Hrun by exact Hge.
      injection Hrun as _ <-. eexists. reflexivity.
Qed.

(** Before the deadline the loop starts an iteration: it sleeps and sends
    the status query. *)
Lemma poll_loop_begins (C : conditions) (fuel : nat) (api_key : string) (uuid : json)
    (waited : Z) (w : world) (o : outcome json) (w' : world) :
  waited < MAX_POLL_TIME ->
  poll_loop C (S fuel) api_key uuid waited w = (o, w') ->
  exists rest,
    w_trace w' = w_trace w ++ Sleep POLL_INTERVAL
                   :: Http (status_query (env C) api_key uuid) :: rest.
Proof.
  intros Hlt Hrun. rewrite poll_loop_iteration in Hrun by exact Hlt.
  destruct (net_fault C _ _).
  { injection Hrun as _ <-. eexists. reflexivity. }
  destruct (snd (poll_verdict _ _)).
  { injection Hrun as _ <-. eexists. reflexivity. }
  apply poll_loop_extends in Hrun. destruct Hrun as (new & ->).
  unfold after, poll_events. simpl. rewrite <- app_assoc. eexists. reflexivity.
Qed.

(** The verdict on a report whose status is not terminal: the status line,
    and the loop goes on. *)
Lemma poll_verdict_running (resp : response) (d : list (string * json)) (waited : Z) :
  status_report resp = Some d ->
  terminal_status (report_status d) = false ->
  poll_verdict resp waited = ([MsgStatus (report_string d) waited], None).
Proof.
  unfold status_report, poll_verdict, terminal_status.
  intros Hrep Hterm.
  apply orb_false_iff in Hterm. destruct Hterm as [Hterm Hinc].
  apply orb_false_iff in Hterm. destruct Hterm as [Hdone Herr].
  destruct (status_code resp =? 200); [simpl|discriminate].
  destruct (json_body resp) as [body|]; [|discriminate].
  destruct (py_get body "data" (JDict [])) as [[| | | | | |d']| | |]; try discriminate.
  injection Hrep as ->. fold (report_status d) (report_string d).
  rewrite Hdone, Herr, Hinc. reflexivity.
Qed.

(** Consecutive iterations that read reports with a status that is not
    terminal. *)
Lemma poll_loop_running (C : conditions) (api_key : string) (uuid : json) :
  let q := status_query (env C) api_key uuid in
  forall (reports : list (list (string * json))) (fuel : nat) (waited : Z) (w : world),
    Z.max 0 (MAX_POLL_TIME - waited) < Z.of_nat fuel ->
    waited + POLL_INTERVAL * Z.of_nat (length reports) < MAX_POLL_TIME + POLL_INTERVAL ->
    (forall i d, reports !! i = Some d ->
       net_fault C (requests_made (w_trace w) + i) q = None
       /\ status_report (net (env C) (requests_made (w_trace w) + i) q) = Some d
       /\ terminal_status (report_status d) = false) ->
    exists o w' rest,
      poll_loop C fuel api_key uuid waited w = (o, w')
      /\ w_trace w' = w_trace w ++ running_trace q waited reports ++ rest
      /\ (waited + POLL_INTERVAL * Z.of_nat (length reports) < MAX_POLL_TIME ->
          exists rest', rest = Sleep POLL_INTERVAL :: Http q :: rest')
      /\ (MAX_POLL_TIME <= waited + POLL_INTERVAL * Z.of_nat (length reports) ->
          o = Exit 1 /\ rest = [Stderr (ErrTimedOut MAX_POLL_TIME)]).
Proof.
  intros q. induction reports as [|d reports IH]; intros fuel waited w Hfuel Hlen Hrep.
  - destruct fuel as [|fuel]; [lia|].
    simpl length. simpl running_trace. rewrite Z.mul_0_r, Z.add_0_r.
    destruct (poll_loop C (S fuel) api_key uuid waited w) as [o w'] eqn:Hrun.
    destruct (Z.lt_ge_cases waited MAX_POLL_TIME) as [Hlt|Hge].
    + destruct (poll_loop_begins C fuel api_key uuid waited w o w' Hlt Hrun)
        as (rest & Htr).
      exists o, w', (Sleep POLL_INTERVAL :: Http q :: rest).
      split; [reflexivity|]. split; [exact Htr|]. split; [eauto|lia].
    + rewrite poll_loop_deadline in Hrun by exact Hge. injection Hrun as <- <-.
      eexists _, _, _. split; [reflexivity|]. split; [reflexivity|].
      split; [lia|auto].
  - destruct fuel as [|fuel]; [lia|].
    simpl length in *. rewrite Nat2Z.inj_succ in *.
    assert (Hlt : waited < MAX_POLL_TIME) by (poll_consts; lia).
    destruct (Hrep 0%nat d eq_refl) as (Hnet & Hreport & Hterm).
    rewrite Nat.add_0_r in Hnet, Hreport.
    rewrite poll_loop_iteration by exact Hlt. fold q. rewrite Hnet.
    rewrite (poll_verdict_running _ d) by assumption. simpl fst. simpl snd.
    destruct (IH fuel (waited + POLL_INTERVAL)
                (after w (poll_events (env C) api_key uuid
                            [MsgStatus (report_string d) (waited + POLL_INTERVAL)])))
      as (o & w' & rest & Hrun & Htr & Hmore & Hend).
    + poll_consts. lia.
    + poll_consts. lia.
    + intros i d' Hi. unfold after, poll_events. simpl w_trace.
      rewrite requests_made_app. simpl requests_made.
      replace (requests_made (w_trace w) + 1 + i)%nat
        with (requests_made (w_trace w) + S i)%nat by lia.
      apply Hrep. exact Hi.
    + exists o, w', rest. split; [exact Hrun|]. split.
      * rewrite Htr. unfold after, poll_events. simpl. fold q.
        rewrite <- app_assoc. reflexivity.
      * replace (waited + POLL_INTERVAL * Z.succ (Z.of_nat (length reports)))
          with (waited + POLL_INTERVAL + POLL_INTERVAL * Z.of_nat (length reports))
          by lia.
        split; assumption.
Qed.

(** C5. While the status reported is none of the terminal codes - in
    particular any integer other than 3, 9 and 13, and an absent status -
    the Poller keeps running: each iteration sleeps one interval, sends the
    status query and prints the status with an elapsed time that is exactly
    one [POLL_INTERVAL] more than in the iteration before; the call does not
    end there, it starts the next iteration, or, once the elapsed time has
    reached [MAX_POLL_TIME], reports the timeout and exits with status 1.
    This holds for the loop in any state and for [poll_status] from its
    start. *)
Theorem poll_status_continues_while_running
    (C : conditions) (api_key : string) (uuid : json) :
  let q := status_query (env C) api_key uuid in
  (forall n : Z, n <> 3 -> n <> 9 -> n <> 13 -> terminal_status (JInt n) = false)
  /\ terminal_status JNull = false
  /\ (forall (reports : list (list (string * json))) (fuel : nat) (waited : Z)
             (w : world),
        let first := requests_made (w_trace w) in
        let elapsed := waited + POLL_INTERVAL * Z.of_nat (length reports) in
        Z.max 0 (MAX_POLL_TIME - waited) < Z.of_nat fuel ->
        elapsed < MAX_POLL_TIME + POLL_INTERVAL ->
        (forall i d, reports !! i = Some d ->
           net_fault C (first + i) q = None
           /\ status_report (net (env C) (first + i) q) = Some d
           /\ terminal_status (report_status d) = false) ->
        exists o w' rest,
          poll_loop C fuel api_key uuid waited w = (o, w')
          /\ w_trace w' = w_trace w ++ running_trace q waited reports ++ rest
          /\ (elapsed < MAX_POLL_TIME ->
              exists rest', rest = Sleep POLL_INTERVAL :: Http q :: rest')
          /\ (MAX_POLL_TIME <= elapsed ->
              o = Exit 1 /\ rest = [Stderr (ErrTimedOut MAX_POLL_TIME)]))
  /\ (forall (reports : list (list (string * json))) (w : world),
        let first := requests_made (w_trace w) in
        let elapsed := POLL_INTERVAL * Z.of_nat (length reports) in
        elapsed < MAX_POLL_TIME + POLL_INTERVAL ->
        (forall i d, reports !! i = Some d ->
           net_fault C (first + i) q = None
           /\ status_report (net (env C) (first + i) q) = Some d
           /\ terminal_status (report_status d) = false) ->
        exists o w' rest,
          poll_status C api_key uuid w = (o, w')
          /\ w_trace w' = w_trace w ++ Stderr (MsgProcessing uuid)
                            :: running_trace q 0 reports ++ rest
          /\ (elapsed < MAX_POLL_TIME ->
              exists rest', rest = Sleep POLL_INTERVAL :: Http q :: rest')
          /\ (MAX_POLL_TIME <= elapsed ->
              o = Exit 1 /\ rest = [Stderr (ErrTimedOut MAX_POLL_TIME)])).
Proof.
  intros q.
  split; [intros n H3 H9 H13; apply terminal_status_int; auto|].
  split; [reflexivity|].
  split.
  - intros reports fuel waited w first elapsed Hfuel Hlen Hrep.
    apply poll_loop_running; assumption.
  - intros reports w first elapsed Hlen Hrep.
    unfold poll_status, bind, stderr, emit. cbv beta iota.
    destruct (poll_loop_running C api_key uuid reports poll_fuel 0
                (World (w_trace w ++ [Stderr (MsgProcessing uuid)])
                       (w_files w) (w_budget w)))
      as (o & w' & rest & Hrun & Htr & Hmore & Hend).
    + unfold poll_fuel, MAX_POLL_TIME. lia.
    + exact Hlen.
    + intros i d Hi. simpl w_trace. rewrite requests_made_app. simpl requests_made.
      rewrite Nat.add_0_r. apply Hrep. exact Hi.
    + exists o, w', rest. split; [exact Hrun|]. split; [|split; assumption].
      rewrite Htr. simpl w_trace. rewrite <- app_assoc. reflexivity.
Qed.

Lemma poll_status_continues_while_running_witness :
  let C := Conditions (sample_env script_done_on_second) no_open_fault no_fault no_fault in
  let q := status_query (env C) "key" (JStr "p1") in
  let d := [("status", JInt 2); ("status_string", JStr "Audio Processing")]%string in
  terminal_status (report_status d) = false
  /\ status_report (net (env C) 0 q) = Some d
  /\ exists o w' rest',
       poll_status C "key" (JStr "p1") empty_world = (o, w')
       /\ w_trace w' = [Stderr (MsgProcessing (JStr "p1"));
                        Sleep POLL_INTERVAL; Http q;
                        Stderr (MsgStatus (JStr "Audio Processing") 10);
                        Sleep POLL_INTERVAL; Http q] ++ rest'.
Proof.
  intros C q d.
  split; [reflexivity|]. split; [reflexivity|].
  destruct (proj2 (proj2 (proj2 (poll_status_continues_while_running C "key" (JStr "p1")))) 
              [d] empty_world) as (o & w' & rest & Hrun & Htr & Hmore & _).
  - vm_compute. reflexivity.
  - intros [|i] d' Hi; [|destruct i; discriminate].
    injection Hi as <-. repeat split; reflexivity.
  - destruct Hmore as (rest' & ->); [vm_compute; reflexivity|].
    exists o, w', rest'. split; [exact Hrun|]. rewrite Htr. reflexivity.
Defined.

(** ** The Downloader *)

#[local] Arguments py_in_strs : simpl never.

Ltac fold_artifact d :=
  try change (match dict_get "download_url" d with Some v => v | None => JNull end)
    with (artifact_url d) in *;
  try change (match dict_get "filename" d with Some v => v | None => JNull end)
    with (artifact_filename d) in *;
  try change (match dict_get "format" d with Some v => v | None => JStr "" end)
    with (artifact_format d) in *.

Lemma for_each_app {A S : Type} (l1 l2 : list A) (body : A -> S -> M S) (s : S) (w : world) :
  for_each (l1 ++ l2) body s w
  = (s1 <- for_each l1 body s ;; for_each l2 body s1) w.
Proof.
  revert s w. induction l1 as [|x l1 IH]; intros s w; simpl.
  - reflexivity.
  - unfold bind. destruct (body x s w) as [[s'| | |] w1]; try reflexivity.
    rewrite IH. reflexivity.
Qed.

(** A descriptor without a truthy locator or filename is passed over. *)
Lemma download_one_skips_incomplete (E : environment) (api_key output_path : string)
    (d : list (string * json)) (downloaded : list dl_entry) (w : world) :
  truthy (artifact_url d) = false \/ truthy (artifact_filename d) = false ->
  download_one E api_key output_path (JDict d) downloaded w = (Ret downloaded, w).
Proof.
  intros H. unfold download_one. run_step.
  fold_artifact d.
  destruct H as [H|H]; rewrite H; simpl; [reflexivity|].
  rewrite orb_true_r. reflexivity.
Qed.

(** A descriptor whose format tag is skipped is passed over. *)
Lemma download_one_skips_format (E : environment) (api_key output_path : string)
    (d : list (string * json)) (downloaded : list dl_entry) (w : world) :
  py_in_strs (artifact_format d) skipped_formats = true ->
  download_one E api_key output_path (JDict d) downloaded w = (Ret downloaded, w).
Proof.
  intros H. unfold download_one. run_step.
  fold_artifact d.
  destruct (negb (truthy (artifact_url d)) || negb (truthy (artifact_filename d)));
    [reflexivity|].
  rewrite H. reflexivity.
Qed.

(** Passing over an item is invisible in the loop. *)
Lemma for_each_skip {A S : Type} (l1 l2 : list A) (x : A) (body : A -> S -> M S) :
  (forall s w, body x s w = (Ret s, w)) ->
  forall s w, for_each (l1 ++ x :: l2) body s w = for_each (l1 ++ l2) body s w.
Proof.
  intros Hskip s w. rewrite !for_each_app. unfold bind.
  destruct (for_each l1 body s w) as [[s1| | |] w1]; try reflexivity.
  simpl. unfold bind. rewrite Hskip. reflexivity.
Qed.

Lemma run_adds_nothing (E : environment) (output_path : string) (items : list json)
    (w : world) :
  run_adds E output_path items w w [].
Proof. unfold run_adds. rewrite app_nil_r. auto. Qed.

Lemma run_adds_trans (E : environment) (output_path : string) (items : list json)
    (w w1 w2 : world) (new1 new2 : list event) :
  run_adds E output_path items w w1 new1 ->
  run_adds E output_path items w1 w2 new2 ->
  run_adds E output_path items w w2 (new1 ++ new2).
Proof.
  intros (Htr1 & Hacc1 & Hf1) (Htr2 & Hacc2 & Hf2). unfold run_adds.
  rewrite Htr2, Htr1, <- app_assoc. split; [reflexivity|]. split.
  - apply Forall_app; auto.
  - intros q Hq. rewrite Hf2, Hf1; [reflexivity| |];
      intros e He; apply Hq; apply in_or_app; auto.
Qed.

(** Events that touch no file leave the files as they are. *)
Lemma run_adds_silent (E : environment) (output_path : string) (items : list json)
    (w : world) (new : list event) :
  Forall (fun e => touched_path e = None) new ->
  run_adds E output_path items w (after w new) new.
Proof.
  intros Hall. unfold run_adds, after. simpl. split; [reflexivity|]. split; [|auto].
  eapply Forall_impl; [exact Hall|]. intros e He p Hp. congruence.
Qed.

Lemma write_all_trace (p : string) (chunks : list string) :
  forall (w : world) (o : outcome unit) (w' : world),
    write_all p chunks w = (o, w') ->
    exists new, w_trace w' = w_trace w ++ new
                /\ Forall (fun e => exists c, e = Write p c) new
                /\ (forall q, q <> p -> w_files w' !! q = w_files w !! q).
Proof.
  unfold write_all. induction chunks as [|c chunks IH]; intros w o w'; simpl.
  - unfold ret. intros H; inversion H; subst. exists []. rewrite app_nil_r. auto.
  - unfold bind, write. destruct (w_budget w) as [[|n]|].
    + intros H; inversion H; subst. exists []. rewrite app_nil_r. auto.
    + intros H. apply IH in H. destruct H as (new & Htr & Hall & Hf). simpl in Htr, Hf.
      exists (Write p c :: new). rewrite Htr, <- app_assoc. split; [reflexivity|].
      split; [constructor; eauto|].
      intros q Hq. rewrite Hf by exact Hq. apply lookup_insert_ne. congruence.
    + intros H. apply IH in H. destruct H as (new & Htr & Hall & Hf). simpl in Htr, Hf.
      exists (Write p c :: new). rewrite Htr, <- app_assoc. split; [reflexivity|].
      split; [constructor; eauto|].
      intros q Hq. rewrite Hf by exact Hq. apply lookup_insert_ne. congruence.
Qed.

(** One iteration: the events it adds are accounted for by its descriptor,
    files no event touches are unchanged, and at most one entry is appended. *)
Lemma download_one_spec (E : environment) (api_key output_path : string)
    (items : list json) (x : json) (downloaded : list dl_entry)
    (w : world) (o : outcome (list dl_entry)) (w' : world) :
  In x items ->
  download_one E api_key output_path x downloaded w = (o, w') ->
  (exists new, run_adds E output_path items w w' new)
  /\ (forall downloaded', o = Ret downloaded' ->
        (length downloaded' <= S (length downloaded))%nat).
Proof.
  intros Hin.
  destruct x as [| | | | |l|d]; unfold download_one; run_step;
    try (intros [= <- <-]; split; [exists []; apply run_adds_nothing|discriminate]).
  fold_artifact d.
  destruct (negb (truthy (artifact_url d)) || negb (truthy (artifact_filename d))).
  { intros [= <- <-]. split; [|intros ? [= <-]; lia].
    exists []. apply run_adds_nothing. }
  destruct (py_in_strs (artifact_format d) skipped_formats) eqn:Hfmt.
  { intros [= <- <-]. split; [|intros ? [= <-]; lia].
    exists []. apply run_adds_nothing. }
  rewrite requests_made_app. simpl. rewrite Nat.add_0_r.
  set (resp := net E _ _).
  set (start := [Stderr (MsgDownloading (artifact_filename d));
                 Http (Get (artifact_url d) api_key)]).
  assert (H1 : run_adds E output_path items w (after w start) start).
  { apply run_adds_silent. repeat constructor. }
  destruct (status_code resp =? 200); simpl.
  2:{ intros [= <- <-]. split; [|intros ? [= <-]; lia].
      exists (start ++ [Stderr (WarnDownloadFailed (artifact_filename d) (status_code resp))]).
      eapply run_adds_trans; [exact H1|].
      unfold run_adds, after. simpl. rewrite <- !app_assoc. simpl.
      split; [reflexivity|]. split; [|reflexivity].
      repeat constructor. intros p Hp. discriminate. }
  assert (Hw1 : forall (f : json),
             World ((w_trace w ++ [Stderr (MsgDownloading f)]) ++
                    [Http (Get (artifact_url d) api_key)]) (w_files w) (w_budget w)
             = after w [Stderr (MsgDownloading f); Http (Get (artifact_url d) api_key)]).
  { intros f. unfold after. rewrite <- app_assoc. reflexivity. }
  unfold path_div. subst start.
  destruct (artifact_filename d) as [| | | |f| |] eqn:Hname; simpl;
    try (intros [= <- <-]; rewrite Hw1; split; [eauto|discriminate]).
  destruct (write_all (path_join E output_path f) (content resp) _)
    as [r w2] eqn:Hwrite.
  apply write_all_trace in Hwrite. destruct Hwrite as (new & Htr & Hall & Hfiles).
  simpl in Htr, Hfiles.
  assert (H2 : run_adds E output_path items w w2
                 ([Stderr (MsgDownloading (JStr f)); Http (Get (artifact_url d) api_key)]
                  ++ OpenWrite (path_join E output_path f) :: new)).
  { eapply run_adds_trans; [exact H1|]. unfold run_adds, after. simpl.
    rewrite Htr, <- !app_assoc. split; [reflexivity|]. split.
    - constructor.
      + intros p [= <-]. exists d, f. auto.
      + eapply Forall_impl; [exact Hall|]. intros e [c ->] p [= <-].
        exists d, f. auto.
    - intros q Hq.
      assert (Hne : q <> path_join E output_path f).
      { intros ->. apply (Hq (OpenWrite (path_join E output_path f)));
          [left; reflexivity|reflexivity]. }
      rewrite Hfiles by exact Hne. apply lookup_insert_ne. congruence. }
  destruct r as [[]| | |]; simpl;
    try (intros [= <- <-]; split; [eauto|discriminate]).
  unfold relative_to.
  destruct (relative_to_root E (path_join E output_path f)); simpl;
    intros [= <- <-]; (split; [eauto|]).
  - intros ? [= <-]. rewrite length_app. simpl. lia.
  - discriminate.
Qed.


(** The loop: all added events are accounted for, and the list grows by at
    most one entry per output file. *)
Lemma download_loop_spec (E : environment) (api_key output_path : string)
    (items : list json) :
  forall (l : list json) (downloaded : list dl_entry)
         (w : world) (o : outcome (list dl_entry)) (w' : world),
    incl l items ->
    for_each l (download_one E api_key output_path) downloaded w = (o, w') ->
    (exists new, run_adds E output_path items w w' new)
    /\ (forall downloaded', o = Ret downloaded' ->
          (length downloaded' <= length downloaded + length l)%nat).
Proof.
  induction l as [|x l IH]; intros downloaded w o w' Hincl; simpl.
  - unfold ret. intros H; inversion H; subst. split; [|intros ? [= <-]; lia].
    exists []. apply run_adds_nothing.
  - unfold bind.
    destruct (download_one E api_key output_path x downloaded w) as [r w1] eqn:Hone.
    apply (download_one_spec E api_key output_path items) in Hone;
      [|apply Hincl; left; reflexivity].
    destruct Hone as ((new1 & Hadd1) & Hlen1).
    destruct r as [d1| | |];
      try (intros H; inversion H; subst; split; [eauto|discriminate]).
    intros H. apply IH in H; [|intros y Hy; apply Hincl; right; exact Hy].
    destruct H as ((new2 & Hadd2) & Hlen2).
    split.
    + exists (new1 ++ new2). eapply run_adds_trans; eassumption.
    + intros d' Hd'. specialize (Hlen2 d' Hd'). specialize (Hlen1 d1 eq_refl). lia.
Qed.

Lemma download_results_unfold (E : environment) (api_key : string) (pd : json)
    (output_path : string) (w : world) :
  download_results E api_key pd output_path w =
  match output_items pd with
  | Ret items =>
      for_each items (download_one E api_key output_path) [] (after w [Mkdir output_path])
  | Raise e => (Raise e, after w [Mkdir output_path])
  | Exit c => (Exit c, after w [Mkdir output_path])
  | OutOfFuel => (OutOfFuel, after w [Mkdir output_path])
  end.
Proof.
  unfold download_results, output_items. run_step. fold (after w [Mkdir output_path]).
  destruct (py_get pd "output_files" (JList [])) as [files| | |]; reflexivity.
Qed.

(** C3. An output file whose format tag is in [skipped_formats] is passed
    over without any effect - no request, no file, no entry.  Over a whole
    call, every file [download_results] opens or writes is named by an output
    file whose format tag is outside [skipped_formats], every other file on
    disk is left as it was, and the returned list is no longer than the list
    of output files. *)
Theorem download_results_skips_auxiliary_formats
    (E : environment) (api_key : string) (production_data : json)
    (output_path : string) (w : world) (o : outcome (list dl_entry)) (w' : world)
    (items : list json) :
  download_results E api_key production_data output_path w = (o, w') ->
  output_items production_data = Ret items ->
  (forall d downloaded w0,
     py_in_strs (artifact_format d) skipped_formats = true ->
     download_one E api_key output_path (JDict d) downloaded w0 = (Ret downloaded, w0))
  /\ (exists new, run_adds E output_path items (after w [Mkdir output_path]) w' new)
  /\ (forall downloaded, o = Ret downloaded ->
        (length downloaded <= length items)%nat).
Proof.
  intros Hrun Hitems. split; [intros; apply download_one_skips_format; assumption|].
  rewrite download_results_unfold, Hitems in Hrun.
  apply (download_loop_spec E api_key output_path items) in Hrun;
    [exact Hrun|apply incl_refl].
Qed.

Lemma download_results_skips_auxiliary_formats_witness :
  let E := sample_env script_serves in
  let items := [JDict (artifact "talk.mp3" "https://x/1" "mp3");
                JDict (artifact "talk.png" "https://x/2" "waveform")] in
  let entry := DlEntry (JStr "talk.mp3") (JStr "mp3") (JStr "1.2 MB") "out/talk.mp3" in
  let w' := World [Mkdir "out"; Stderr (MsgDownloading (JStr "talk.mp3"));
                   Http (Get (JStr "https://x/1") "key"); OpenWrite "out/talk.mp3";
                   Write "out/talk.mp3" "abc"; Write "out/talk.mp3" "def"]
                  {[ "out/talk.mp3"%string := "abcdef"%string ]} None in
  download_results E "key" (snapshot items) "out" empty_world = (Ret [entry], w')
  /\ output_items (snapshot items) = Ret items
  /\ (length [entry] <= length items)%nat.
Proof.
  intros E items entry w'.
  assert (Hrun : download_results E "key" (snapshot items) "out" empty_world
                 = (Ret [entry], w')) by (vm_compute; reflexivity).
  assert (Hitems : output_items (snapshot items) = Ret items) by reflexivity.
  split; [exact Hrun|]. split; [exact Hitems|].
  destruct (download_results_skips_auxiliary_formats E "key" (snapshot items) "out"
              empty_world _ _ items Hrun Hitems) as (_ & _ & Hlen).
  apply Hlen. reflexivity.
Defined.

(** C10. An output file whose descriptor has no truthy [download_url] or no
    truthy [filename] is passed over in silence, whatever its format tag:
    the iteration returns the list it was given and leaves the world - trace
    of diagnostics and requests, files - untouched, so [download_results]
    behaves exactly as if the descriptor were not in the snapshot. *)
Theorem download_results_skips_incomplete_descriptors
    (E : environment) (api_key output_path : string) (d : list (string * json)) :
  truthy (artifact_url d) = false \/ truthy (artifact_filename d) = false ->
  (forall downloaded w,
     download_one E api_key output_path (JDict d) downloaded w = (Ret downloaded, w))
  /\ (forall pd pd' before rest w,
        output_items pd = Ret (before ++ JDict d :: rest) ->
        output_items pd' = Ret (before ++ rest) ->
        download_results E api_key pd output_path w
        = download_results E api_key pd' output_path w).
Proof.
  intros Hd.
  assert (Hskip : forall downloaded w,
             download_one E api_key output_path (JDict d) downloaded w
             = (Ret downloaded, w))
    by (intros; apply download_one_skips_incomplete; exact Hd).
  split; [exact Hskip|].
  intros pd pd' before rest w Hpd Hpd'.
  rewrite !download_results_unfold, Hpd, Hpd'.
  apply for_each_skip. exact Hskip.
Qed.

Lemma download_results_skips_incomplete_descriptors_witness :
  let E := sample_env script_serves in
  let nameless := [("download_url", JStr "https://x/3"); ("format", JStr "mp3")]%string in
  let audio := JDict (artifact "talk.mp3" "https://x/1" "mp3") in
  truthy (artifact_filename nameless) = false
  /\ py_in_strs (artifact_format nameless) skipped_formats = false
  /\ download_one E "key" "out" (JDict nameless) [] empty_world = (Ret [], empty_world)
  /\ download_results E "key" (snapshot [JDict nameless; audio]) "out" empty_world
     = download_results E "key" (snapshot [audio]) "out" empty_world.
Proof.
  intros E nameless audio.
  assert (Hd : truthy (artifact_url nameless) = false
               \/ truthy (artifact_filename nameless) = false)
    by (right; reflexivity).
  destruct (download_results_skips_incomplete_descriptors E "key" "out" nameless Hd)
    as [Hone Hall].
  split; [reflexivity|]. split; [reflexivity|]. split; [apply Hone|].
  apply (Hall _ _ [] [audio]); reflexivity.
Defined.

Lemma write_all_requests (p : string) (chunks : list string) (w : world) :
  requests_made (w_trace (snd (write_all p chunks w))) = requests_made (w_trace w).
Proof.
  destruct (write_all p chunks w) as [o w'] eqn:Hrun.
  apply write_all_trace in Hrun. destruct Hrun as (new & Htr & Hall & _).
  simpl. rewrite Htr, requests_made_app.
  assert (Hz : requests_made new = 0%nat).
  { clear -Hall. induction Hall as [|e new [c ->] _ IH]; simpl; auto. }
  rewrite Hz. lia.
Qed.


(** ** Dictionaries *)

Section DictFacts.
Context {V : Type}.
Implicit Types (k : string) (v : V) (d : list (string * V)).

Lemma dict_get_set_eq k v d : dict_get k (dict_set k v d) = Some v.
Proof.
  induction d as [|[k' v'] d IH]; simpl.
  - rewrite String.eqb_refl. reflexivity.
  - destruct (String.eqb k' k) eqn:Hk; simpl; rewrite Hk; auto.
Qed.

Lemma dict_get_set_ne k k' v d :
  k <> k' -> dict_get k' (dict_set k v d) = dict_get k' d.
Proof.
  intros Hne. induction d as [|[k0 v0] d IH]; simpl.
  - apply String.eqb_neq in Hne. rewrite Hne. reflexivity.
  - destruct (String.eqb k0 k) eqn:Hk; simpl.
    + apply String.eqb_eq in Hk. subst k0.
      apply String.eqb_neq in Hne. rewrite Hne. reflexivity.
    + destruct (String.eqb k0 k'); auto.
Qed.

Lemma dict_set_set k v1 v2 d : dict_set k v2 (dict_set k v1 d) = dict_set k v2 d.
Proof.
  induction d as [|[k' v'] d IH]; simpl.
  - rewrite String.eqb_refl. reflexivity.
  - destruct (String.eqb k' k) eqn:Hk; simpl; rewrite Hk; [reflexivity|].
    rewrite IH. reflexivity.
Qed.

Lemma dict_set_same k v d : dict_get k d = Some v -> dict_set k v d = d.
Proof.
  induction d as [|[k' v'] d IH]; simpl; [discriminate|].
  destruct (String.eqb k' k) eqn:Hk.
  - intros [= ->]. reflexivity.
  - intros H. rewrite IH by exact H. reflexivity.
Qed.

Lemma dict_get_in_keys k d : dict_get k d <> None <-> In k (dict_keys d).
Proof.
  induction d as [|[k' v'] d IH]; simpl; [tauto|].
  destruct (String.eqb k' k) eqn:Hk.
  - apply String.eqb_eq in Hk. split; [auto|discriminate].
  - apply String.eqb_neq in Hk. rewrite IH. split; [auto|]. intros [H|H]; tauto.
Qed.

Lemma dict_keys_set_present k v d :
  dict_get k d <> None -> dict_keys (dict_set k v d) = dict_keys d.
Proof.
  induction d as [|[k' v'] d IH]; simpl; [congruence|].
  destruct (String.eqb k' k) eqn:Hk; simpl; [reflexivity|].
  intros H. rewrite IH by exact H. reflexivity.
Qed.

Lemma dict_keys_set_absent k v d :
  dict_get k d = None -> dict_keys (dict_set k v d) = dict_keys d ++ [k].
Proof.
  induction d as [|[k' v'] d IH]; simpl; [reflexivity|].
  destruct (String.eqb k' k) eqn:Hk; simpl; [discriminate|].
  intros H. rewrite IH by exact H. reflexivity.
Qed.

Lemma dict_set_NoDup k v d :
  NoDup (dict_keys d) -> NoDup (dict_keys (dict_set k v d)).
Proof.
  intros Hnd. destruct (dict_get k d) as [v0|] eqn:Hget.
  - rewrite dict_keys_set_present by congruence. exact Hnd.
  - rewrite dict_keys_set_absent by exact Hget.
    apply NoDup_app. split; [exact Hnd|]. split; [|apply NoDup_singleton].
    intros x Hx Hx'. apply list_elem_of_In in Hx, Hx'.
    destruct Hx' as [<-|[]].
    apply dict_get_in_keys in Hx. congruence.
Qed.

(** Two dictionaries with the same keys, in the same order and without
    repetition, and the same value under each key are equal. *)
Lemma dict_ext (a b : list (string * V)) :
  NoDup (dict_keys a) ->
  dict_keys b = dict_keys a ->
  (forall k, dict_get k b = dict_get k a) ->
  b = a.
Proof.
  revert b. induction a as [|[k v] a IH]; intros b Hnd Hkeys Hget.
  - destruct b; [reflexivity|discriminate].
  - destruct b as [|[k' v'] b]; [discriminate|].
    simpl in Hkeys. injection Hkeys as -> Hkeys.
    apply NoDup_cons in Hnd. destruct Hnd as [Hk Hnd].
    pose proof (Hget k) as Hv. simpl in Hv. rewrite String.eqb_refl in Hv.
    injection Hv as ->. f_equal.
    apply IH; [exact Hnd|exact Hkeys|].
    intros k0. specialize (Hget k0). simpl in Hget.
    destruct (String.eqb k k0) eqn:Hk0; [|exact Hget].
    apply String.eqb_eq in Hk0. subst k0.
    assert (Hnone : forall d : list (string * V),
               ~ In k (dict_keys d) -> dict_get k d = None).
    { intros d Hd. destruct (dict_get k d) eqn:Hg; [|reflexivity].
      exfalso. apply Hd. apply dict_get_in_keys. congruence. }
    rewrite !Hnone; [reflexivity| |].
    + intros H. apply Hk. apply list_elem_of_In. exact H.
    + rewrite Hkeys. intros H. apply Hk. apply list_elem_of_In. exact H.
Qed.
End DictFacts.

(** ** The IndexReconciler *)

Lemma entry_base_fields (date : string) (e : list (string * json)) :
  dict_get "added" (entry_base date e)
    = Some (default (JStr date) (dict_get "added" e))
  /\ dict_get "type" (entry_base date e) = Some (JStr "audio")
  /\ dict_get "description" (entry_base date e)
       = Some (default (JStr "") (dict_get "description" e))
  /\ dict_get "notes" (entry_base date e)
       = Some (default (JStr "") (dict_get "notes" e)).
Proof.
  unfold entry_base.
  set (e1 := dict_set "added" _ e).
  set (e2 := dict_set "type" _ e1).
  assert (Ha1 : dict_get "added" e2 = Some (default (JStr date) (dict_get "added" e))).
  { unfold e2. rewrite dict_get_set_ne by discriminate. apply dict_get_set_eq. }
  assert (Ht2 : dict_get "type" e2 = Some (JStr "audio")) by apply dict_get_set_eq.
  assert (Hd2 : dict_get "description" e2 = dict_get "description" e).
  { unfold e2, e1. rewrite !dict_get_set_ne by discriminate. reflexivity. }
  assert (Hn2 : dict_get "notes" e2 = dict_get "notes" e).
  { unfold e2, e1. rewrite !dict_get_set_ne by discriminate. reflexivity. }
  set (e3 := match dict_get "description" e2 with
             | Some _ => e2
             | None => dict_set "description" (JStr "") e2
             end).
  assert (H3 : dict_get "added" e3 = dict_get "added" e2
               /\ dict_get "type" e3 = dict_get "type" e2
               /\ dict_get "notes" e3 = dict_get "notes" e2
               /\ dict_get "description" e3
                  = Some (default (JStr "") (dict_get "description" e))).
  { unfold e3. destruct (dict_get "description" e2) as [v|] eqn:Hd.
    - rewrite Hd, <- Hd2. auto.
    - rewrite !dict_get_set_ne by discriminate. rewrite dict_get_set_eq, <- Hd2.
      auto. }
  destruct H3 as (Ha3 & Ht3 & Hn3 & Hd3).
  destruct (dict_get "notes" e3) as [v|] eqn:Hn.
  - rewrite Ha3, Ht3, Hd3, Ha1, Ht2.
    rewrite Hn3, Hn2 in Hn.
    repeat split; try reflexivity.
    destruct (dict_get "notes" e); simpl in *; congruence.
  - rewrite !dict_get_set_ne by discriminate. rewrite dict_get_set_eq.
    rewrite Ha3, Ht3, Hd3, Ha1, Ht2.
    rewrite Hn3, Hn2 in Hn.
    repeat split; try reflexivity.
    destruct (dict_get "notes" e); simpl in *; congruence.
Qed.

(** Rewriting a rewritten entry only replaces its [origin]: the date of the
    first rewriting stays. *)
Lemma merge_entry_collapse (u : json) (d1 d2 : string) (f1 f2 : json)
    (e : list (string * json)) :
  merge_entry u d2 f2 (merge_entry u d1 f1 e) = merge_entry u d1 f2 e.
Proof.
  unfold merge_entry at 1 3.
  destruct (entry_base_fields d1 e) as (Ha & Ht & Hd & Hn).
  set (m := merge_entry u d1 f1 e).
  assert (Hma : dict_get "added" m = Some (default (JStr d1) (dict_get "added" e))).
  { unfold m, merge_entry. rewrite dict_get_set_ne by discriminate. exact Ha. }
  assert (Hmt : dict_get "type" m = Some (JStr "audio")).
  { unfold m, merge_entry. rewrite dict_get_set_ne by discriminate. exact Ht. }
  assert (Hmd : dict_get "description" m <> None).
  { unfold m, merge_entry. rewrite dict_get_set_ne by discriminate. congruence. }
  assert (Hmn : dict_get "notes" m <> None).
  { unfold m, merge_entry. rewrite dict_get_set_ne by discriminate. congruence. }
  assert (Hbase : entry_base d2 m = m).
  { unfold entry_base. rewrite Hma. simpl.
    rewrite (dict_set_same "added" _ m Hma).
    rewrite (dict_set_same "type" _ m Hmt).
    destruct (dict_get "description" m); [|congruence].
    destruct (dict_get "notes" m); [|congruence]. reflexivity. }
  rewrite Hbase. unfold m, merge_entry. apply dict_set_set.
Qed.

(** A rewritten entry keeps the user's fields and the date it had. *)
Lemma merge_entry_keeps (u : json) (date : string) (fmt : json)
    (e : list (string * json)) (field : string) (v : json) :
  In field kept_fields ->
  dict_get field e = Some v ->
  dict_get field (merge_entry u date fmt e) = Some v.
Proof.
  intros Hin Hget. destruct (entry_base_fields date e) as (Ha & _ & Hd & Hn).
  unfold merge_entry.
  destruct Hin as [<-|[<-|[<-|[]]]];
    rewrite dict_get_set_ne by discriminate.
  - rewrite Hd, Hget. reflexivity.
  - rewrite Hn, Hget. reflexivity.
  - rewrite Ha, Hget. reflexivity.
Qed.

(** The loop body on an index that is a dictionary. *)
Lemma reconcile_entry_dict (E : environment) (output_dir : string) (u : json)
    (date : string) (dl : dl_entry) (idx : list (string * json)) :
  reconcile_entry E output_dir u date dl (JDict idx) =
  match dict_get (index_key E output_dir dl) idx with
  | None =>
      Ret (JDict (dict_set (index_key E output_dir dl)
                           (JDict (merge_entry u date (dl_format dl) [])) idx))
  | Some (JDict e) =>
      Ret (JDict (dict_set (index_key E output_dir dl)
                           (JDict (merge_entry u date (dl_format dl) e)) idx))
  | Some _ => Raise AttributeError
  end.
Proof.
  assert (Hdict : forall e,
    (added <~ py_get (JDict e) "added" (JStr date) ;;
     entry <~ py_setitem (JDict e) "added" added ;;
     entry <~ py_setitem entry "type" (JStr "audio") ;;
     entry <~ py_setdefault entry "description" (JStr "") ;;
     entry <~ py_setdefault entry "notes" (JStr "") ;;
     entry <~ py_setitem entry "origin"
                (JDict [("skill", JStr "auphonic-optimize");
                        ("auphonic_production", u);
                        ("format", dl_format dl)]%string) ;;
     py_setitem (JDict idx) (index_key E output_dir dl) entry)
    = Ret (JDict (dict_set (index_key E output_dir dl)
                           (JDict (merge_entry u date (dl_format dl) e)) idx))).
  { intros e. unfold merge_entry, entry_base, origin_of. simpl.
    set (e2 := dict_set "type" _ _).
    destruct (dict_get "description" e2); simpl;
      match goal with
      | |- context [dict_get "notes" ?x] => destruct (dict_get "notes" x)
      end; reflexivity. }
  unfold reconcile_entry. fold (index_key E output_dir dl). simpl.
  destruct (dict_get (index_key E output_dir dl) idx) as [v|]; simpl.
  - destruct v; try reflexivity. apply Hdict.
  - apply (Hdict []).
Qed.

Lemma reconcile_entry_not_dict (E : environment) (output_dir : string) (u : json)
    (date : string) (dl : dl_entry) (index : json) :
  (forall d, index <> JDict d) ->
  reconcile_entry E output_dir u date dl index = Raise AttributeError.
Proof.
  intros H. destruct index; try reflexivity. exfalso. eapply H. reflexivity.
Qed.

Lemma evolved_merge (u : json) (v v' : json) (d : string) (f : json)
    (e : list (string * json)) :
  v = JDict (merge_entry u d f e) -> evolved u v v' ->
  exists f', v' = JDict (merge_entry u d f' e).
Proof.
  intros -> [->|(e' & d' & f' & Heq & ->)]; [eauto|].
  injection Heq as <-. rewrite merge_entry_collapse. eauto.
Qed.

(** One step of the loop, seen from the index: the key of the download is
    set to the rewritten entry. *)
Lemma reconcile_entry_step (E : environment) (output_dir : string) (u : json)
    (date : string) (dl : dl_entry) (a : list (string * json)) (r : json) :
  reconcile_entry E output_dir u date dl (JDict a) = Ret r ->
  exists e,
    (dict_get (index_key E output_dir dl) a = None /\ e = []
     \/ dict_get (index_key E output_dir dl) a = Some (JDict e))
    /\ r = JDict (dict_set (index_key E output_dir dl)
                           (JDict (merge_entry u date (dl_format dl) e)) a).
Proof.
  rewrite reconcile_entry_dict.
  destruct (dict_get (index_key E output_dir dl) a) as [v|].
  - destruct v; try discriminate. intros [= <-]. eauto.
  - intros [= <-]. eauto.
Qed.

(** What the loop does to the values already in the index. *)
Lemma reconcile_evolves (E : environment) (output_dir : string) (u : json) :
  forall (rest : list dl_entry) (i : nat) (a : list (string * json)) (final : json),
    reconcile E output_dir u i rest (JDict a) = Ret final ->
    exists fd,
      final = JDict fd
      /\ (NoDup (dict_keys a) -> NoDup (dict_keys fd))
      /\ forall k v, dict_get k a = Some v ->
           exists v', dict_get k fd = Some v' /\ evolved u v v'.
Proof.
  induction rest as [|dl rest IH]; intros i a final; simpl.
  - intros [= <-]. exists a. split; [reflexivity|]. split; [auto|].
    intros k v Hk. exists v. split; [exact Hk|left; reflexivity].
  - destruct (reconcile_entry E output_dir u (today E i) dl (JDict a)) as [r| | |] eqn:Hstep;
      simpl; try discriminate.
    apply reconcile_entry_step in Hstep. destruct Hstep as (e & He & ->).
    intros Hrest. apply IH in Hrest. destruct Hrest as (fd & -> & Hnd & Hev).
    exists fd. split; [reflexivity|]. split.
    { intros H. apply Hnd. apply dict_set_NoDup. exact H. }
    intros k v Hk.
    destruct (String.eqb (index_key E output_dir dl) k) eqn:Hkey.
    + apply String.eqb_eq in Hkey. subst k.
      destruct He as [[Hnone _]|Hsome]; [congruence|].
      rewrite Hsome in Hk. injection Hk as <-.
      destruct (Hev (index_key E output_dir dl)
                    (JDict (merge_entry u (today E i) (dl_format dl) e)))
        as (v' & Hv' & Hev'); [apply dict_get_set_eq|].
      exists v'. split; [exact Hv'|].
      destruct (evolved_merge u _ v' _ _ _ eq_refl Hev') as (f' & ->).
      right. eauto.
    + apply String.eqb_neq in Hkey.
      apply Hev. rewrite dict_get_set_ne by exact Hkey. exact Hk.
Qed.

(** The second run follows the first one step by step and ends with the
    values the first run ended with. *)
Lemma reconcile_second_run (E E2 : environment) (output_dir : string) (u : json) :
  format_value E2 = format_value E ->
  forall (rest : list dl_entry) (i j : nat) (a b fd : list (string * json)),
    reconcile E output_dir u i rest (JDict a) = Ret (JDict fd) ->
    second_run_inv u a b fd ->
    exists b',
      reconcile E2 output_dir u j rest (JDict b) = Ret (JDict b')
      /\ dict_keys b' = dict_keys fd
      /\ forall k, dict_get k b' = dict_get k fd.
Proof.
  intros Hfmt.
  assert (Hkey : forall dl, index_key E2 output_dir dl = index_key E output_dir dl).
  { intros dl. unfold index_key, py_str. rewrite Hfmt. reflexivity. }
  induction rest as [|dl rest IH]; intros i j a b fd; simpl.
  - intros [= <-] (Hkeys & Hinv). exists b. split; [reflexivity|].
    split; [exact Hkeys|]. intros k. destruct (Hinv k) as [H|[H _]]; exact H.
  - destruct (reconcile_entry E output_dir u (today E i) dl (JDict a)) as [r| | |] eqn:Hstep;
      simpl; try discriminate.
    apply reconcile_entry_step in Hstep. destruct Hstep as (e & He & ->).
    set (key := index_key E output_dir dl) in *.
    set (m := merge_entry u (today E i) (dl_format dl) e) in *.
    intros Hrest (Hkeys & Hinv).
    destruct (reconcile_evolves E output_dir u _ _ _ _ Hrest) as (fd' & Hfd & _ & Hev).
    injection Hfd as <-.
    destruct (Hev key (JDict m)) as (vf & Hvf & Hevf); [apply dict_get_set_eq|].
    destruct (evolved_merge u _ vf _ _ _ eq_refl Hevf) as (ff & ->).
    (* the entry the second run finds under the key *)
    assert (Hb : exists eb, dict_get key b = Some (JDict eb)
                            /\ forall d', merge_entry u d' (dl_format dl) eb = m).
    { destruct (Hinv key) as [Hfin|[Hsame (e0 & d0 & f0 & Ha)]].
      - rewrite Hvf in Hfin. eexists. split; [exact Hfin|].
        intros d'. apply merge_entry_collapse.
      - destruct He as [[Hnone _]|Hsome]; [congruence|].
        rewrite Hsome in Ha. injection Ha as ->.
        rewrite Hsome in Hsame. eexists. split; [exact Hsame|].
        intros d'. unfold m. rewrite !merge_entry_collapse. reflexivity. }
    destruct Hb as (eb & Hgetb & Hmerge).
    rewrite reconcile_entry_dict, Hkey. fold key. rewrite Hgetb. simpl.
    rewrite Hmerge.
    apply (IH (S i) (S j) _ _ fd Hrest).
    split.
    + rewrite dict_keys_set_present by congruence. exact Hkeys.
    + intros k. destruct (String.eqb key k) eqn:Hk.
      * apply String.eqb_eq in Hk. subst k. right.
        rewrite !dict_get_set_eq. split; [reflexivity|]. unfold m. eauto.
      * apply String.eqb_neq in Hk. rewrite !dict_get_set_ne by exact Hk.
        apply Hinv.
Qed.

Lemma reconcile_not_dict (E : environment) (output_dir : string) (u : json)
    (i : nat) (rest : list dl_entry) (index r : json) :
  (forall d, index <> JDict d) ->
  reconcile E output_dir u i rest index = Ret r ->
  rest = [] /\ r = index.
Proof.
  intros Hnd. destruct rest as [|dl rest]; simpl.
  - intros [= <-]. auto.
  - rewrite reconcile_entry_not_dict by exact Hnd. discriminate.
Qed.

(** Running the loop again over the same downloads, on any day, gives the
    index back. *)
Lemma reconcile_idempotent (E E2 : environment) (output_dir : string) (u : json)
    (i j : nat) (downloaded : list dl_entry) (idx0 idx1 : json) :
  format_value E2 = format_value E ->
  (forall d, idx0 = JDict d -> NoDup (dict_keys d)) ->
  reconcile E output_dir u i downloaded idx0 = Ret idx1 ->
  reconcile E2 output_dir u j downloaded idx1 = Ret idx1.
Proof.
  intros Hfmt Hnd Hrun.
  assert (Hcase : (exists a, idx0 = JDict a) \/ (forall d, idx0 <> JDict d)).
  { destruct idx0; try (right; intros d; discriminate). left. eauto. }
  destruct Hcase as [[a ->]|Hno].
  - destruct (reconcile_evolves E output_dir u _ _ _ _ Hrun) as (fd & -> & Hndf & _).
    destruct (reconcile_second_run E E2 output_dir u Hfmt downloaded i j a fd fd Hrun)
      as (b' & Hrun2 & Hkeys & Hget).
    { split; [reflexivity|]. intros k. left. reflexivity. }
    rewrite Hrun2. f_equal. f_equal.
    apply dict_ext; [apply Hndf; apply (Hnd a); reflexivity|exact Hkeys|exact Hget].
  - destruct (reconcile_not_dict _ _ _ _ _ _ _ Hno Hrun) as [-> ->]. reflexivity.
Qed.

(** The loop keeps the user's fields and the [added] date of every entry it
    finds in the index. *)
Lemma reconcile_keeps (E : environment) (output_dir : string) (u : json)
    (i : nat) (downloaded : list dl_entry) (a fd e : list (string * json))
    (k field : string) (v : json) :
  reconcile E output_dir u i downloaded (JDict a) = Ret (JDict fd) ->
  dict_get k a = Some (JDict e) ->
  In field kept_fields ->
  dict_get field e = Some v ->
  exists e', dict_get k fd = Some (JDict e') /\ dict_get field e' = Some v.
Proof.
  intros Hrun Hk Hin Hv.
  destruct (reconcile_evolves E output_dir u _ _ _ _ Hrun) as (fd' & Hfd & _ & Hev).
  injection Hfd as <-.
  destruct (Hev k _ Hk) as (v' & Hv' & [->|(e0 & d & f & Heq & ->)]).
  - eauto.
  - injection Heq as <-. eexists. split; [exact Hv'|].
    apply merge_entry_keeps; assumption.
Qed.


(** ** Writing the index file *)

Lemma append_nil_right (s : string) : (s +:+ "")%string = s.
Proof.
  induction s as [|c s IH]; [reflexivity|].
  change (String c (s +:+ "") = String c s). rewrite IH. reflexivity.
Qed.

Lemma append_associative (a b c : string) :
  ((a +:+ b) +:+ c)%string = (a +:+ (b +:+ c))%string.
Proof.
  induction a as [|x a IH]; [reflexivity|].
  change (String x ((a +:+ b) +:+ c) = String x (a +:+ (b +:+ c))).
  rewrite IH. reflexivity.
Qed.

Lemma concat_chunks_app (l1 l2 : list string) :
  concat_chunks (l1 ++ l2) = (concat_chunks l1 +:+ concat_chunks l2)%string.
Proof.
  induction l1 as [|c l1 IH]; simpl; [reflexivity|].
  rewrite IH, append_associative. reflexivity.
Qed.

Lemma render_chunks (E : environment) (index : json) :
  concat_chunks (index_chunks E index) = render E index.
Proof.
  unfold index_chunks, render. rewrite concat_chunks_app. simpl.
  rewrite append_nil_right. reflexivity.
Qed.

Lemma write_all_then_write (p : string) (chunks : list string) (c : string) (w : world) :
  (write_all p chunks ;; write p c) w = write_all p (chunks ++ [c]) w.
Proof.
  unfold write_all. rewrite for_each_app. unfold bind.
  destruct (for_each chunks (fun c0 _ => write p c0) tt w) as [[[]| | |] w1];
    try reflexivity.
  simpl. unfold bind, ret. destruct (write p c w1) as [[[]| | |] w2]; reflexivity.
Qed.

(** Writing chunks to an open file: the first [n] of them get through; all of
    them when the call returns, and all of them on a disk without limit. *)
Lemma write_all_prefix (p : string) (chunks : list string) :
  forall (w : world) (cur : string) (o : outcome unit) (w' : world),
    w_files w !! p = Some cur ->
    write_all p chunks w = (o, w') ->
    exists n,
      (n <= length chunks)%nat
      /\ w_files w' = <[p := (cur +:+ concat_chunks (firstn n chunks))%string]> (w_files w)
      /\ (o = Ret tt /\ n = length chunks
          \/ o = Raise OSError /\ w_budget w = Some n /\ (n < length chunks)%nat)
      /\ (w_budget w = None -> w_budget w' = None).
Proof.
  unfold write_all. induction chunks as [|c chunks IH]; intros w cur o w' Hcur; simpl.
  - unfold ret. intros [= <- <-]. exists 0%nat. simpl. rewrite append_nil_right.
    split; [lia|]. split; [symmetry; apply insert_id; exact Hcur|]. auto.
  - unfold bind, write. rewrite Hcur. simpl.
    destruct (w_budget w) as [[|k]|] eqn:Hb.
    + intros [= <- <-]. exists 0%nat. simpl. rewrite append_nil_right.
      split; [lia|]. split; [symmetry; apply insert_id; exact Hcur|].
      split; [right; repeat split; lia|discriminate].
    + intros Hrun. eapply IH in Hrun; [|simpl; apply lookup_insert_eq].
      destruct Hrun as (n & Hn & Hfiles & Hout & _). simpl in Hfiles, Hout.
      exists (S n). simpl. split; [lia|].
      rewrite Hfiles, insert_insert_eq, append_associative.
      split; [reflexivity|]. split; [|discriminate].
      destruct Hout as [[-> ->]|(-> & [= <-] & Hlt)]; [left; auto|right].
      repeat split; lia.
    + intros Hrun. eapply IH in Hrun; [|simpl; apply lookup_insert_eq].
      destruct Hrun as (n & Hn & Hfiles & Hout & Hnone). simpl in Hfiles, Hout, Hnone.
      exists (S n). simpl. split; [lia|].
      rewrite Hfiles, insert_insert_eq, append_associative.
      split; [reflexivity|]. split; [|auto].
      destruct Hout as [[-> ->]|(_ & Hbad & _)]; [left; auto|discriminate].
Qed.

(** Lines 227-243 from a loaded index [idx0]: nothing is written unless the
    loop completes; then the file is truncated and the first [n] chunks of
    the new index reach it. *)
Lemma persist_spec (E : environment) (p output_dir : string)
    (downloaded : list dl_entry) (u : json) (idx0 : json) (w : world)
    (o : outcome unit) (w' : world) :
  (index <- lift (reconcile E output_dir u 0 downloaded idx0) ;;
   open_w p ;;
   write_all p (json_dump E index) ;;
   write p newline) w = (o, w') ->
  match reconcile E output_dir u 0 downloaded idx0 with
  | Ret index =>
      exists n,
        (n <= length (index_chunks E index))%nat
        /\ w_files w' = <[p := concat_chunks (firstn n (index_chunks E index))]> (w_files w)
        /\ (o = Ret tt /\ n = length (index_chunks E index)
            \/ o = Raise OSError /\ w_budget w = Some n
               /\ (n < length (index_chunks E index))%nat)
        /\ (w_budget w = None -> w_budget w' = None)
  | Raise e => o = Raise e /\ w' = w
  | Exit c => o = Exit c /\ w' = w
  | OutOfFuel => o = OutOfFuel /\ w' = w
  end.
Proof.
  unfold bind at 1, lift.
  destruct (reconcile E output_dir u 0 downloaded idx0) as [index| | |];
    try (intros [= <- <-]; auto).
  unfold bind at 1, open_w.
  rewrite write_all_then_write. fold (index_chunks E index).
  intros Hrun. eapply write_all_prefix in Hrun; [|simpl; apply lookup_insert_eq].
  destruct Hrun as (n & Hn & Hfiles & Hout & Hnone). simpl in Hfiles, Hout, Hnone.
  exists n. rewrite Hfiles, insert_insert_eq. auto.
Qed.

(** [update_index], step by step: nothing is written unless the index loads
    and the loop completes; then the file is truncated and the first [n]
    chunks of the new index reach it - all of them exactly when the call
    returns, which a disk without limit guarantees. *)
Lemma update_index_spec (E : environment) (project_path output_dir : string)
    (downloaded : list dl_entry) (u : json) (w : world)
    (o : outcome unit) (w' : world) :
  update_index E project_path output_dir downloaded u w = (o, w') ->
  match merged_index E project_path output_dir downloaded u w with
  | Ret index =>
      exists n,
        (n <= length (index_chunks E index))%nat
        /\ w_files w' = <[index_file E project_path :=
                           concat_chunks (firstn n (index_chunks E index))]> (w_files w)
        /\ (o = Ret tt /\ n = length (index_chunks E index)
            \/ o = Raise OSError /\ w_budget w = Some n
               /\ (n < length (index_chunks E index))%nat)
        /\ (w_budget w = None -> w_budget w' = None)
  | Raise e => o = Raise e /\ w' = w
  | Exit c => o = Exit c /\ w' = w
  | OutOfFuel => o = OutOfFuel /\ w' = w
  end.
Proof.
  unfold update_index, merged_index, loaded_index.
  set (p := index_file E project_path).
  unfold bind at 1, path_exists.
  destruct (w_files w !! p) as [s|] eqn:Hf.
  - unfold bind at 1, load_json. rewrite Hf.
    destruct (json_load E s) as [idx0|]; [|intros [= <- <-]; simpl; auto].
    apply persist_spec.
  - unfold bind at 1, ret. apply persist_spec.
Qed.

(** C2. After a run of [update_index] that returned, a second run over the
    same downloads - on any later day - computes the same index and leaves
    the same bytes on disk.  Every [description], [notes] and [added] value
    found in an entry of the prior index is still there after both runs.
    (The index file is read back as it was written, and the prior index, a
    Python dictionary, has no repeated key.) *)
Theorem update_index_idempotent
    (E : environment) (clock2 : nat -> string) (project_path output_dir : string)
    (downloaded : list dl_entry) (u : json) (w w1 : world) (idx1 : json) :
  let E2 := set_today E clock2 in
  w_budget w = None ->
  (forall idx0, loaded_index E project_path w = Ret (JDict idx0) ->
                NoDup (dict_keys idx0)) ->
  update_index E project_path output_dir downloaded u w = (Ret tt, w1) ->
  merged_index E project_path output_dir downloaded u w = Ret idx1 ->
  json_load E (render E idx1) = Some idx1 ->
  w_files w1 !! index_file E project_path = Some (render E idx1)
  /\ merged_index E2 project_path output_dir downloaded u w1 = Ret idx1
  /\ (exists w2,
        update_index E2 project_path output_dir downloaded u w1 = (Ret tt, w2)
        /\ w_files w2 = w_files w1)
  /\ (forall idx0 k e field v,
        loaded_index E project_path w = Ret (JDict idx0) ->
        dict_get k idx0 = Some (JDict e) ->
        In field kept_fields ->
        dict_get field e = Some v ->
        exists d1 e1,
          idx1 = JDict d1
          /\ dict_get k d1 = Some (JDict e1)
          /\ dict_get field e1 = Some v).
Proof.
  intros E2 Hbudget Hnodup Hrun1 Hmerged Hcodec.
  pose proof (update_index_spec _ _ _ _ _ _ _ _ Hrun1) as Hspec.
  rewrite Hmerged in Hspec.
  destruct Hspec as (n & _ & Hfiles & Hout & Hb1).
  destruct Hout as [[_ ->]|(Hbad & _)]; [|discriminate].
  rewrite firstn_all, render_chunks in Hfiles.
  assert (Hfile1 : w_files w1 !! index_file E project_path = Some (render E idx1)).
  { rewrite Hfiles. apply lookup_insert_eq. }
  assert (Hload2 : loaded_index E2 project_path w1 = Ret idx1).
  { unfold loaded_index. change (index_file E2 project_path) with (index_file E project_path).
    rewrite Hfile1. change (json_load E2) with (json_load E). rewrite Hcodec. reflexivity. }
  assert (Hmerged2 : merged_index E2 project_path output_dir downloaded u w1 = Ret idx1).
  { unfold merged_index in *. rewrite Hload2. simpl.
    destruct (loaded_index E project_path w) as [idx0| | |] eqn:Hload; try discriminate.
    simpl in Hmerged.
    apply (reconcile_idempotent E E2 output_dir u 0 0 downloaded idx0 idx1);
      [reflexivity| |exact Hmerged].
    intros d ->. apply Hnodup. reflexivity. }
  split; [exact Hfile1|]. split; [exact Hmerged2|]. split.
  - destruct (update_index E2 project_path output_dir downloaded u w1) as [o2 w2] eqn:Hrun2.
    pose proof (update_index_spec _ _ _ _ _ _ _ _ Hrun2) as Hspec2.
    rewrite Hmerged2 in Hspec2.
    destruct Hspec2 as (n2 & _ & Hfiles2 & Hout2 & _).
    destruct Hout2 as [[-> ->]|(_ & Hb & _)].
    + exists w2. split; [reflexivity|].
      rewrite firstn_all, render_chunks in Hfiles2.
      rewrite Hfiles2. change (index_file E2 project_path) with (index_file E project_path).
      change (render E2 idx1) with (render E idx1).
      apply insert_id. exact Hfile1.
    + rewrite (Hb1 Hbudget) in Hb. discriminate.
  - intros idx0 k e field v Hload Hk Hin Hv.
    unfold merged_index in Hmerged. rewrite Hload in Hmerged. simpl in Hmerged.
    destruct (reconcile_evolves E output_dir u _ _ _ _ Hmerged) as (d1 & -> & _).
    destruct (reconcile_keeps E output_dir u 0 downloaded idx0 d1 e k field v
                Hmerged Hk Hin Hv) as (e1 & Hk1 & Hv1).
    eauto.
Qed.

Lemma update_index_idempotent_witness :
  let idx1 :=
    JDict [("out/talk.mp3",
            JDict [("added", JStr "2025-12-24");
                   ("description", JStr "keynote, final cut");
                   ("type", JStr "audio"); ("notes", JStr "");
                   ("origin", origin_of (JStr "p1") (JStr "mp3"))])]%string in
  let E := env_loading idx1 in
  let p := "proj/file_index.json"%string in
  let w := world_with_index "{...}" in
  let w1 := World [OpenWrite p; Write p "{...}"; Write p newline]
                  {[ p := render E idx1 ]} None in
  merged_index (env_loading (JDict annotated_index)) "proj" "out" [sample_download]
               (JStr "p1") w = Ret idx1
  /\ update_index E "proj" "out" [sample_download] (JStr "p1") w = (Ret tt, w1)
  /\ exists w2,
       update_index (set_today E (fun _ => "2026-04-01"%string))
                    "proj" "out" [sample_download] (JStr "p1") w1 = (Ret tt, w2)
       /\ w_files w2 = w_files w1.
Proof.
  intros idx1 E p w w1.
  split; [vm_compute; reflexivity|].
  assert (Hb : w_budget w = None) by reflexivity.
  assert (Hnd : forall idx0, loaded_index E "proj" w = Ret (JDict idx0) ->
                             NoDup (dict_keys idx0)).
  { intros idx0 H. vm_compute in H. injection H as <-. simpl.
    apply NoDup_singleton. }
  assert (Hrun : update_index E "proj" "out" [sample_download] (JStr "p1") w
                 = (Ret tt, w1)) by (vm_compute; reflexivity).
  assert (Hm : merged_index E "proj" "out" [sample_download] (JStr "p1") w = Ret idx1)
    by (vm_compute; reflexivity).
  assert (Hc : json_load E (render E idx1) = Some idx1) by reflexivity.
  split; [exact Hrun|].
  exact (proj1 (proj2 (proj2 (update_index_idempotent E (fun _ => "2026-04-01"%string)
                  "proj" "out" [sample_download] (JStr "p1") w w1 idx1
                  Hb Hnd Hrun Hm Hc)))).
Defined.


(** ** The Downloader: downloads that fail *)

(** An eligible output file whose download is answered with a non-200 code:
    a warning, no file, no entry, and the iteration ends normally. *)
Lemma download_one_refused (C : conditions) (api_key output_path : string)
    (d : list (string * json)) (downloaded : list dl_entry) (w : world) :
  let n := requests_made (w_trace w) in
  let resp := net (env C) n (Get (artifact_url d) api_key) in
  truthy (artifact_url d) = true ->
  truthy (artifact_filename d) = true ->
  py_in_strs (artifact_format d) skipped_formats = false ->
  net_fault C n (Get (artifact_url d) api_key) = None ->
  status_code resp <> 200 ->
  download_one C api_key output_path (JDict d) downloaded w
  = (Ret downloaded, after w (failed_download api_key d (status_code resp))).
Proof.
  intros n resp Hurl Hname Hfmt Hnet Hcode.
  unfold download_one. run_step.
  fold_artifact d.
  rewrite Hurl, Hname, Hfmt. simpl.
  rewrite requests_made_app. simpl. rewrite Nat.add_0_r. fold n.
  rewrite Hnet. simpl. fold resp.
  apply Z.eqb_neq in Hcode. rewrite Hcode. simpl.
  unfold after, failed_download. rewrite <- !app_assoc. reflexivity.
Qed.

(** An eligible output file whose request raises: the exception leaves the
    iteration. *)
Lemma download_one_raises (C : conditions) (api_key output_path : string)
    (d : list (string * json)) (downloaded : list dl_entry) (w : world) (e : exn) :
  truthy (artifact_url d) = true ->
  truthy (artifact_filename d) = true ->
  py_in_strs (artifact_format d) skipped_formats = false ->
  net_fault C (requests_made (w_trace w)) (Get (artifact_url d) api_key) = Some e ->
  download_one C api_key output_path (JDict d) downloaded w
  = (Raise e, after w [Stderr (MsgDownloading (artifact_filename d));
                       Http (Get (artifact_url d) api_key)]).
Proof.
  intros Hurl Hname Hfmt Hnet.
  unfold download_one. run_step.
  fold_artifact d.
  rewrite Hurl, Hname, Hfmt. simpl.
  rewrite requests_made_app. simpl. rewrite Nat.add_0_r.
  rewrite Hnet. simpl.
  unfold after. rewrite <- !app_assoc. reflexivity.
Qed.

(** An eligible output file whose download is answered with 200: the file
    is opened and the chunks are written; then the transfer ends or
    breaks. *)
Lemma download_one_answered (C : conditions) (api_key output_path : string)
    (d : list (string * json)) (f : string) (downloaded : list dl_entry) (w : world) :
  let n := requests_made (w_trace w) in
  let resp := net (env C) n (Get (artifact_url d) api_key) in
  let dest := path_join (env C) output_path f in
  truthy (artifact_url d) = true ->
  artifact_filename d = JStr f -> f <> ""%string ->
  py_in_strs (artifact_format d) skipped_formats = false ->
  net_fault C n (Get (artifact_url d) api_key) = None ->
  status_code resp = 200 ->
  download_one C api_key output_path (JDict d) downloaded w =
  match write_all dest (content resp) (opened_for w api_key d dest) with
  | (Ret _, w2) =>
      match stream_fault C n (Get (artifact_url d) api_key) with
      | Some e => (Raise e, w2)
      | None =>
          match relative_to_root (env C) dest with
          | Some rel =>
              (Ret (downloaded ++ [DlEntry (JStr f) (artifact_format d)
                                           (default (JStr "") (dict_get "size_string" d))
                                           rel]),
               w2)
          | None => (Raise ValueError, w2)
          end
      end
  | (Raise e, w2) => (Raise e, w2)
  | (Exit c, w2) => (Exit c, w2)
  | (OutOfFuel, w2) => (OutOfFuel, w2)
  end.
Proof.
  intros n resp dest Hurl Hname Hne Hfmt Hnet Hcode. unfold opened_for.
  unfold download_one. run_step. fold_artifact d.
  rewrite Hurl, Hname, Hfmt. simpl.
  apply String.eqb_neq in Hne. rewrite Hne. simpl.
  rewrite requests_made_app. simpl. rewrite Nat.add_0_r. fold n.
  rewrite <- Hname. rewrite Hnet. simpl. fold resp. rewrite Hname.
  apply Z.eqb_eq in Hcode. rewrite Hcode. simpl. fold dest.
  rewrite <- !app_assoc. simpl.
  set (opened := World _ _ _).
  pose proof (write_all_requests dest (content resp) opened) as Hreq.
  destruct (write_all dest (content resp) opened) as [[[]| | |] w2]; try reflexivity.
  unfold end_of_stream. simpl in Hreq. rewrite Hreq. unfold opened. simpl.
  rewrite requests_made_app. simpl. rewrite Nat.add_1_r. simpl. fold n.
  rewrite <- Hname.
  destruct (stream_fault C n (Get (artifact_url d) api_key)); simpl; [reflexivity|].
  unfold relative_to. destruct (relative_to_root (env C) dest); reflexivity.
Qed.

(** On a disk without limit every chunk is written. *)
Lemma write_all_events (p : string) (chunks : list string) :
  forall (w : world) (o : outcome unit) (w' : world),
    write_all p chunks w = (o, w') ->
    w_budget w = None ->
    w_trace w' = w_trace w ++ map (Write p) chunks.
Proof.
  unfold write_all. induction chunks as [|c chunks IH]; intros w o w'; simpl.
  - unfold ret. intros [= <- <-] _. rewrite app_nil_r. reflexivity.
  - unfold bind, write. intros Hrun Hb. rewrite Hb in Hrun. simpl in Hrun.
    apply IH in Hrun; [|reflexivity]. simpl in Hrun.
    rewrite Hrun, <- app_assoc. reflexivity.
Qed.

(** C4. A download that is answered with a status code other than 200 does
    not abort the Downloader: the iteration logs a warning, writes no file,
    adds no entry and returns, and the loop goes on with the remaining
    output files.  The run then completes with status "ok" for whatever list
    was downloaded, the empty one included (which adds the warning that
    nothing was downloaded), provided the index update and the statistics
    extraction return.  A download whose request raises, or whose transfer
    breaks, is another matter: nothing catches the exception, the remaining
    output files are not processed, no warning is logged for it and the run
    ends with the exception, without a summary. *)
Theorem download_failure_is_not_fatal_when_answered
    (C : conditions) (api_key output_path : string) (d : list (string * json)) :
  truthy (artifact_url d) = true ->
  truthy (artifact_filename d) = true ->
  py_in_strs (artifact_format d) skipped_formats = false ->
  let request := Get (artifact_url d) api_key in
  let body := download_one C api_key output_path in
  (forall downloaded w,
     let n := requests_made (w_trace w) in
     let resp := net (env C) n request in
     net_fault C n request = None ->
     status_code resp <> 200 ->
     body (JDict d) downloaded w
     = (Ret downloaded, after w (failed_download api_key d (status_code resp))))
  /\ (forall before rest downloaded0 w downloaded1 w1,
        let n := requests_made (w_trace w1) in
        let resp := net (env C) n request in
        for_each before body downloaded0 w = (Ret downloaded1, w1) ->
        net_fault C n request = None ->
        status_code resp <> 200 ->
        for_each (before ++ JDict d :: rest) body downloaded0 w
        = for_each rest body downloaded1
            (after w1 (failed_download api_key d (status_code resp))))
  /\ (forall preset_uuid project_path file output_dir production_uuid pd
             downloaded w w1 w2 stats,
        download_results C api_key (JDict pd)
                         (path_join (env C) project_path output_dir) w
          = (Ret downloaded, w1) ->
        update_index (env C) project_path output_dir downloaded production_uuid
          (match downloaded with [] => after w1 [Stderr WarnNoOutputs] | _ => w1 end)
          = (Ret tt, w2) ->
        extract_stats (env C) (JDict pd) = Ret stats ->
        complete_run C api_key preset_uuid project_path file output_dir
                     production_uuid (JDict pd) w
        = (Ret tt,
           after w2 [Stdout (Summary "ok" production_uuid preset_uuid file downloaded
                               (default (JStr "") (dict_get "length_timestring" pd))
                               (let warning :=
                                  default (JStr "") (dict_get "warning_message" pd) in
                                if truthy warning then warning else JNull)
                               stats)]))
  /\ (forall before rest downloaded0 w downloaded1 w1 e,
        for_each before body downloaded0 w = (Ret downloaded1, w1) ->
        net_fault C (requests_made (w_trace w1)) request = Some e ->
        for_each (before ++ JDict d :: rest) body downloaded0 w
        = (Raise e, after w1 [Stderr (MsgDownloading (artifact_filename d));
                              Http request]))
  /\ (forall before rest downloaded0 w downloaded1 w1 e f,
        let n := requests_made (w_trace w1) in
        let resp := net (env C) n request in
        let dest := path_join (env C) output_path f in
        for_each before body downloaded0 w = (Ret downloaded1, w1) ->
        artifact_filename d = JStr f ->
        net_fault C n request = None ->
        status_code resp = 200 ->
        stream_fault C n request = Some e ->
        w_budget w1 = None ->
        exists w2,
          for_each (before ++ JDict d :: rest) body downloaded0 w = (Raise e, w2)
          /\ w_trace w2 = w_trace (opened_for w1 api_key d dest)
                            ++ map (Write dest) (content resp)
          /\ w_files w2 = <[dest := concat_chunks (content resp)]> (w_files w1))
  /\ (forall preset_uuid project_path file output_dir production_uuid
             production_data w w1 e,
        download_results C api_key production_data
                         (path_join (env C) project_path output_dir) w
          = (Raise e, w1) ->
        complete_run C api_key preset_uuid project_path file output_dir
                     production_uuid production_data w
        = (Raise e, w1)).
Proof.
  intros Hurl Hname Hfmt request body.
  split; [|split; [|split; [|split; [|split]]]].
  - intros downloaded w n resp Hnet Hcode. apply download_one_refused; assumption.
  - intros before rest downloaded0 w downloaded1 w1 n resp Hbefore Hnet Hcode.
    rewrite for_each_app. unfold bind at 1. rewrite Hbefore. simpl. unfold bind at 1.
    unfold body at 1. rewrite download_one_refused by assumption. reflexivity.
  - intros preset_uuid project_path file output_dir production_uuid pd
           downloaded w w1 w2 stats Hdl Hidx Hstats.
    unfold complete_run. unfold bind at 1. rewrite Hdl.
    unfold bind at 1.
    destruct downloaded as [|e downloaded]; run_step;
      fold (after w1 [Stderr WarnNoOutputs]); rewrite Hidx; simpl;
      rewrite Hstats; reflexivity.
  - intros before rest downloaded0 w downloaded1 w1 e Hbefore Hnet.
    rewrite for_each_app. unfold bind at 1. rewrite Hbefore. simpl. unfold bind at 1.
    unfold body at 1. rewrite (download_one_raises C _ _ _ _ _ e) by assumption.
    reflexivity.
  - intros before rest downloaded0 w downloaded1 w1 e f n resp dest
           Hbefore Hf Hnet Hcode Hstream Hbudget.
    assert (Hne : f <> ""%string).
    { intros ->. rewrite Hf in Hname. discriminate. }
    pose proof (download_one_answered C api_key output_path d f downloaded1 w1
                  Hurl Hf Hne Hfmt Hnet Hcode) as Hone.
    cbv zeta in Hone. fold n request resp dest in Hone.
    rewrite Hstream in Hone.
    destruct (write_all dest (content resp) (opened_for w1 api_key d dest))
      as [r w2] eqn:Hwrite.
    pose proof Hwrite as Hprefix.
    eapply write_all_prefix in Hprefix;
      [|unfold opened_for; simpl; apply lookup_insert_eq].
    destruct Hprefix as (k & _ & Hfiles & Hout & _).
    destruct Hout as [[-> ->]|(_ & Hbad & _)];
      [|unfold opened_for in Hbad; simpl in Hbad; congruence].
    rewrite firstn_all in Hfiles. unfold opened_for in Hfiles at 1. simpl in Hfiles.
    rewrite insert_insert_eq in Hfiles.
    exists w2. split; [|split; [|exact Hfiles]].
    + rewrite for_each_app. unfold bind at 1. rewrite Hbefore. simpl. unfold bind at 1.
      unfold body at 1. rewrite Hone. reflexivity.
    + apply write_all_events in Hwrite; [exact Hwrite|].
      unfold opened_for. simpl. exact Hbudget.
  - intros preset_uuid project_path file output_dir production_uuid
           production_data w w1 e Hdl.
    unfold complete_run. unfold bind at 1. rewrite Hdl. reflexivity.
Qed.

Lemma download_failure_is_not_fatal_when_answered_witness :
  let C := Conditions (sample_env script_refuses_second) no_open_fault no_fault no_fault in
  let first := artifact "a.mp3" "https://x/a" "mp3" in
  let second := artifact "b.mp3" "https://x/b" "mp3" in
  let pd := [("status", JInt 3); ("status_string", JStr "Done");
             ("output_files", JList [JDict first; JDict second])]%string in
  let entry := DlEntry (JStr "a.mp3") (JStr "mp3") (JStr "1.2 MB") "proj/out/a.mp3" in
  (truthy (artifact_url second) = true
   /\ truthy (artifact_filename second) = true
   /\ py_in_strs (artifact_format second) skipped_formats = false)
  /\ exists w2,
       complete_run C "key" "preset" "proj" "raw/in.mp3" "out" (JStr "p1") (JDict pd)
                    empty_world
       = (Ret tt,
          after w2 [Stdout (Summary "ok" (JStr "p1") "preset" "raw/in.mp3" [entry]
                              (JStr "") JNull None)])
       /\ In (Stderr (WarnDownloadFailed (JStr "b.mp3") 500)) (w_trace w2).
Proof.
  intros C first second pd entry.
  assert (Hurl : truthy (artifact_url second) = true) by reflexivity.
  assert (Hname : truthy (artifact_filename second) = true) by reflexivity.
  assert (Hfmt : py_in_strs (artifact_format second) skipped_formats = false)
    by reflexivity.
  split; [auto|].
  pose (r1 := download_results C "key" (JDict pd) (path_join (env C) "proj" "out")
                               empty_world).
  pose (r2 := update_index (env C) "proj" "out" [entry] (JStr "p1") (snd r1)).
  exists (snd r2). split.
  - apply (proj1 (proj2 (proj2 (download_failure_is_not_fatal_when_answered
                                  C "key" "proj/out" second Hurl Hname Hfmt)))
             "preset" "proj" "raw/in.mp3" "out" (JStr "p1") pd [entry]
             empty_world (snd r1) (snd r2) None);
      vm_compute; reflexivity.
  - vm_compute. tauto.
Defined.

(** C4, as stated, fails when the failure is an exception of the transport:
    the request for the second of three output files raises, and
    [download_results] ends with that exception.  No warning was logged, the
    third file was never requested, and the run ends with the exception
    too, without a summary. *)
Lemma download_results_transport_exception_counterexample :
  let C := Conditions (sample_env script_serves) no_open_fault fault_on_second no_fault in
  let first := artifact "a.mp3" "https://x/a" "mp3" in
  let second := artifact "b.mp3" "https://x/b" "mp3" in
  let third := artifact "c.mp3" "https://x/c" "mp3" in
  let pd := snapshot [JDict first; JDict second; JDict third] in
  let w' := World [Mkdir "proj/out";
                   Stderr (MsgDownloading (JStr "a.mp3"));
                   Http (Get (JStr "https://x/a") "key");
                   OpenWrite "proj/out/a.mp3";
                   Write "proj/out/a.mp3" "abc";
                   Write "proj/out/a.mp3" "def";
                   Stderr (MsgDownloading (JStr "b.mp3"));
                   Http (Get (JStr "https://x/b") "key")]
                  {[ "proj/out/a.mp3"%string := "abcdef"%string ]} None in
  download_results C "key" pd "proj/out" empty_world = (Raise RequestException, w')
  /\ complete_run C "key" "preset" "proj" "raw/in.mp3" "out" (JStr "p1") pd empty_world
     = (Raise RequestException, w').
Proof.
  intros C first second third pd w'.
  assert (Hrun : download_results C "key" pd "proj/out" empty_world
                 = (Raise RequestException, w')).
  { vm_compute. reflexivity. }
  split; [exact Hrun|].
  unfold complete_run, bind at 1.
  change (path_join (env C) "proj" "out") with "proj/out"%string.
  rewrite Hrun. reflexivity.
Qed.

(** ** The index file is rewritten in place *)




(** ** The Submitter *)

(** [upload_and_start], case by case on the response. *)
Lemma upload_and_start_spec (E : environment) (api_key file_path preset_uuid title : string)
    (w : world) :
  let req := upload_request E api_key file_path preset_uuid title in
  let resp := net E (requests_made (w_trace w)) req in
  let sent := after w [Stderr (MsgUploading (path_name E file_path)); Http req] in
  upload_and_start E api_key file_path preset_uuid title w =
  if negb (status_code resp =? 200) then
    (Exit 1, after sent [Stderr (ErrApiStatus (status_code resp) (text resp))])
  else
    match json_body resp with
    | None => (Raise ValueError, sent)
    | Some (JDict body) =>
        if truthy (default JNull (dict_get "error_code" body)) then
          (Exit 1,
           after sent [Stderr (ErrApplication
                                 (default (JStr "Unknown error")
                                          (dict_get "error_message" body)))])
        else
          match dict_get "data" body with
          | Some data => (Ret data, sent)
          | None => (Raise KeyError, sent)
          end
    | Some _ => (Raise AttributeError, sent)
    end.
Proof.
  intros req resp sent. unfold upload_and_start. run_step.
  rewrite requests_made_app. simpl. rewrite Nat.add_0_r.
  fold (upload_request E api_key file_path preset_uuid title). fold req. fold resp.
  assert (Hsent : World ((w_trace w ++ [Stderr (MsgUploading (path_name E file_path))])
                         ++ [Http req]) (w_files w) (w_budget w) = sent).
  { unfold sent, after. rewrite <- app_assoc. reflexivity. }
  rewrite Hsent.
  destruct (status_code resp =? 200); simpl; [|reflexivity].
  destruct (json_body resp) as [body|]; simpl; [|reflexivity].
  destruct body as [| | | | | |body]; simpl; try reflexivity.
  destruct (truthy (default JNull (dict_get "error_code" body))) eqn:Herr.
  - unfold default in Herr. simpl in Herr. rewrite Herr. reflexivity.
  - unfold default in Herr. simpl in Herr. rewrite Herr.
    destruct (dict_get "data" body); reflexivity.
Qed.





(** ** The StatsExtractor *)

Lemma dict_keys_set_In {V : Type} (k k' : string) (v : V) (d : list (string * V)) :
  In k (dict_keys (dict_set k' v d)) <-> k = k' \/ In k (dict_keys d).
Proof.
  destruct (dict_get k' d) as [v0|] eqn:Hget.
  - rewrite dict_keys_set_present by congruence. split; [auto|].
    intros [->|H]; [|exact H]. apply dict_get_in_keys. congruence.
  - rewrite dict_keys_set_absent by exact Hget. rewrite in_app_iff. simpl.
    split; [intros [H|[H|[]]]; auto|intros [H|H]; auto].
Qed.

Lemma value_unit_ok (E : environment) (src : list (string * json)) (field : string)
    (a b : json) (t : list json) :
  field_value src field = JList (a :: b :: t) ->
  value_unit E (JDict src) field = Ret (metric_text E (field_value src field)).
Proof.
  intros Hv. rewrite Hv. unfold field_value in Hv. unfold value_unit. simpl.
  destruct (dict_get field src) as [v|]; [|discriminate].
  simpl in Hv. subst v. reflexivity.
Qed.

Lemma add_metric_ok (E : environment) (src : list (string * json)) (field key : string)
    (result : list (string * string)) :
  metric_ok src field ->
  add_metric E (JDict src) field key result = Ret (with_metric E src field key result).
Proof.
  intros Hok. unfold add_metric, with_metric.
  change (py_get (JDict src) field JNull) with (Ret (A:=json) (field_value src field)).
  simpl.
  destruct Hok as [Hfalse|(a & b & t & Hv)].
  - rewrite Hfalse. reflexivity.
  - rewrite (value_unit_ok E src field a b t Hv). rewrite Hv. reflexivity.
Qed.

Lemma add_cut_ok (E : environment) (c : json) (result : list (string * string)) :
  cut_ok c -> add_cut E c result = Ret (with_cut E result c).
Proof.
  intros (cd & name & count & percent & -> & Hn & Hc & Hp).
  unfold add_cut, with_cut, cut_key, cut_text, cut_field. simpl.
  rewrite Hn, Hc, Hp. reflexivity.
Qed.

Lemma ofold_cuts (E : environment) (cs : list json) :
  Forall cut_ok cs ->
  forall result, ofold cs (add_cut E) result = Ret (fold_left (with_cut E) cs result).
Proof.
  induction 1 as [|c cs Hc _ IH]; intros result; simpl; [reflexivity|].
  rewrite add_cut_ok by exact Hc. simpl. apply IH.
Qed.

Lemma with_metric_keys (E : environment) (src : list (string * json)) (field key : string)
    (result : list (string * string)) (k : string) :
  In k (dict_keys (with_metric E src field key result))
  <-> (k = key /\ truthy (field_value src field) = true) \/ In k (dict_keys result).
Proof.
  unfold with_metric. destruct (truthy (field_value src field)).
  - rewrite dict_keys_set_In. tauto.
  - split; [auto|]. intros [[_ H]|H]; [discriminate|exact H].
Qed.

Lemma with_metric_NoDup (E : environment) (src : list (string * json)) (field key : string)
    (result : list (string * string)) :
  NoDup (dict_keys result) -> NoDup (dict_keys (with_metric E src field key result)).
Proof.
  intros H. unfold with_metric. destruct (truthy (field_value src field)); [|exact H].
  apply dict_set_NoDup. exact H.
Qed.

Lemma with_cuts_keys (E : environment) (cs : list json) :
  forall (result : list (string * string)) (k : string),
    In k (dict_keys (fold_left (with_cut E) cs result))
    <-> In k (dict_keys result) \/ exists c, In c cs /\ k = cut_key E c.
Proof.
  induction cs as [|c cs IH]; intros result k; simpl.
  - split; [auto|]. intros [H|(c & [] & _)]. exact H.
  - rewrite IH. unfold with_cut. rewrite dict_keys_set_In. split.
    + intros [[->|H]|(c' & Hc' & ->)]; eauto 6.
    + intros [H|(c' & [<-|Hc'] & ->)]; eauto 6.
Qed.

Lemma with_cuts_NoDup (E : environment) (cs : list json) :
  forall result : list (string * string),
    NoDup (dict_keys result) -> NoDup (dict_keys (fold_left (with_cut E) cs result)).
Proof.
  induction cs as [|c cs IH]; intros result H; simpl; [exact H|].
  apply IH. apply dict_set_NoDup. exact H.
Qed.

(** C7. [extract_stats] returns [None] when the statistics have no (or a
    falsy) [levels] member.  On usable data - every level field absent or a
    (value, unit) list, every cut a record with name, count and percent - it
    returns [None] when the mapping it built is empty and the mapping
    otherwise; the mapping has no repeated key, and its keys are exactly the
    keys of the level fields that are present and the keys of the listed
    cuts.  In particular the result is [None], not an empty mapping, when no
    level field and no cut is present. *)
Theorem extract_stats_entries
    (E : environment) (pd stats : list (string * json)) :
  default (JDict []) (dict_get "statistics" pd) = JDict stats ->
  (truthy (field_value stats "levels") = false -> extract_stats E (JDict pd) = Ret None)
  /\ (forall lv inp out cs,
        dict_get "levels" stats = Some (JDict lv) -> lv <> [] ->
        default (JDict []) (dict_get "input" lv) = JDict inp ->
        default (JDict []) (dict_get "output" lv) = JDict out ->
        metric_ok inp "loudness" -> metric_ok inp "snr" ->
        metric_ok out "loudness" -> metric_ok out "peak" ->
        cuts_listed stats cs -> Forall cut_ok cs ->
        let result := flat_stats E inp out cs in
        extract_stats E (JDict pd)
          = Ret (match result with [] => None | _ => Some result end)
        /\ NoDup (dict_keys result)
        /\ (forall k,
              In k (dict_keys result) <->
              (k = "input_loudness"%string /\ truthy (field_value inp "loudness") = true)
              \/ (k = "input_snr"%string /\ truthy (field_value inp "snr") = true)
              \/ (k = "output_loudness"%string /\ truthy (field_value out "loudness") = true)
              \/ (k = "output_peak"%string /\ truthy (field_value out "peak") = true)
              \/ exists c, In c cs /\ k = cut_key E c)
        /\ (truthy (field_value inp "loudness") = false ->
            truthy (field_value inp "snr") = false ->
            truthy (field_value out "loudness") = false ->
            truthy (field_value out "peak") = false ->
            cs = [] ->
            extract_stats E (JDict pd) = Ret None)).
Proof.
  intros Hstats.
  assert (Hhead : forall k : json -> outcome (option (list (string * string))),
            (stats0 <~ py_get (JDict pd) "statistics" (JDict []) ;; k stats0)
            = k (JDict stats)).
  { intros k. simpl. unfold default in Hstats. simpl in Hstats. rewrite Hstats.
    reflexivity. }
  split.
  - intros Hlv. unfold extract_stats. rewrite Hhead. simpl.
    unfold field_value, default in Hlv. simpl in Hlv. rewrite Hlv. reflexivity.
  - intros lv inp out cs Hlevels Hne Hinp Hout Hil His Hol Hop Hcuts Hcs result.
    assert (Hrun : extract_stats E (JDict pd)
                   = Ret (match result with [] => None | _ => Some result end)).
    { unfold extract_stats. rewrite Hhead. simpl. rewrite Hlevels.
      destruct lv as [|kv lv]; [congruence|]. simpl.
      unfold default in Hinp, Hout. simpl in Hinp, Hout. rewrite Hinp, Hout. simpl.
      rewrite (add_metric_ok E inp "loudness" "input_loudness" [] Hil). simpl.
      rewrite (add_metric_ok E inp "snr" "input_snr" _ His). simpl.
      rewrite (add_metric_ok E out "loudness" "output_loudness" _ Hol). simpl.
      rewrite (add_metric_ok E out "peak" "output_peak" _ Hop). simpl.
      change (match dict_get "cuts" stats with Some v => v | None => JNull end)
        with (field_value stats "cuts").
      unfold result, flat_stats.
      destruct Hcuts as [[Hfalse ->]|[Hlist Hnonempty]].
      - rewrite Hfalse. reflexivity.
      - rewrite Hlist. destruct cs as [|c cs]; [congruence|].
        cbn [truthy py_iter obind]. rewrite (ofold_cuts E _ Hcs). reflexivity. }
    split; [exact Hrun|]. split; [|split].
    + unfold result, flat_stats. apply with_cuts_NoDup.
      repeat apply with_metric_NoDup. constructor.
    + intros k. unfold result, flat_stats.
      rewrite with_cuts_keys, !with_metric_keys. simpl. tauto.
    + intros H1 H2 H3 H4 ->. rewrite Hrun. unfold result, flat_stats, with_metric.
      rewrite H1, H2, H3, H4. reflexivity.
Qed.

Lemma extract_stats_entries_witness :
  let E := sample_env script_serves in
  extract_stats E (JDict full_stats)
  = Ret (Some [("input_loudness", "? LUFS"); ("input_snr", "? dB");
               ("output_loudness", "? LUFS"); ("output_peak", "? dBTP");
               ("cuts_filler", "? cuts (?%)"); ("cuts_silence", "? cuts (?%)")]%string)
  /\ extract_stats E (JDict [("statistics", JDict [("cuts", JList [])])]%string) = Ret None.
Proof.
  intros E. split.
  - destruct (extract_stats_entries E full_stats full_statistics eq_refl) as [_ Hfull].
    assert (Hcuts : cuts_listed full_statistics full_cuts)
      by (right; split; [reflexivity|discriminate]).
    assert (Hok : Forall cut_ok full_cuts)
      by (repeat constructor; repeat eexists).
    assert (Hne : [("input", JDict full_input); ("output", JDict full_output)]%string
                  <> []) by discriminate.
    refine (proj1 (Hfull _ full_input full_output full_cuts eq_refl Hne eq_refl eq_refl
                         _ _ _ _ Hcuts Hok));
      right; repeat eexists.
  - apply (proj1 (extract_stats_entries E
                    [("statistics", JDict [("cuts", JList [])])]%string
                    [("cuts", JList [])]%string eq_refl)).
    reflexivity.
Defined.

(** * Further properties of the code *)

(** ** Effect discipline: which events a function can add *)

Lemma confined_weaken {A : Type} (P Q : event -> Prop) (m : M A) :
  (forall e, P e -> Q e) -> confined P m -> confined Q m.
Proof.
  intros HPQ Hm w o w' Hrun. destruct (Hm w o w' Hrun) as (new & Htr & Hall & Hf).
  exists new. split; [exact Htr|]. split; [|exact Hf].
  eapply Forall_impl; [exact Hall|exact HPQ].
Qed.

Lemma confined_pure {A : Type} (P : event -> Prop) (m : M A) :
  (forall w, snd (m w) = w) -> confined P m.
Proof.
  intros Hm w o w' Hrun. exists []. specialize (Hm w). rewrite Hrun in Hm.
  simpl in Hm. subst w'. rewrite app_nil_r. auto.
Qed.

Lemma confined_ret {A : Type} (P : event -> Prop) (a : A) : confined P (ret a).
Proof. apply confined_pure. reflexivity. Qed.

Lemma confined_lift {A : Type} (P : event -> Prop) (o : outcome A) : confined P (lift o).
Proof. apply confined_pure. reflexivity. Qed.

Lemma confined_exit {A : Type} (P : event -> Prop) (c : Z) : confined P (@sys_exit A c).
Proof. apply confined_pure. reflexivity. Qed.

Lemma confined_emit (P : event -> Prop) (e : event) :
  P e -> touched_path e = None -> confined P (emit e).
Proof.
  intros HP Hsilent w o w' [= <- <-]. exists [e]. simpl.
  split; [reflexivity|]. split; [constructor; auto|]. auto.
Qed.

Lemma confined_http (P : event -> Prop) (E : environment) (r : request) :
  P (Http r) -> confined P (http E r).
Proof.
  intros HP w o w' [= <- <-]. exists [Http r]. simpl.
  split; [reflexivity|]. split; [constructor; auto|]. auto.
Qed.

Lemma confined_open_w (P : event -> Prop) (path : string) :
  P (OpenWrite path) -> confined P (open_w path).
Proof.
  intros HP w o w' [= <- <-]. exists [OpenWrite path]. simpl.
  split; [reflexivity|]. split; [constructor; auto|]. split; [|auto].
  intros q Hq. apply lookup_insert_ne. intros ->.
  apply (Hq (OpenWrite q)); [left; reflexivity|reflexivity].
Qed.

Lemma confined_write (P : event -> Prop) (path chunk : string) :
  P (Write path chunk) -> confined P (write path chunk).
Proof.
  intros HP w o w'. unfold write. destruct (w_budget w) as [[|n]|] eqn:Hb.
  - intros [= <- <-]. exists []. rewrite app_nil_r. auto.
  - intros [= <- <-]. exists [Write path chunk]. simpl.
    split; [reflexivity|]. split; [constructor; auto|]. split.
    + intros q Hq. apply lookup_insert_ne. intros ->.
      apply (Hq (Write q chunk)); [left; reflexivity|reflexivity].
    + intros Hnone. specialize (Hnone (Write path chunk) (or_introl eq_refl)).
      discriminate.
  - intros [= <- <-]. exists [Write path chunk]. simpl.
    split; [reflexivity|]. split; [constructor; auto|]. split.
    + intros q Hq. apply lookup_insert_ne. intros ->.
      apply (Hq (Write q chunk)); [left; reflexivity|reflexivity].
    + intros Hnone. specialize (Hnone (Write path chunk) (or_introl eq_refl)).
      discriminate.
Qed.

Lemma confined_bind {A B : Type} (P : event -> Prop) (m : M A) (k : A -> M B) :
  confined P m -> (forall a, confined P (k a)) -> confined P (bind m k).
Proof.
  intros Hm Hk w o w'. unfold bind.
  destruct (m w) as [r w1] eqn:Hrun.
  destruct (Hm w r w1 Hrun) as (new1 & Htr1 & Hall1 & Hf1 & Hb1).
  destruct r as [a| | |];
    try (intros [= <- <-]; exists new1; auto).
  intros Hrun2. destruct (Hk a w1 o w' Hrun2) as (new2 & Htr2 & Hall2 & Hf2 & Hb2).
  exists (new1 ++ new2). rewrite Htr2, Htr1, <- app_assoc.
  split; [reflexivity|]. split; [apply Forall_app; auto|]. split.
  - intros q Hq. rewrite Hf2, Hf1; [reflexivity| |];
      intros e He; apply Hq; apply in_or_app; auto.
  - intros Hq. rewrite Hb2, Hb1; [reflexivity| |];
      intros e He; apply Hq; apply in_or_app; auto.
Qed.

Lemma confined_for_each {A S : Type} (P : event -> Prop) (l : list A)
    (body : A -> S -> M S) :
  (forall x s, confined P (body x s)) -> forall s, confined P (for_each l body s).
Proof.
  intros Hbody. induction l as [|x l IH]; intros s; simpl.
  - apply confined_ret.
  - apply confined_bind; [apply Hbody|exact IH].
Qed.

Lemma confined_write_all (P : event -> Prop) (path : string) (chunks : list string) :
  (forall c, P (Write path c)) -> confined P (write_all path chunks).
Proof.
  intros HP. unfold write_all. apply confined_for_each.
  intros c s. apply confined_write. apply HP.
Qed.

Lemma confined_path_exists (P : event -> Prop) (path : string) :
  confined P (path_exists path).
Proof. apply confined_pure. reflexivity. Qed.

Lemma confined_load_json (P : event -> Prop) (E : environment) (path : string) :
  confined P (load_json E path).
Proof.
  apply confined_pure. intros w. unfold load_json.
  destruct (w_files w !! path) as [s|]; [|reflexivity].
  destruct (json_load E s); reflexivity.
Qed.

(** Steps through a monadic program, one bind or branch at a time. *)
Ltac confine :=
  repeat first
    [ apply confined_ret
    | apply confined_lift
    | apply confined_exit
    | apply confined_path_exists
    | apply confined_load_json
    | apply confined_bind; [|intros ?]
    | match goal with
      | |- confined _ (if ?b then _ else _) => destruct b
      | |- confined _ (match ?x with [] => _ | _ :: _ => _ end) => destruct x
      end ].

(** ** The Poller, iteration by iteration *)

(** One iteration of the loop: a sleep, a status query, the diagnostics of
    the verdict on the response, and then either the next iteration or the
    end of the call. *)
Lemma poll_loop_step (E : environment) (fuel : nat) (api_key : string) (uuid : json)
    (waited : Z) (w : world) :
  waited < MAX_POLL_TIME ->
  let resp := net E (requests_made (w_trace w)) (status_query E api_key uuid) in
  let verdict := poll_verdict resp (waited + POLL_INTERVAL) in
  let w1 := after w (poll_events E api_key uuid (fst verdict)) in
  poll_loop E (S fuel) api_key uuid waited w =
  match snd verdict with
  | None => poll_loop E fuel api_key uuid (waited + POLL_INTERVAL) w1
  | Some o => (o, w1)
  end.
Proof.
  intros Hlt resp verdict w1. subst verdict w1.
  simpl. apply Z.ltb_lt in Hlt. rewrite Hlt. run_step.
  rewrite requests_made_sleep. fold (status_query E api_key uuid). fold resp.
  unfold poll_verdict, poll_events, after.
  destruct (status_code resp =? 200); simpl;
    [|rewrite <- !app_assoc; reflexivity].
  destruct (json_body resp) as [body|]; simpl;
    [|rewrite <- !app_assoc; reflexivity].
  destruct body as [| | | | | |b]; simpl; try (rewrite <- !app_assoc; reflexivity).
  destruct (dict_get "data" b) as [data|]; simpl.
  - destruct data as [| | | | | |d]; simpl; try (rewrite <- !app_assoc; reflexivity).
    destruct (py_eq_int _ STATUS_DONE); simpl;
      [rewrite <- !app_assoc; reflexivity|].
    destruct (py_eq_int _ STATUS_ERROR || py_eq_int _ STATUS_INCOMPLETE); simpl;
      rewrite <- !app_assoc; reflexivity.
  - rewrite <- !app_assoc. reflexivity.
Qed.

Lemma poll_events_counts (E : environment) (api_key : string) (uuid : json)
    (msgs : list message) :
  requests_made (poll_events E api_key uuid msgs) = 1%nat
  /\ slept (poll_events E api_key uuid msgs) = POLL_INTERVAL
  /\ Forall (poll_event E api_key uuid) (poll_events E api_key uuid msgs)
  /\ (forall e, In e (poll_events E api_key uuid msgs) -> touched_path e = None).
Proof.
  unfold poll_events. simpl.
  assert (Hmsgs : requests_made (map Stderr msgs) = 0%nat
                  /\ slept (map Stderr msgs) = 0
                  /\ Forall (poll_event E api_key uuid) (map Stderr msgs)
                  /\ forall e, In e (map Stderr msgs) -> touched_path e = None).
  { induction msgs as [|m msgs (IH1 & IH2 & IH3 & IH4)]; simpl.
    - repeat split; auto. intros e [].
    - repeat split; auto.
      + constructor; [right; right; eauto|exact IH3].
      + intros e [<-|He]; [reflexivity|auto]. }
  destruct Hmsgs as (H1 & H2 & H3 & H4). rewrite H1, H2.
  split; [reflexivity|]. split; [lia|]. split.
  - constructor; [left; reflexivity|]. constructor; [right; left; reflexivity|exact H3].
  - intros e [<-|[<-|He]]; auto.
Qed.

(** Whatever the service answers: the loop only adds events of the Poller,
    one request per sleep, and never goes past the deadline. *)
Lemma poll_loop_effects (E : environment) (api_key : string) (uuid : json) :
  forall (fuel : nat) (j : nat) (w : world) (o : outcome json) (w' : world),
    (j <= 60)%nat ->
    poll_loop E fuel api_key uuid (POLL_INTERVAL * Z.of_nat j) w = (o, w') ->
    exists new,
      w_trace w' = w_trace w ++ new
      /\ Forall (fun e => poll_event E api_key uuid e /\ touched_path e = None) new
      /\ w_files w' = w_files w
      /\ w_budget w' = w_budget w
      /\ (requests_made new <= 60 - j)%nat
      /\ slept new = POLL_INTERVAL * Z.of_nat (requests_made new).
Proof.
  induction fuel as [|fuel IH]; intros j w o w' Hj.
  - simpl. intros [= <- <-]. exists []. rewrite app_nil_r. simpl.
    repeat split; auto; lia.
  - destruct (Z.lt_ge_cases (POLL_INTERVAL * Z.of_nat j) MAX_POLL_TIME) as [Hlt|Hge].
    + rewrite poll_loop_step by exact Hlt.
      set (resp := net E _ _). set (verdict := poll_verdict resp _).
      destruct (poll_events_counts E api_key uuid (fst verdict)) as (Hr & Hs & Hp & Ht).
      assert (Hall : Forall (fun e => poll_event E api_key uuid e /\ touched_path e = None)
                       (poll_events E api_key uuid (fst verdict))).
      { apply List.Forall_forall. intros e He. split; [|auto].
        eapply List.Forall_forall in Hp; [exact Hp|exact He]. }
      assert (Hj' : (j < 60)%nat) by (poll_consts; lia).
      destruct (snd verdict) as [o1|].
      * intros [= <- <-]. eexists. split; [reflexivity|].
        rewrite Hr, Hs. repeat split; auto; poll_consts; lia.
      * replace (POLL_INTERVAL * Z.of_nat j + POLL_INTERVAL)
          with (POLL_INTERVAL * Z.of_nat (S j)) by lia.
        intros Hrun. apply IH in Hrun; [|lia].
        destruct Hrun as (new & Htr & Hnew & Hf & Hb & Hreq & Hsl).
        exists (poll_events E api_key uuid (fst verdict) ++ new).
        rewrite Htr. simpl w_trace. rewrite <- app_assoc.
        split; [reflexivity|]. split; [apply Forall_app; auto|].
        split; [exact Hf|]. split; [exact Hb|].
        rewrite requests_made_app, slept_app, Hr, Hs, Hsl.
        split; lia.
    + simpl. apply Z.ltb_ge in Hge. rewrite Hge. run_step.
      intros [= <- <-]. exists [Stderr (ErrTimedOut MAX_POLL_TIME)]. simpl.
      repeat split; auto; try lia.
      constructor; [|constructor]. split; [right; right; eauto|reflexivity].
Qed.

Lemma poll_verdict_decision (resp : response) (waited : Z) :
  snd (poll_verdict resp waited) = poll_decision resp.
Proof.
  unfold poll_decision, poll_verdict.
  destruct (negb (status_code resp =? 200)); [reflexivity|].
  destruct (json_body resp) as [body|]; [|reflexivity].
  destruct (py_get body "data" (JDict [])) as [[| | | | | |d]| | |]; try reflexivity.
  simpl. destruct (py_eq_int _ STATUS_DONE); [reflexivity|].
  destruct (py_eq_int _ STATUS_ERROR || py_eq_int _ STATUS_INCOMPLETE); reflexivity.
Qed.

(** X1. Whatever the service answers, [poll_status] only sleeps one
    interval at a time, sends status queries and prints diagnostics: it
    changes no file, sends one query per sleep and at most
    [MAX_POLL_TIME / POLL_INTERVAL = 60] of them. *)
Theorem poll_status_effects
    (E : environment) (api_key : string) (uuid : json)
    (w : world) (o : outcome json) (w' : world) :
  poll_status E api_key uuid w = (o, w') ->
  exists new,
    w_trace w' = w_trace w ++ Stderr (MsgProcessing uuid) :: new
    /\ Forall (poll_event E api_key uuid) new
    /\ w_files w' = w_files w
    /\ w_budget w' = w_budget w
    /\ (requests_made new <= 60)%nat
    /\ slept new = POLL_INTERVAL * Z.of_nat (requests_made new).
Proof.
  unfold poll_status, bind, stderr, emit. cbv beta iota. intros Hrun.
  apply (poll_loop_effects E api_key uuid poll_fuel 0) in Hrun; [|lia].
  destruct Hrun as (new & Htr & Hall & Hf & Hb & Hreq & Hsl).
  exists new. simpl in Htr, Hf, Hb. rewrite Htr, <- app_assoc.
  split; [reflexivity|]. split.
  - eapply Forall_impl; [exact Hall|]. intros e [He _]. exact He.
  - repeat split; auto; lia.
Qed.

Lemma poll_status_effects_witness :
  let E := sample_env script_fails_on_third in
  exists o w' new,
    poll_status E "key" (JStr "p1") empty_world = (o, w')
    /\ w_trace w' = Stderr (MsgProcessing (JStr "p1")) :: new
    /\ requests_made new = 3%nat
    /\ slept new = 30.
Proof.
  intros E.
  destruct (poll_status E "key" (JStr "p1") empty_world) as [o w'] eqn:Hrun.
  destruct (poll_status_effects E "key" (JStr "p1") empty_world o w' Hrun)
    as (new & Htr & _).
  exists o, w', new. split; [reflexivity|]. split; [exact Htr|].
  vm_compute in Hrun. injection Hrun as <- <-.
  simpl in Htr. injection Htr as <-. split; reflexivity.
Defined.

(** The loop stops at the first response that decides. *)
Lemma poll_loop_first_decisive (E : environment) (api_key : string) (uuid : json)
    (o : outcome json) :
  forall (k fuel j : nat) (w : world),
    (j + k < 60)%nat -> (k < fuel)%nat ->
    (forall i, (i < k)%nat ->
       poll_decision (net E (requests_made (w_trace w) + i)
                          (status_query E api_key uuid)) = None) ->
    poll_decision (net E (requests_made (w_trace w) + k)
                       (status_query E api_key uuid)) = Some o ->
    exists w',
      poll_loop E fuel api_key uuid (POLL_INTERVAL * Z.of_nat j) w = (o, w')
      /\ requests_made (w_trace w') = (requests_made (w_trace w) + S k)%nat
      /\ slept (w_trace w') = slept (w_trace w) + POLL_INTERVAL * Z.of_nat (S k)
      /\ w_files w' = w_files w.
Proof.
  induction k as [|k IH]; intros fuel j w Hj Hfuel Hbefore Hlast;
    (destruct fuel as [|fuel]; [lia|]);
    (rewrite poll_loop_step by (poll_consts; lia));
    set (resp := net E (requests_made (w_trace w)) (status_query E api_key uuid));
    set (msgs := fst (poll_verdict resp _));
    destruct (poll_events_counts E api_key uuid msgs) as (Hr & Hs & _ & _);
    rewrite poll_verdict_decision.
  - rewrite Nat.add_0_r in Hlast. fold resp in Hlast. rewrite Hlast.
    eexists. split; [reflexivity|]. unfold after. simpl.
    rewrite requests_made_app, slept_app, Hr, Hs. repeat split; lia.
  - pose proof (Hbefore 0%nat ltac:(lia)) as H0. rewrite Nat.add_0_r in H0.
    fold resp in H0. rewrite H0.
    replace (POLL_INTERVAL * Z.of_nat j + POLL_INTERVAL)
      with (POLL_INTERVAL * Z.of_nat (S j)) by lia.
    set (w1 := after w _).
    assert (Hreq1 : requests_made (w_trace w1) = S (requests_made (w_trace w))).
    { unfold w1, after. simpl. rewrite requests_made_app, Hr. lia. }
    destruct (IH fuel (S j) w1) as (w' & Hrun & Hreq & Hsl & Hf); [lia|lia| | |].
    + intros i Hi. rewrite Hreq1.
      replace (S (requests_made (w_trace w)) + i)%nat
        with (requests_made (w_trace w) + S i)%nat by lia.
      apply Hbefore. lia.
    + rewrite Hreq1.
      replace (S (requests_made (w_trace w)) + k)%nat
        with (requests_made (w_trace w) + S k)%nat by lia.
      exact Hlast.
    + exists w'. split; [exact Hrun|]. rewrite Hreq, Hsl, Hf, Hreq1.
      unfold w1, after. simpl. rewrite slept_app, Hs. repeat split; lia.
Qed.

(** X2. [poll_status] ends at the first status query whose response
    decides - a succeeded snapshot, a failed job, a malformed body - provided
    that query is among the first 60: the call ends as that response says,
    after exactly one query and one interval of sleep per response seen. *)
Theorem poll_status_stops_at_first_decisive
    (E : environment) (api_key : string) (uuid : json) (w : world)
    (k : nat) (o : outcome json) :
  let query := status_query E api_key uuid in
  let first := requests_made (w_trace w) in
  (k < 60)%nat ->
  (forall i, (i < k)%nat -> poll_decision (net E (first + i) query) = None) ->
  poll_decision (net E (first + k) query) = Some o ->
  exists w',
    poll_status E api_key uuid w = (o, w')
    /\ requests_made (w_trace w') = (first + S k)%nat
    /\ slept (w_trace w') = slept (w_trace w) + POLL_INTERVAL * Z.of_nat (S k)
    /\ w_files w' = w_files w.
Proof.
  intros query first Hk Hbefore Hlast.
  unfold poll_status, bind, stderr, emit. cbv beta iota.
  set (w0 := World (w_trace w ++ [Stderr (MsgProcessing uuid)]) (w_files w) (w_budget w)).
  assert (Hreq0 : requests_made (w_trace w0) = first).
  { unfold w0. simpl. rewrite requests_made_app. simpl. unfold first. lia. }
  destruct (poll_loop_first_decisive E api_key uuid o k poll_fuel 0 w0)
    as (w' & Hrun & Hreq & Hsl & Hf);
    [lia|unfold poll_fuel, MAX_POLL_TIME; lia|rewrite Hreq0; exact Hbefore
    |rewrite Hreq0; exact Hlast|].
  exists w'. split; [exact Hrun|]. rewrite Hreq, Hsl, Hf, Hreq0.
  unfold w0. simpl. rewrite slept_app. simpl. repeat split; lia.
Qed.

Lemma poll_status_stops_at_first_decisive_witness :
  let E := sample_env script_fails_on_third in
  exists w',
    poll_status E "key" (JStr "p1") empty_world = (Exit 1, w')
    /\ requests_made (w_trace w') = 3%nat
    /\ slept (w_trace w') = 30.
Proof.
  intros E.
  destruct (poll_status_stops_at_first_decisive E "key" (JStr "p1") empty_world
              2 (Exit 1)) as (w' & Hrun & Hreq & Hsl & _).
  - lia.
  - intros [|[|i]] Hi; [reflexivity|reflexivity|lia].
  - reflexivity.
  - exists w'. auto.
Defined.

(** The loop runs to the deadline when no response decides. *)
Lemma poll_loop_undecided (E : environment) (api_key : string) (uuid : json) :
  (forall n, poll_decision (net E n (status_query E api_key uuid)) = None) ->
  forall (j fuel : nat) (w : world),
    (j <= 60)%nat -> (j < fuel)%nat ->
    exists w',
      poll_loop E fuel api_key uuid (MAX_POLL_TIME - POLL_INTERVAL * Z.of_nat j) w
        = (Exit 1, w')
      /\ last (w_trace w') = Some (Stderr (ErrTimedOut MAX_POLL_TIME))
      /\ requests_made (w_trace w') = (requests_made (w_trace w) + j)%nat
      /\ slept (w_trace w') = slept (w_trace w) + POLL_INTERVAL * Z.of_nat j
      /\ w_files w' = w_files w.
Proof.
  intros Hnone. induction j as [|j IH]; intros fuel w Hj Hfuel.
  - destruct fuel as [|fuel]; [lia|].
    eexists. simpl. run_step. split; [reflexivity|]. simpl.
    rewrite last_snoc, requests_made_app, slept_app. simpl.
    repeat split; lia.
  - destruct fuel as [|fuel]; [lia|].
    rewrite poll_loop_step by (poll_consts; lia).
    rewrite poll_verdict_decision, Hnone.
    set (msgs := fst (poll_verdict _ _)).
    destruct (poll_events_counts E api_key uuid msgs) as (Hr & Hs & _ & _).
    replace (MAX_POLL_TIME - POLL_INTERVAL * Z.of_nat (S j) + POLL_INTERVAL)
      with (MAX_POLL_TIME - POLL_INTERVAL * Z.of_nat j) by lia.
    destruct (IH fuel (after w (poll_events E api_key uuid msgs)))
      as (w' & Hrun & Hlast & Hreq & Hslept & Hfiles); [lia|lia|].
    exists w'. split; [exact Hrun|]. split; [exact Hlast|].
    rewrite Hreq, Hslept, Hfiles. unfold after. simpl.
    rewrite requests_made_app, slept_app, Hr, Hs.
    repeat split; lia.
Qed.

(** X3. When no response ever decides - the job keeps being reported as
    running, or the queries fail, in any mix - [poll_status] reports the
    timeout and exits with status 1 after exactly 60 queries and
    [MAX_POLL_TIME] seconds of sleep. *)
Theorem poll_status_times_out_when_undecided
    (E : environment) (api_key : string) (uuid : json) (w : world) :
  (forall n, poll_decision (net E n (status_query E api_key uuid)) = None) ->
  exists w',
    poll_status E api_key uuid w = (Exit 1, w')
    /\ last (w_trace w') = Some (Stderr (ErrTimedOut MAX_POLL_TIME))
    /\ requests_made (w_trace w') = (requests_made (w_trace w) + 60)%nat
    /\ slept (w_trace w') = slept (w_trace w) + MAX_POLL_TIME
    /\ w_files w' = w_files w.
Proof.
  intros Hnone. unfold poll_status, bind, stderr, emit. cbv beta iota.
  destruct (poll_loop_undecided E api_key uuid Hnone 60 poll_fuel
              (World (w_trace w ++ [Stderr (MsgProcessing uuid)]) (w_files w) (w_budget w)))
    as (w' & Hrun & Hlast & Hreq & Hslept & Hfiles);
    [lia | unfold poll_fuel, MAX_POLL_TIME; lia |].
  exists w'. split; [exact Hrun|]. split; [exact Hlast|].
  rewrite Hreq, Hslept, Hfiles. simpl. rewrite requests_made_app, slept_app. simpl.
  poll_consts. repeat split; lia.
Qed.

Lemma poll_status_times_out_when_undecided_witness :
  let E := sample_env script_processing in
  exists w',
    poll_status E "key" (JStr "p1") empty_world = (Exit 1, w')
    /\ requests_made (w_trace w') = 60%nat
    /\ slept (w_trace w') = 600.
Proof.
  intros E.
  destruct (poll_status_times_out_when_undecided E "key" (JStr "p1") empty_world)
    as (w' & Hrun & _ & Hreq & Hsl & _).
  - intros n. reflexivity.
  - exists w'. auto.
Defined.

(** ** The Downloader: what a served download leaves behind *)





(** ** The IndexReconciler: what it leaves alone *)

Lemma update_index_confined (E : environment) (project_path output_dir : string)
    (downloaded : list dl_entry) (u : json) :
  confined (index_event E project_path)
           (update_index E project_path output_dir downloaded u).
Proof.
  unfold update_index. confine.
  - apply confined_open_w. left. reflexivity.
  - apply confined_write_all. intros c. right. eauto.
  - apply confined_write. right. eauto.
Qed.

(** X5. [update_index] only opens and writes [file_index.json]: it sends no
    request, prints nothing, and every other file is as it was, however the
    call ends. *)
Theorem update_index_touches_only_the_index
    (E : environment) (project_path output_dir : string)
    (downloaded : list dl_entry) (u : json) (w : world)
    (o : outcome unit) (w' : world) :
  update_index E project_path output_dir downloaded u w = (o, w') ->
  exists new,
    w_trace w' = w_trace w ++ new
    /\ Forall (index_event E project_path) new
    /\ requests_made new = 0%nat
    /\ (forall q, q <> index_file E project_path ->
                  w_files w' !! q = w_files w !! q).
Proof.
  intros Hrun.
  destruct (update_index_confined E project_path output_dir downloaded u w o w' Hrun)
    as (new & Htr & Hall & Hfiles & _).
  exists new. split; [exact Htr|]. split; [exact Hall|]. split.
  - clear -Hall. induction Hall as [|e new He _ IH]; [reflexivity|].
    destruct He as [->|[c ->]]; exact IH.
  - intros q Hq. apply Hfiles. intros e He.
    eapply List.Forall_forall in Hall; [|exact He].
    destruct Hall as [->|[c ->]]; simpl; congruence.
Qed.

Lemma update_index_touches_only_the_index_witness :
  let E := env_loading sample_index in
  let w := World [] {[ "proj/out/talk.mp3"%string := "abcdef"%string ]} None in
  exists w',
    update_index E "proj" "out" [sample_download] (JStr "p1") w = (Ret tt, w')
    /\ w_files w' !! "proj/out/talk.mp3"%string = Some "abcdef"%string.
Proof.
  intros E w.
  destruct (update_index E "proj" "out" [sample_download] (JStr "p1") w) as [o w'] eqn:Hrun.
  destruct (update_index_touches_only_the_index E "proj" "out" [sample_download]
              (JStr "p1") w o w' Hrun) as (new & _ & _ & _ & Hfiles).
  exists w'. split.
  - vm_compute in Hrun. injection Hrun as <- <-. reflexivity.
  - rewrite Hfiles by discriminate. reflexivity.
Defined.

(** The loop never removes or reorders keys, and leaves alone the entries
    of files that were not downloaded. *)
Lemma reconcile_frame (E : environment) (output_dir : string) (u : json) :
  forall (rest : list dl_entry) (i : nat) (a fd : list (string * json)),
    reconcile E output_dir u i rest (JDict a) = Ret (JDict fd) ->
    (exists added, dict_keys fd = dict_keys a ++ added
                   /\ forall k, In k added -> In k (index_keys E output_dir rest))
    /\ (forall k, ~ In k (index_keys E output_dir rest) -> dict_get k fd = dict_get k a).
Proof.
  induction rest as [|dl rest IH]; intros i a fd; simpl.
  - intros [= <-]. split; [|reflexivity]. exists []. rewrite app_nil_r.
    split; [reflexivity|]. intros k [].
  - destruct (reconcile_entry E output_dir u (today E i) dl (JDict a)) as [r| | |] eqn:Hstep;
      simpl; try discriminate.
    apply reconcile_entry_step in Hstep. destruct Hstep as (e & He & ->).
    intros Hrest. apply IH in Hrest. destruct Hrest as ((added & Hkeys & Hadded) & Hget).
    split.
    + destruct He as [[Hnone _]|Hsome].
      * rewrite dict_keys_set_absent in Hkeys by exact Hnone.
        exists (index_key E output_dir dl :: added).
        rewrite Hkeys, <- app_assoc. split; [reflexivity|].
        intros k [<-|Hk]; [left; reflexivity|right; auto].
      * rewrite dict_keys_set_present in Hkeys by congruence.
        exists added. split; [exact Hkeys|]. intros k Hk. right. auto.
    + intros k Hk. rewrite Hget by tauto.
      apply dict_get_set_ne. tauto.
Qed.

(** X6. The loop of [update_index] keeps every key of the prior index in
    its place, adds new keys after them - only keys of downloaded files -
    and leaves the entry of every file that was not downloaded exactly as it
    was. *)
Theorem reconcile_keeps_other_entries
    (E : environment) (output_dir : string) (u : json)
    (downloaded : list dl_entry) (a fd : list (string * json)) :
  reconcile E output_dir u 0 downloaded (JDict a) = Ret (JDict fd) ->
  (exists added, dict_keys fd = dict_keys a ++ added
                 /\ forall k, In k added -> In k (index_keys E output_dir downloaded))
  /\ (forall k, ~ In k (index_keys E output_dir downloaded) ->
                dict_get k fd = dict_get k a).
Proof. apply reconcile_frame. Qed.

Lemma reconcile_keeps_other_entries_witness :
  let E := env_loading sample_index in
  let a := [("raw/notes.txt", JStr "not an entry")]%string ++ annotated_index in
  exists fd,
    reconcile E "out" (JStr "p1") 0 [sample_download] (JDict a) = Ret (JDict fd)
    /\ dict_keys fd = ["raw/notes.txt"; "out/talk.mp3"]%string
    /\ dict_get "raw/notes.txt" fd = Some (JStr "not an entry").
Proof.
  intros E a.
  destruct (reconcile E "out" (JStr "p1") 0 [sample_download] (JDict a)) as [r| | |] eqn:Hrun;
    try (vm_compute in Hrun; discriminate).
  destruct r as [| | | | | |fd]; try (vm_compute in Hrun; discriminate).
  destruct (reconcile_keeps_other_entries E "out" (JStr "p1") [sample_download] a fd Hrun)
    as (_ & Hget).
  exists fd. split; [reflexivity|]. split.
  - vm_compute in Hrun. injection Hrun as <-. reflexivity.
  - rewrite Hget; [reflexivity|]. simpl. intros [H|[]]. discriminate.
Defined.

(** Every download has its entry in the resulting index. *)
Lemma reconcile_records (E : environment) (output_dir : string) (u : json) :
  forall (rest : list dl_entry) (i : nat) (a fd : list (string * json)) (dl : dl_entry),
    reconcile E output_dir u i rest (JDict a) = Ret (JDict fd) ->
    In dl rest ->
    exists e date fmt,
      dict_get (index_key E output_dir dl) fd = Some (JDict (merge_entry u date fmt e)).
Proof.
  induction rest as [|dl0 rest IH]; intros i a fd dl; simpl; [intros _ []|].
  destruct (reconcile_entry E output_dir u (today E i) dl0 (JDict a)) as [r| | |] eqn:Hstep;
    simpl; try discriminate.
  apply reconcile_entry_step in Hstep. destruct Hstep as (e & He & ->).
  intros Hrest [<-|Hin].
  - destruct (reconcile_evolves E output_dir u _ _ _ _ Hrest) as (fd' & Hfd & _ & Hev).
    injection Hfd as <-.
    destruct (Hev (index_key E output_dir dl0)
                  (JDict (merge_entry u (today E i) (dl_format dl0) e)))
      as (v' & Hv' & Hev'); [apply dict_get_set_eq|].
    destruct (evolved_merge u _ v' _ _ _ eq_refl Hev') as (f' & ->). eauto.
  - eapply IH; eassumption.
Qed.

Lemma merge_entry_fields (u : json) (date : string) (fmt : json)
    (e : list (string * json)) :
  dict_get "added" (merge_entry u date fmt e)
    = Some (default (JStr date) (dict_get "added" e))
  /\ dict_get "type" (merge_entry u date fmt e) = Some (JStr "audio")
  /\ dict_get "description" (merge_entry u date fmt e)
       = Some (default (JStr "") (dict_get "description" e))
  /\ dict_get "notes" (merge_entry u date fmt e)
       = Some (default (JStr "") (dict_get "notes" e))
  /\ dict_get "origin" (merge_entry u date fmt e) = Some (origin_of u fmt).
Proof.
  destruct (entry_base_fields date e) as (Ha & Ht & Hd & Hn).
  unfold merge_entry. rewrite !dict_get_set_ne by discriminate.
  rewrite dict_get_set_eq. auto.
Qed.

(** X7. After the loop of [update_index], every downloaded file has an
    entry in the index, of type "audio", with an [added] date, a
    [description], [notes] and an [origin] that names the skill and the
    production. *)
Theorem reconcile_records_every_download
    (E : environment) (output_dir : string) (u : json)
    (downloaded : list dl_entry) (a fd : list (string * json)) (dl : dl_entry) :
  reconcile E output_dir u 0 downloaded (JDict a) = Ret (JDict fd) ->
  In dl downloaded ->
  exists entry fmt,
    dict_get (index_key E output_dir dl) fd = Some (JDict entry)
    /\ dict_get "type" entry = Some (JStr "audio")
    /\ dict_get "added" entry <> None
    /\ dict_get "description" entry <> None
    /\ dict_get "notes" entry <> None
    /\ dict_get "origin" entry = Some (origin_of u fmt).
Proof.
  intros Hrun Hin.
  destruct (reconcile_records E output_dir u downloaded 0 a fd dl Hrun Hin)
    as (e & date & fmt & Hget).
  destruct (merge_entry_fields u date fmt e) as (Ha & Ht & Hd & Hn & Ho).
  exists (merge_entry u date fmt e), fmt.
  rewrite Ha, Hd, Hn. repeat split; auto; discriminate.
Qed.

Lemma reconcile_records_every_download_witness :
  let E := env_loading sample_index in
  exists fd entry,
    reconcile E "out" (JStr "p1") 0 [sample_download; second_download] (JDict [])
      = Ret (JDict fd)
    /\ dict_get "out/talk.flac" fd = Some (JDict entry)
    /\ dict_get "type" entry = Some (JStr "audio").
Proof.
  intros E.
  destruct (reconcile E "out" (JStr "p1") 0 [sample_download; second_download] (JDict []))
    as [r| | |] eqn:Hrun; try (vm_compute in Hrun; discriminate).
  destruct r as [| | | | | |fd]; try (vm_compute in Hrun; discriminate).
  destruct (reconcile_records_every_download E "out" (JStr "p1")
              [sample_download; second_download] [] fd second_download Hrun)
    as (entry & fmt & Hget & Htype & _); [right; left; reflexivity|].
  exists fd, entry. auto.
Defined.

(** X8. A downloaded file that was not in the index and occurs once among
    the downloads gets exactly the entry of a new file: the date of the
    day, type "audio", empty description and notes, and its origin. *)
Theorem reconcile_creates_fresh_entry
    (E : environment) (output_dir : string) (u : json)
    (before after_ : list dl_entry) (dl : dl_entry) (a fd : list (string * json)) :
  let key := index_key E output_dir dl in
  reconcile E output_dir u 0 (before ++ dl :: after_) (JDict a) = Ret (JDict fd) ->
  dict_get key a = None ->
  ~ In key (index_keys E output_dir before) ->
  ~ In key (index_keys E output_dir after_) ->
  dict_get key fd = Some (fresh_entry u (today E (length before)) (dl_format dl)).
Proof.
  intros key.
  assert (Hgen : forall pre i a0,
             reconcile E output_dir u i (pre ++ dl :: after_) (JDict a0) = Ret (JDict fd) ->
             dict_get key a0 = None ->
             ~ In key (index_keys E output_dir pre) ->
             ~ In key (index_keys E output_dir after_) ->
             dict_get key fd
             = Some (fresh_entry u (today E (i + length pre)) (dl_format dl))).
  { induction pre as [|dl0 pre IH]; intros i a0; simpl.
    - destruct (reconcile_entry E output_dir u (today E i) dl (JDict a0))
        as [r| | |] eqn:Hstep; simpl; try discriminate.
      apply reconcile_entry_step in Hstep. destruct Hstep as (e & He & ->).
      intros Hrest Hnone _ Hafter. fold key in He.
      destruct He as [[_ ->]|Hsome]; [|congruence].
      destruct (reconcile_frame E output_dir u _ _ _ _ Hrest) as (_ & Hget).
      rewrite (Hget key Hafter). fold key. rewrite dict_get_set_eq.
      rewrite Nat.add_0_r. reflexivity.
    - destruct (reconcile_entry E output_dir u (today E i) dl0 (JDict a0))
        as [r| | |] eqn:Hstep; simpl; try discriminate.
      apply reconcile_entry_step in Hstep. destruct Hstep as (e & He & ->).
      intros Hrest Hnone Hpre Hafter.
      replace (i + S (length pre))%nat with (S i + length pre)%nat by lia.
      apply (IH (S i) _ Hrest); [|tauto|exact Hafter].
      rewrite dict_get_set_ne by tauto. exact Hnone. }
  intros Hrun Hnone Hbefore Hafter.
  apply (Hgen before 0%nat a Hrun Hnone Hbefore Hafter).
Qed.

Lemma reconcile_creates_fresh_entry_witness :
  let E := env_loading sample_index in
  exists fd,
    reconcile E "out" (JStr "p1") 0 [sample_download; second_download]
              (JDict annotated_index) = Ret (JDict fd)
    /\ dict_get "out/talk.flac" fd
       = Some (fresh_entry (JStr "p1") "2026-03-01" (JStr "flac")).
Proof.
  intros E.
  destruct (reconcile E "out" (JStr "p1") 0 [sample_download; second_download]
              (JDict annotated_index)) as [r| | |] eqn:Hrun;
    try (vm_compute in Hrun; discriminate).
  destruct r as [| | | | | |fd]; try (vm_compute in Hrun; discriminate).
  exists fd. split; [reflexivity|].
  apply (reconcile_creates_fresh_entry E "out" (JStr "p1") [sample_download] []
           second_download annotated_index fd Hrun).
  - reflexivity.
  - simpl. intros [H|[]]. discriminate.
  - simpl. tauto.
Defined.

(** ** The run *)

Lemma download_one_confined (E : environment) (api_key output_path : string)
    (x : json) (downloaded : list dl_entry) :
  confined not_stdout (download_one E api_key output_path x downloaded).
Proof.
  unfold download_one, stderr. confine;
    try (apply confined_emit; reflexivity);
    try (apply confined_http; reflexivity);
    try (apply confined_open_w; reflexivity).
  apply confined_write_all. reflexivity.
Qed.

Lemma download_results_confined (E : environment) (api_key : string) (pd : json)
    (output_path : string) :
  confined not_stdout (download_results E api_key pd output_path).
Proof.
  unfold download_results. confine.
  - apply confined_emit; reflexivity.
  - apply confined_for_each. intros x s. apply download_one_confined.
Qed.

Lemma summary_after {A : Type} (m : M A) (k : A -> M unit) :
  confined not_stdout m ->
  (forall a w o w', k a w = (o, w') ->
     exists new, w_trace w' = w_trace w ++ new /\ ends_with_summary not_stdout o new) ->
  forall w o w', bind m k w = (o, w') ->
    exists new, w_trace w' = w_trace w ++ new /\ ends_with_summary not_stdout o new.
Proof.
  intros Hm Hk w o w'. unfold bind.
  destruct (m w) as [r w1] eqn:Hrun.
  destruct (Hm w r w1 Hrun) as (new1 & Htr1 & Hall1 & _).
  destruct r as [a| | |]; try (intros [= <- <-]; exists new1; auto).
  intros Hrun2. destruct (Hk a w1 o w' Hrun2) as (new2 & Htr2 & Hend).
  exists (new1 ++ new2). rewrite Htr2, Htr1, <- app_assoc. split; [reflexivity|].
  destruct o as [[]| | |]; simpl in *; try (apply Forall_app; auto).
  destruct Hend as (before & s & -> & Hbefore & Hs).
  exists (new1 ++ before), s. rewrite <- app_assoc.
  split; [reflexivity|]. split; [apply Forall_app; auto|exact Hs].
Qed.

(** X9. The part of [main] that follows the polling prints the summary at
    most once: when it returns, the summary - with status "ok" - is the last
    thing it did and the only output on standard output; when it ends in
    any other way, nothing was printed on standard output. *)
Theorem complete_run_prints_summary_last
    (E : environment) (api_key preset_uuid project_path file output_dir : string)
    (production_uuid production_data : json) (w : world)
    (o : outcome unit) (w' : world) :
  complete_run E api_key preset_uuid project_path file output_dir
               production_uuid production_data w = (o, w') ->
  exists new,
    w_trace w' = w_trace w ++ new
    /\ ends_with_summary not_stdout o new.
Proof.
  unfold complete_run.
  apply summary_after; [apply download_results_confined|]. intros downloaded.
  apply summary_after.
  { destruct downloaded; [apply confined_emit; reflexivity|apply confined_ret]. }
  intros _.
  apply summary_after.
  { eapply confined_weaken; [|apply update_index_confined].
    intros e [->|[c ->]]; reflexivity. }
  intros _.
  apply summary_after; [apply confined_lift|]. intros stats.
  apply summary_after; [apply confined_lift|]. intros duration.
  apply summary_after; [apply confined_lift|]. intros warning.
  intros w0 o0 w0' [= <- <-]. eexists. split; [reflexivity|].
  simpl. exists [], (Summary "ok" production_uuid preset_uuid file downloaded duration
                       (if truthy warning then warning else JNull) stats).
  split; [reflexivity|]. split; [constructor|reflexivity].
Qed.

Lemma complete_run_prints_summary_last_witness :
  let E := env_loading sample_index in
  let corrupt := JDict [("statistics", JNull)]%string in
  exists w',
    complete_run E "key" "preset" "proj" "raw/in.mp3" "out" (JStr "p1") corrupt empty_world
    = (Raise AttributeError, w')
    /\ Forall not_stdout (w_trace w').
Proof.
  intros E corrupt.
  destruct (complete_run E "key" "preset" "proj" "raw/in.mp3" "out" (JStr "p1")
              corrupt empty_world) as [o w'] eqn:Hrun.
  destruct (complete_run_prints_summary_last E "key" "preset" "proj" "raw/in.mp3" "out"
              (JStr "p1") corrupt empty_world o w' Hrun) as (new & Htr & Hend).
  assert (Ho : o = Raise AttributeError)
    by (vm_compute in Hrun; injection Hrun as <- _; reflexivity).
  subst o. exists w'. split; [reflexivity|].
  simpl in Htr, Hend. rewrite Htr. exact Hend.
Defined.

(** X10. When the submission fails - a status code other than 200, or an
    application-level error in the body - the run ends there with exit
    status 1: one request was sent, nothing was polled, slept through or
    written. *)
Theorem run_stops_at_failed_submission
    (E : environment) (api_key preset_uuid project_path file output_dir title : string)
    (w : world) :
  let resp := net E (requests_made (w_trace w))
                  (upload_request E api_key (path_join E project_path file)
                                  preset_uuid title) in
  status_code resp <> 200 \/ app_error resp = true ->
  exists w',
    run E api_key preset_uuid project_path file output_dir title w = (Exit 1, w')
    /\ requests_made (w_trace w') = S (requests_made (w_trace w))
    /\ slept (w_trace w') = slept (w_trace w)
    /\ w_files w' = w_files w.
Proof.
  intros resp Hfail. unfold run, bind at 1.
  change (env (reliable E)) with E.
  rewrite upload_and_start_spec. fold resp. unfold app_error in Hfail.
  destruct (status_code resp =? 200) eqn:Hcode; simpl.
  - apply Z.eqb_eq in Hcode. destruct Hfail as [Hbad|Herr]; [congruence|].
    destruct (json_body resp) as [[| | | | | |body]|]; try discriminate.
    rewrite Herr. eexists. split; [reflexivity|]. simpl.
    rewrite !requests_made_app, !slept_app. simpl. repeat split; lia.
  - eexists. split; [reflexivity|]. simpl.
    rewrite !requests_made_app, !slept_app. simpl. repeat split; lia.
Qed.

Lemma run_stops_at_failed_submission_witness :
  let E := sample_env script_unavailable in
  exists w',
    run E "key" "preset" "proj" "raw/in.mp3" "out" "talk" empty_world = (Exit 1, w')
    /\ requests_made (w_trace w') = 1%nat.
Proof.
  intros E.
  destruct (run_stops_at_failed_submission E "key" "preset" "proj" "raw/in.mp3" "out"
              "talk" empty_world) as (w' & Hrun & Hreq & _).
  - left. simpl. lia.
  - exists w'. auto.
Defined.

(** X11. When the submission is accepted and no status query ever decides,
    the run ends with the timeout and exit status 1 after the submission,
    60 status queries and [MAX_POLL_TIME] seconds of sleep: nothing is
    downloaded and no file is written. *)
Theorem run_times_out_without_download
    (E : environment) (api_key preset_uuid project_path file output_dir title : string)
    (w : world) (body handle : list (string * json)) (uuid : json) :
  let resp := net E (requests_made (w_trace w))
                  (upload_request E api_key (path_join E project_path file)
                                  preset_uuid title) in
  status_code resp = 200 ->
  json_body resp = Some (JDict body) ->
  truthy (default JNull (dict_get "error_code" body)) = false ->
  dict_get "data" body = Some (JDict handle) ->
  dict_get "uuid" handle = Some uuid ->
  (forall n, poll_decision (net E n (status_query E api_key uuid)) = None) ->
  exists w',
    run E api_key preset_uuid project_path file output_dir title w = (Exit 1, w')
    /\ last (w_trace w') = Some (Stderr (ErrTimedOut MAX_POLL_TIME))
    /\ requests_made (w_trace w') = (requests_made (w_trace w) + 61)%nat
    /\ slept (w_trace w') = slept (w_trace w) + MAX_POLL_TIME
    /\ w_files w' = w_files w.
Proof.
  intros resp Hcode Hbody Herr Hdata Huuid Hnone. unfold run, bind at 1.
  change (env (reliable E)) with E.
  rewrite upload_and_start_spec. fold resp.
  apply Z.eqb_eq in Hcode. rewrite Hcode, Hbody, Herr, Hdata. simpl.
  unfold bind at 1, lift. simpl. rewrite Huuid.
  unfold bind at 1, poll_status, bind at 1, stderr, emit. cbv beta iota.
  set (w0 := World _ _ _).
  destruct (poll_loop_undecided E api_key uuid Hnone 60 poll_fuel w0)
    as (w' & Hrun & Hlast & Hreq & Hslept & Hfiles);
    [lia | unfold poll_fuel, MAX_POLL_TIME; lia |].
  change (MAX_POLL_TIME - POLL_INTERVAL * Z.of_nat 60) with 0 in Hrun.
  rewrite Hrun. exists w'. split; [reflexivity|]. split; [exact Hlast|].
  rewrite Hreq, Hslept, Hfiles. unfold w0. simpl.
  rewrite !requests_made_app, !slept_app. simpl. poll_consts. repeat split; lia.
Qed.

Lemma run_times_out_without_download_witness :
  let E := sample_env script_never_done in
  exists w',
    run E "key" "preset" "proj" "raw/in.mp3" "out" "talk" empty_world = (Exit 1, w')
    /\ requests_made (w_trace w') = 61%nat
    /\ w_files w' = ∅.
Proof.
  intros E.
  destruct (run_times_out_without_download E "key" "preset" "proj" "raw/in.mp3" "out"
              "talk" empty_world
              [("status_code", JInt 200);
               ("data", JDict [("uuid", JStr "p1"); ("status", JInt 0)])]%string
              [("uuid", JStr "p1"); ("status", JInt 0)]%string (JStr "p1"))
    as (w' & Hrun & _ & Hreq & _ & Hfiles);
    try reflexivity.
  exists w'. auto.
Defined.
